(** * maisonServeur (server.js): moderation workflow over JSON files

    A shallow embedding of the request handlers of [server.js]: the JSON
    collections under [data/], the upload directory, the admin log, and
    the Express routes that read and write them. *)

From Stdlib Require Import List String Ascii ZArith Bool Lia.
From Stdlib Require Import Floats.
Import ListNotations.
Open Scope string_scope.

(** ** JavaScript values

    A JS number is an IEEE 754 binary64: Rocq's primitive [float]. A string
    is a sequence of code units, here restricted to those below 256. *)

Module JS.

#[local] Set Warnings "-register-all".

(** The values a field of a parsed request body can hold; [VUndef] is what
    reading an absent property gives. A field sent more than once in a form
    is the array of its values. Nested objects as field values are not
    modelled. *)
Inductive value : Type :=
| VUndef
| VNull
| VBool (b : bool)
| VNum (x : float)
| VStr (s : string)
| VArr (l : list value).

(** ToBoolean: [undefined], [null], [false], [0], [-0], [NaN] and [""] are
    falsy; every array is truthy. *)
Definition truthy (v : value) : bool :=
  match v with
  | VUndef | VNull => false
  | VBool b => b
  | VNum x => negb (is_zero x || is_nan x)
  | VStr s => negb (s =? "")
  | VArr _ => true
  end.

(** [v || d] *)
Definition or_else (v d : value) : value := if truthy v then v else d.

(** *** String.prototype.trim *)

Definition is_white (c : ascii) : bool :=
  let n := nat_of_ascii c in
  ((9 <=? n) && (n <=? 13) || (n =? 32) || (n =? 160))%nat.

Fixpoint trimStart (s : string) : string :=
  match s with
  | String c r => if is_white c then trimStart r else s
  | EmptyString => EmptyString
  end.

Fixpoint trimEnd (s : string) : string :=
  match s with
  | String c r =>
      let r' := trimEnd r in
      if is_white c && (r' =? "") then "" else String c r'
  | EmptyString => EmptyString
  end.

Definition trim (s : string) : string := trimEnd (trimStart s).

(** *** StringToNumber (ECMAScript StringNumericLiteral) *)

Definition digit_of (radix : Z) (c : ascii) : option Z :=
  let n := Z.of_nat (nat_of_ascii c) in
  let d :=
    (if (48 <=? n) && (n <=? 57) then n - 48
     else if (97 <=? n) && (n <=? 102) then n - 87
     else if (65 <=? n) && (n <=? 70) then n - 55
     else 16)%Z in
  if (d <? radix)%Z then Some d else None.

(** The longest run of digits at the head of [s]: the number read so far,
    how many digits were read, and what follows them. *)
Fixpoint digits (radix : Z) (s : string) (acc count : Z) : Z * Z * string :=
  match s with
  | String c r =>
      match digit_of radix c with
      | Some d => digits radix r (radix * acc + d)%Z (count + 1)%Z
      | None => (acc, count, s)
      end
  | EmptyString => (acc, count, s)
  end.

(** ExponentPart, optional, up to the end of the string. *)
Definition exponentPart (s : string) : option Z :=
  match s with
  | EmptyString => Some 0%Z
  | String c r =>
      if (c =? "e")%char || (c =? "E")%char then
        let '(sgn, r') :=
          match r with
          | String "+" r' => (1%Z, r')
          | String "-" r' => ((-1)%Z, r')
          | _ => (1%Z, r)
          end in
        let '(v, n, rest) := digits 10 r' 0 0 in
        if (0 <? n)%Z && (rest =? "") then Some (sgn * v)%Z else None
      else None
  end.

(** StrUnsignedDecimalLiteral without [Infinity]: the decimal mantissa [m]
    and exponent [e] of the mathematical value [m * 10^e]. *)
Definition unsignedDecimal (s : string) : option (Z * Z) :=
  let '(i, ni, r1) := digits 10 s 0 0 in
  match r1 with
  | String "." r2 =>
      let '(m, nf, r3) := digits 10 r2 i 0 in
      if (0 <? ni + nf)%Z
      then option_map (fun e => (m, e - nf)%Z) (exponentPart r3)
      else None
  | _ =>
      if (0 <? ni)%Z then option_map (fun e => (i, e)) (exponentPart r1) else None
  end.

(** The double nearest to [m * 10^e] (ties to even), for [0 <= m]. *)
Definition round_decimal (neg : bool) (m e : Z) : float :=
  match m with
  | Zpos p =>
      if (0 <=? e)%Z
      then SF2Prim (binary_normalize prec emax
                      (if neg then Z.opp (m * 10 ^ e) else m * 10 ^ e)%Z 0 false)
      else SF2Prim (SFdiv prec emax (S754_finite neg p 0)
                      (S754_finite false (Z.to_pos (10 ^ (- e))) 0))
  | _ => if neg then neg_zero else zero
  end.

Definition strDecimal (neg : bool) (s : string) : float :=
  if s =? "Infinity" then (if neg then neg_infinity else infinity)
  else match unsignedDecimal s with
       | Some (m, e) => round_decimal neg m e
       | None => nan
       end.

Definition nonDecimal (radix : Z) (s : string) : float :=
  let '(v, n, rest) := digits radix s 0 0 in
  if (0 <? n)%Z && (rest =? "") then round_decimal false v 0 else nan.

Definition StringToNumber (s : string) : float :=
  match trim s with
  | EmptyString => zero
  | String "+" r => strDecimal false r
  | String "-" r => strDecimal true r
  | String "0" (String c r) as t =>
      if (c =? "x")%char || (c =? "X")%char then nonDecimal 16 r
      else if (c =? "o")%char || (c =? "O")%char then nonDecimal 8 r
      else if (c =? "b")%char || (c =? "B")%char then nonDecimal 2 r
      else strDecimal false t
  | t => strDecimal false t
  end.

(** [Number(v)]. An array converts through its string, its elements
    joined by commas ([null] and [undefined] giving nothing): the empty array
    gives the empty string, hence 0; two elements or more leave a comma in the
    string, hence NaN; one element gives the number of the string of that
    element - for a number that number again, with -0 read back as 0. *)
Fixpoint Number (v : value) : float :=
  match v with
  | VUndef => nan
  | VNull => zero
  | VBool b => if b then one else zero
  | VNum x => x
  | VStr s => StringToNumber s
  | VArr l =>
      match l with
      | [] => zero
      | [e] =>
          match e with
          | VUndef | VNull => zero
          | VBool _ => nan
          | VNum x => if is_zero x then zero else x
          | VStr s => StringToNumber s
          | VArr _ => Number e
          end
      | _ => nan
      end
  end.

Definition isNaN (x : float) : bool := is_nan x.

(** *** Exceptions

    [v.trim()] is a call of [String.prototype.trim] when [v] is a string;
    on any other value the property [trim] is not a function and the call
    throws a [TypeError], whose message names the receiver as the source
    writes it ([body.titre.trim is not a function]). *)

Inductive exn : Type := TypeError (what : string).

Definition result (A : Type) : Type := (A + exn)%type.

Definition trim_method (receiver : string) (v : value) : result string :=
  match v with
  | VStr s => inl (trim s)
  | _ => inr (TypeError (receiver ++ ".trim is not a function"))
  end.

(** Evaluation in sequence, up to the first exception. *)
Definition and_then {A B : Type} (r : result A) (k : A -> result B) : result B :=
  match r with
  | inl a => k a
  | inr e => inr e
  end.

Notation "x <-? r ;; k" := (and_then r (fun x => k))
  (at level 61, r at next level, right associativity).

(** *** JSON.parse (JSON.stringify v)

    What is read back from a file is what was written after a round trip
    through JSON text: [NaN] and the infinities become [null], [-0] becomes
    [0], and a property holding [undefined] is left out (reading it gives
    [undefined] again); in an array [undefined] becomes [null]. *)

(** A property that holds a number in memory holds a number or [null]
    once it has been through a file. *)
Inductive numeric : Type := Num (x : float) | Null.

Definition JSON_number (x : float) : numeric :=
  if is_finite x then Num (if is_zero x then zero else x) else Null.

Definition JSON_numeric (n : numeric) : numeric :=
  match n with
  | Num x => JSON_number x
  | Null => Null
  end.

Fixpoint JSON_value (v : value) : value :=
  match v with
  | VNum x => match JSON_number x with Num y => VNum y | Null => VNull end
  | VArr l =>
      VArr (map (fun e => match JSON_value e with VUndef => VNull | e' => e' end) l)
  | _ => v
  end.

Definition value_of (n : numeric) : value :=
  match n with
  | Num x => VNum x
  | Null => VNull
  end.

End JS.

Import JS.

(** ** The records of the four collections *)

(** [statut]: en_attente / valide / refuse *)
Module Statut.
Inductive t : Type := en_attente | valide | refuse.

(** [a === b] *)
Definition eqb (a b : t) : bool :=
  match a, b with
  | en_attente, en_attente | valide, valide | refuse, refuse => true
  | _, _ => false
  end.
End Statut.
Export Statut (en_attente, valide, refuse).

Module Maison.
Record t : Type := mk {
  id : string;
  titre : string;
  description : value;
  prix : numeric;
  ville : value;
  commune : value;
  quartier : value;
  garantie : value;
  localisation : value;
  images : list string;
  auteur : value;
  statut : Statut.t;
  datePublication : string;
  refuseReason : value   (* [VUndef]: the record has no such property *)
}.

(** [m.statut = s] *)
Definition set_statut (s : Statut.t) (m : t) : t :=
  mk (id m) (titre m) (description m) (prix m) (ville m) (commune m)
     (quartier m) (garantie m) (localisation m) (images m) (auteur m)
     s (datePublication m) (refuseReason m).

(** [m.refuseReason = v] *)
Definition set_refuseReason (v : value) (m : t) : t :=
  mk (id m) (titre m) (description m) (prix m) (ville m) (commune m)
     (quartier m) (garantie m) (localisation m) (images m) (auteur m)
     (statut m) (datePublication m) v.

Definition json (m : t) : t :=
  mk (id m) (titre m) (JSON_value (description m)) (JSON_numeric (prix m))
     (JSON_value (ville m)) (JSON_value (commune m)) (JSON_value (quartier m))
     (JSON_value (garantie m)) (JSON_value (localisation m)) (images m)
     (JSON_value (auteur m)) (statut m) (datePublication m)
     (JSON_value (refuseReason m)).
End Maison.

Module Utilisateur.
Record t : Type := mk {
  id : string;
  nom : string;
  telephone : string;
  maisons : list string
}.

Definition json (u : t) : t := u.
End Utilisateur.

Module Paiement.
Record t : Type := mk {
  id : string;
  utilisateur : value;
  maison : value;
  montant : numeric;
  reference : value;
  methode : value;
  statut : Statut.t;
  date : string;
  receptionPhone : string;
  refuseReason : value   (* [VUndef]: the record has no such property *)
}.

Definition set_statut (s : Statut.t) (p : t) : t :=
  mk (id p) (utilisateur p) (maison p) (montant p) (reference p) (methode p)
     s (date p) (receptionPhone p) (refuseReason p).

Definition set_refuseReason (v : value) (p : t) : t :=
  mk (id p) (utilisateur p) (maison p) (montant p) (reference p) (methode p)
     (statut p) (date p) (receptionPhone p) v.

Definition json (p : t) : t :=
  mk (id p) (JSON_value (utilisateur p)) (JSON_value (maison p))
     (JSON_numeric (montant p)) (JSON_value (reference p))
     (JSON_value (methode p)) (statut p) (date p) (receptionPhone p)
     (JSON_value (refuseReason p)).
End Paiement.

Module Transaction.
Record t : Type := mk {
  id : string;
  paiementId : string;
  montant : numeric;
  date : string
}.

Definition json (x : t) : t :=
  mk (id x) (paiementId x) (JSON_numeric (montant x)) (date x).
End Transaction.

(** ** Configuration *)

Record config : Type := {
  ADMIN_PASSWORD : string;   (* process.env.ADMIN_PASSWORD || "Ben&4002" *)
  PAYMENT_PHONE : string;    (* process.env.PAYMENT_PHONE || "+243831401205" *)
  BASE_DIR : string          (* __dirname *)
}.

Definition MAX_IMAGES : nat := 5.

(** [path.join(a, b)] for the paths met here: one separator between the two
    parts (no [.] or [..] segment is normalised). *)
Definition path_join (a b : string) : string :=
  match b with
  | String "/" b' => a ++ "/" ++ b'
  | _ => a ++ "/" ++ b
  end.

Definition UPLOAD_DIR (cfg : config) : string := path_join (BASE_DIR cfg) "uploads".

(** ** The state the handlers work on *)

(** One line of logs/admin-actions.log: the time stamp, the action, and
    the values interpolated into the details, each under its label. *)
Record log_line : Type := {
  log_date : string;
  log_action : string;
  log_details : list (string * value)
}.

(** The four JSON files, the admin log, and the paths of the files present
    on disk under the upload directory. A JSON file is kept as the array
    last given to [writeJson] ([None] for a file that cannot be read or
    parsed); its text is the [JSON.stringify] of that array, so a reader gets
    the array after the JSON round trip. *)
Record world : Type := {
  maisons_json : option (list Maison.t);
  utilisateurs_json : option (list Utilisateur.t);
  paiements_json : option (list Paiement.t);
  transactions_json : option (list Transaction.t);
  admin_actions_log : list log_line;
  disk : list string
}.

(** What [ensureJsonFile] leaves at first start: four files holding [[]]. *)
Definition initial : world :=
  {| maisons_json := Some []; utilisateurs_json := Some [];
     paiements_json := Some []; transactions_json := Some [];
     admin_actions_log := []; disk := [] |}.

(** A JSON file of records of type [A]: where it sits in the world, and the
    round trip its records take through JSON text. *)
Record json_file (A : Type) : Type := {
  content : world -> option (list A);
  replace : option (list A) -> world -> world;
  json : A -> A
}.

Arguments content {A} _ _.
Arguments replace {A} _ _ _.
Arguments json {A} _ _.

Definition MAISONS_FILE : json_file Maison.t :=
  {| content := maisons_json;
     replace := fun c w =>
       Build_world c (utilisateurs_json w) (paiements_json w)
                   (transactions_json w) (admin_actions_log w) (disk w);
     json := Maison.json |}.

Definition USERS_FILE : json_file Utilisateur.t :=
  {| content := utilisateurs_json;
     replace := fun c w =>
       Build_world (maisons_json w) c (paiements_json w)
                   (transactions_json w) (admin_actions_log w) (disk w);
     json := Utilisateur.json |}.

Definition PAIEMENTS_FILE : json_file Paiement.t :=
  {| content := paiements_json;
     replace := fun c w =>
       Build_world (maisons_json w) (utilisateurs_json w) c
                   (transactions_json w) (admin_actions_log w) (disk w);
     json := Paiement.json |}.

Definition TRANSACTIONS_FILE : json_file Transaction.t :=
  {| content := transactions_json;
     replace := fun c w =>
       Build_world (maisons_json w) (utilisateurs_json w) (paiements_json w)
                   c (admin_actions_log w) (disk w);
     json := Transaction.json |}.

(** The collection a file holds, as every reader sees it: the parsed text
    of the file, that is the array written, each record after its JSON round
    trip; [[]] when the file cannot be read ([readJson] catches the error). *)
Definition collection {A : Type} (f : json_file A) (w : world) : list A :=
  match content f w with
  | Some data => map (json f) data
  | None => []
  end.

(** ** Handlers as state transformers that may throw *)

Definition M (A : Type) : Type := world -> result A * world.

Definition ret {A : Type} (a : A) : M A := fun w => (inl a, w).

Definition throw {A : Type} (e : exn) : M A := fun w => (inr e, w).

Definition bind {A B : Type} (c : M A) (k : A -> M B) : M B :=
  fun w =>
    match c w with
    | (inl a, w') => k a w'
    | (inr e, w') => (inr e, w')
    end.

Notation "x <- c ;; k" := (bind c (fun x => k))
  (at level 61, c at next level, right associativity).
Notation "c ;;; k" := (bind c (fun _ => k))
  (at level 61, right associativity).

(** [try { c } catch (err) { h err }] *)
Definition try_catch {A : Type} (c : M A) (h : exn -> M A) : M A :=
  fun w =>
    match c w with
    | (inl a, w') => (inl a, w')
    | (inr e, w') => h e w'
    end.

Definition lift {A : Type} (r : result A) : M A := fun w => (r, w).

(** [readJson]: the parsed file, or [[]] when reading fails. *)
Definition readJson {A : Type} (f : json_file A) : M (list A) :=
  fun w => (inl (collection f w), w).

Definition writeJson {A : Type} (f : json_file A) (data : list A) : M unit :=
  fun w => (inl tt, replace f (Some data) w).

(** [logAdmin(action, details)], called at time [now]. *)
Definition logAdmin (now : string) (action : string)
    (details : list (string * value)) : M unit :=
  fun w =>
    (inl tt,
     Build_world (maisons_json w) (utilisateurs_json w) (paiements_json w)
       (transactions_json w)
       (admin_actions_log w ++ [Build_log_line now action details])%list
       (disk w)).

Definition existsSync (p : string) : M bool :=
  fun w => (inl (existsb (String.eqb p) (disk w)), w).

Definition removeSync (p : string) : M unit :=
  fun w =>
    (inl tt,
     Build_world (maisons_json w) (utilisateurs_json w) (paiements_json w)
       (transactions_json w) (admin_actions_log w)
       (filter (fun q => negb (q =? p)) (disk w))).

(** [l.forEach(x => c x)] *)
Fixpoint forEach {A : Type} (l : list A) (c : A -> M unit) : M unit :=
  match l with
  | [] => ret tt
  | x :: r => c x ;;; forEach r c
  end.

(** The array [l] after [const m = l.find(p); m.field = ...]: [m] is the
    first element that satisfies [p], changed in place by [f]. *)
Fixpoint assign {A : Type} (p : A -> bool) (f : A -> A) (l : list A) : list A :=
  match l with
  | [] => []
  | x :: r => if p x then f x :: r else x :: assign p f r
  end.

(** ** Requests and responses *)

(** A file as multer leaves it in [req.files]. *)
Module Upload.
Record t : Type := { path : string; filename : string }.
End Upload.

(** The values the handler draws from outside during one request:
    [uuidv4()], [new Date().toISOString()] in the handler, and the same in
    [logAdmin]. *)
Record oracle : Type := {
  uuid : string;
  now : string;
  log_now : string
}.

Record request : Type := {
  authorization : option string;      (* req.headers.authorization *)
  body : list (string * value);       (* req.body *)
  files : option (list Upload.t)      (* req.files *)
}.

(** [req.body.k] *)
Fixpoint prop (o : list (string * value)) (k : string) : value :=
  match o with
  | [] => VUndef
  | (k', v) :: r => if k' =? k then v else prop r k
  end.

Inductive payload : Type :=
| Message (success : bool) (message : string)
| Invalid (message : string) (errors : list string)
| WithMaison (message : string) (maison : Maison.t)
| WithUtilisateur (message : string) (utilisateur : Utilisateur.t)
| WithPaiement (message : string) (paiement : Paiement.t)
| OneMaison (maison : Maison.t)
| OnePaiement (paiement : Paiement.t)
| Maisons (l : list Maison.t)
| Paiements (l : list Paiement.t)
| Utilisateurs (l : list Utilisateur.t)
| Stats (totalMaisons totalUsers totalPaiements : nat) (revenusTotaux : float)
| Health (time : string)
| ServerError (message : string) (error : string).

Record response : Type := { status : nat; sent : payload }.

(** [res.json(x)] and [res.status(n).json(x)] *)
Definition res_json (x : payload) : M response := ret {| status := 200; sent := x |}.
Definition res_status_json (n : nat) (x : payload) : M response :=
  ret {| status := n; sent := x |}.

(** The letters of the messages that are not ASCII, as code units. *)
Definition e_acute : string := String (ascii_of_nat 233) "".
Definition e_grave : string := String (ascii_of_nat 232) "".

(** [x.id === id], for the string [x.id] of a stored record and a value
    taken from the request. *)
Definition same_id (stored : string) (id : value) : bool :=
  match id with
  | VStr s => stored =? s
  | _ => false
  end.

(** [t.montant || 0] *)
Definition or_zero (n : numeric) : float :=
  match n with
  | Num x => if is_zero x || is_nan x then zero else x
  | Null => zero
  end.

(** ** Middlewares *)

Definition adminAuth (cfg : config) (req : request) (next : M response) : M response :=
  let key := trim (match authorization req with Some h => h | None => "" end) in
  if (key =? "") || negb (key =? ADMIN_PASSWORD cfg)
  then res_status_json 403 (Message false ("Acc" ++ e_grave ++ "s admin refus" ++ e_acute))
  else next.

(** [!v || v.trim().length < n] *)
Definition absent_or_shorter (receiver : string) (v : value) (n : nat) : result bool :=
  if negb (truthy v) then inl true
  else s <-? trim_method receiver v ;; inl (String.length s <? n)%nat.

Definition validateMaisonFields (body : list (string * value)) : result (list string) :=
  let errors := [] in
  bad <-? absent_or_shorter "body.titre" (prop body "titre") 3 ;;
  let errors := if bad then (errors ++ ["titre (min 3)"])%list else errors in
  let bad := negb (truthy (prop body "prix")) || isNaN (Number (prop body "prix")) in
  let errors := if bad then (errors ++ ["prix (nombre)"])%list else errors in
  bad <-? absent_or_shorter "body.ville" (prop body "ville") 2 ;;
  let errors := if bad then (errors ++ ["ville"])%list else errors in
  bad <-? absent_or_shorter "body.commune" (prop body "commune") 1 ;;
  let errors := if bad then (errors ++ ["commune"])%list else errors in
  bad <-? absent_or_shorter "body.quartier" (prop body "quartier") 1 ;;
  let errors := if bad then (errors ++ ["quartier"])%list else errors in
  inl errors.

(** [upload.array("images", MAX_IMAGES)], as far as the handler depends on
    it: the files of [req.files] have been written to disk. *)
Definition upload_array (req : request) : M unit :=
  fun w =>
    (inl tt,
     Build_world (maisons_json w) (utilisateurs_json w) (paiements_json w)
       (transactions_json w) (admin_actions_log w)
       (disk w ++ map Upload.path (match files req with Some l => l | None => [] end))%list).

(** ** Public routes *)

(** [req.files || []] *)
Definition files_or_empty (req : request) : list Upload.t :=
  match files req with Some l => l | None => [] end.

Definition GET_api_maisons : M response :=
  all <- readJson MAISONS_FILE ;;
  let onlyValidated := filter (fun m => Statut.eqb (Maison.statut m) valide) all in
  res_json (Maisons onlyValidated).

Definition GET_api_maisons_id (id : string) : M response :=
  all <- readJson MAISONS_FILE ;;
  match find (fun m => Maison.id m =? id) all with
  | None => res_status_json 404 (Message false "Maison introuvable")
  | Some maison => res_json (OneMaison maison)
  end.

Definition POST_api_maisons (o : oracle) (req : request) : M response :=
  try_catch
    (let body := body req in
     validation <- lift (validateMaisonFields body) ;;
     if negb (List.length validation =? 0)%nat then
       forEach (files_or_empty req) (fun f => removeSync (Upload.path f)) ;;;
       res_status_json 400 (Invalid "Champs invalides" validation)
     else
       let images :=
         map (fun f => "/uploads/" ++ Upload.filename f)
             (firstn MAX_IMAGES (files_or_empty req)) in
       maisons <- readJson MAISONS_FILE ;;
       titre <- lift (trim_method "body.titre" (prop body "titre")) ;;
       let newMaison :=
         {| Maison.id := uuid o;
            Maison.titre := titre;
            Maison.description := or_else (prop body "description") (VStr "");
            Maison.prix := Num (Number (prop body "prix"));
            Maison.ville := prop body "ville";
            Maison.commune := prop body "commune";
            Maison.quartier := prop body "quartier";
            Maison.garantie := or_else (prop body "garantie") (VStr "");
            Maison.localisation := or_else (prop body "localisation") (VStr "");
            Maison.images := images;
            Maison.auteur := or_else (prop body "auteur") VNull;
            Maison.statut := en_attente;
            Maison.datePublication := now o;
            Maison.refuseReason := VUndef |} in
       writeJson MAISONS_FILE (maisons ++ [newMaison])%list ;;;
       res_json (WithMaison ("Annonce ajout" ++ e_acute ++ "e (en attente de validation)")
                            newMaison))
    (fun err => res_status_json 500 (Message false "Erreur serveur lors de l'ajout")).

Definition POST_api_utilisateurs (o : oracle) (req : request) : M response :=
  let nom := prop (body req) "nom" in
  let telephone := prop (body req) "telephone" in
  if negb (truthy nom) || negb (truthy telephone)
  then res_status_json 400 (Message false "nom et telephone requis")
  else
    users <- readJson USERS_FILE ;;
    nom' <- lift (trim_method "nom" nom) ;;
    telephone' <- lift (trim_method "telephone" telephone) ;;
    let user :=
      {| Utilisateur.id := uuid o; Utilisateur.nom := nom';
         Utilisateur.telephone := telephone'; Utilisateur.maisons := [] |} in
    writeJson USERS_FILE (users ++ [user])%list ;;;
    res_json (WithUtilisateur ("Utilisateur cr" ++ e_acute ++ e_acute) user).

Definition POST_api_paiements (cfg : config) (o : oracle) (req : request) : M response :=
  let utilisateurId := prop (body req) "utilisateurId" in
  let maisonId := prop (body req) "maisonId" in
  let montant := prop (body req) "montant" in
  let reference := prop (body req) "reference" in
  let methode := prop (body req) "methode" in
  if negb (truthy utilisateurId) || negb (truthy maisonId) || negb (truthy montant)
  then res_status_json 400 (Message false "utilisateurId, maisonId, montant requis")
  else
    paiements <- readJson PAIEMENTS_FILE ;;
    let paiement :=
      {| Paiement.id := uuid o;
         Paiement.utilisateur := utilisateurId;
         Paiement.maison := maisonId;
         Paiement.montant := Num (Number montant);
         Paiement.reference := or_else reference VNull;
         Paiement.methode := or_else methode (VStr "mobile_money");
         Paiement.statut := en_attente;
         Paiement.date := now o;
         Paiement.receptionPhone := PAYMENT_PHONE cfg;
         Paiement.refuseReason := VUndef |} in
    writeJson PAIEMENTS_FILE (paiements ++ [paiement])%list ;;;
    res_json (WithPaiement
                ("Paiement enregistr" ++ e_acute ++ ". Envoyez l'argent au num"
                 ++ e_acute ++ "ro " ++ PAYMENT_PHONE cfg ++ " et pr" ++ e_acute
                 ++ "venez l'admin pour validation.")
                paiement).

Definition GET_api_paiements_id (id : string) : M response :=
  list <- readJson PAIEMENTS_FILE ;;
  match find (fun x => Paiement.id x =? id) list with
  | None => res_status_json 404 (Message false "Paiement introuvable")
  | Some p => res_json (OnePaiement p)
  end.

(** ** Admin routes *)

Definition GET_api_admin_maisons (cfg : config) (req : request) : M response :=
  adminAuth cfg req
    (maisons <- readJson MAISONS_FILE ;;
     res_json (Maisons maisons)).

Definition POST_api_admin_validerMaison (cfg : config) (o : oracle) (req : request)
    : M response :=
  adminAuth cfg req
    (let id := prop (body req) "id" in
     if negb (truthy id) then res_status_json 400 (Message false "id requis")
     else
       maisons <- readJson MAISONS_FILE ;;
       match find (fun x => same_id (Maison.id x) id) maisons with
       | None =>
           res_status_json 404 (Message false ("Maison non trouv" ++ e_acute ++ "e"))
       | Some m =>
           let maisons :=
             assign (fun x => same_id (Maison.id x) id) (Maison.set_statut valide) maisons in
           let m := Maison.set_statut valide m in
           writeJson MAISONS_FILE maisons ;;;
           logAdmin (log_now o) "VALIDER_MAISON"
                    [("id", id); ("titre", VStr (Maison.titre m))] ;;;
           res_json (WithMaison ("Maison valid" ++ e_acute ++ "e") m)
       end).

Definition POST_api_admin_refuserMaison (cfg : config) (o : oracle) (req : request)
    : M response :=
  adminAuth cfg req
    (let id := prop (body req) "id" in
     let raison := prop (body req) "raison" in
     if negb (truthy id) then res_status_json 400 (Message false "id requis")
     else
       maisons <- readJson MAISONS_FILE ;;
       match find (fun x => same_id (Maison.id x) id) maisons with
       | None =>
           res_status_json 404 (Message false ("Maison non trouv" ++ e_acute ++ "e"))
       | Some m =>
           let refuser x :=
             Maison.set_refuseReason (or_else raison (VStr ""))
               (Maison.set_statut refuse x) in
           let maisons := assign (fun x => same_id (Maison.id x) id) refuser maisons in
           let m := refuser m in
           writeJson MAISONS_FILE maisons ;;;
           logAdmin (log_now o) "REFUSER_MAISON"
                    [("id", id);
                     ("raison", or_else raison (VStr ("non pr" ++ e_acute ++ "cis" ++ e_acute ++ "e")))] ;;;
           res_json (WithMaison ("Maison refus" ++ e_acute ++ "e") m)
       end).

Definition POST_api_admin_supprimerMaison (cfg : config) (o : oracle) (req : request)
    : M response :=
  adminAuth cfg req
    (let id := prop (body req) "id" in
     if negb (truthy id) then res_status_json 400 (Message false "id requis")
     else
       maisons <- readJson MAISONS_FILE ;;
       match find (fun x => same_id (Maison.id x) id) maisons with
       | None =>
           res_status_json 404 (Message false ("Maison non trouv" ++ e_acute ++ "e"))
       | Some m =>
           forEach (Maison.images m)
             (fun imgPath =>
                let filePath := path_join (BASE_DIR cfg) imgPath in
                there <- existsSync filePath ;;
                if there then removeSync filePath else ret tt) ;;;
           let maisons := filter (fun x => negb (same_id (Maison.id x) id)) maisons in
           writeJson MAISONS_FILE maisons ;;;
           logAdmin (log_now o) "SUPPRIMER_MAISON"
                    [("id", id); ("titre", VStr (Maison.titre m))] ;;;
           res_json (Message true ("Maison supprim" ++ e_acute ++ "e"))
       end).

Definition GET_api_admin_paiements (cfg : config) (req : request) : M response :=
  adminAuth cfg req
    (paiements <- readJson PAIEMENTS_FILE ;;
     res_json (Paiements paiements)).

Definition POST_api_admin_validerPaiement (cfg : config) (o : oracle) (req : request)
    : M response :=
  adminAuth cfg req
    (let paiementId := prop (body req) "paiementId" in
     if negb (truthy paiementId)
     then res_status_json 400 (Message false "paiementId requis")
     else
       paiements <- readJson PAIEMENTS_FILE ;;
       match find (fun x => same_id (Paiement.id x) paiementId) paiements with
       | None =>
           res_status_json 404 (Message false ("Paiement non trouv" ++ e_acute))
       | Some p =>
           let paiements :=
             assign (fun x => same_id (Paiement.id x) paiementId)
                    (Paiement.set_statut valide) paiements in
           let p := Paiement.set_statut valide p in
           transactions <- readJson TRANSACTIONS_FILE ;;
           let transactions :=
             (transactions ++
              [ {| Transaction.id := uuid o;
                   Transaction.paiementId := Paiement.id p;
                   Transaction.montant := Paiement.montant p;
                   Transaction.date := now o |} ])%list in
           writeJson PAIEMENTS_FILE paiements ;;;
           writeJson TRANSACTIONS_FILE transactions ;;;
           logAdmin (log_now o) "VALIDER_PAIEMENT"
                    [("paiementId", paiementId);
                     ("montant", value_of (Paiement.montant p))] ;;;
           res_json (WithPaiement ("Paiement valid" ++ e_acute) p)
       end).

Definition POST_api_admin_refuserPaiement (cfg : config) (o : oracle) (req : request)
    : M response :=
  adminAuth cfg req
    (let paiementId := prop (body req) "paiementId" in
     let raison := prop (body req) "raison" in
     if negb (truthy paiementId)
     then res_status_json 400 (Message false "paiementId requis")
     else
       paiements <- readJson PAIEMENTS_FILE ;;
       match find (fun x => same_id (Paiement.id x) paiementId) paiements with
       | None =>
           res_status_json 404 (Message false ("Paiement non trouv" ++ e_acute))
       | Some p =>
           let refuser x :=
             Paiement.set_refuseReason (or_else raison (VStr ""))
               (Paiement.set_statut refuse x) in
           let paiements :=
             assign (fun x => same_id (Paiement.id x) paiementId) refuser paiements in
           let p := refuser p in
           writeJson PAIEMENTS_FILE paiements ;;;
           logAdmin (log_now o) "REFUSER_PAIEMENT"
                    [("paiementId", paiementId);
                     ("raison", or_else raison (VStr ("non pr" ++ e_acute ++ "cis" ++ e_acute ++ "e")))] ;;;
           res_json (WithPaiement ("Paiement refus" ++ e_acute) p)
       end).

Definition GET_api_admin_utilisateurs (cfg : config) (req : request) : M response :=
  adminAuth cfg req
    (u <- readJson USERS_FILE ;;
     res_json (Utilisateurs u)).

Definition POST_api_admin_supprimerUtilisateur (cfg : config) (o : oracle)
    (req : request) : M response :=
  adminAuth cfg req
    (let id := prop (body req) "id" in
     if negb (truthy id) then res_status_json 400 (Message false "id requis")
     else
       users <- readJson USERS_FILE ;;
       let users := filter (fun x => negb (same_id (Utilisateur.id x) id)) users in
       writeJson USERS_FILE users ;;;
       logAdmin (log_now o) "SUPPRIMER_UTILISATEUR" [("id", id)] ;;;
       res_json (Message true ("Utilisateur supprim" ++ e_acute))).

Definition GET_api_admin_stats (cfg : config) (req : request) : M response :=
  adminAuth cfg req
    (maisons <- readJson MAISONS_FILE ;;
     users <- readJson USERS_FILE ;;
     paiements <- readJson PAIEMENTS_FILE ;;
     transactions <- readJson TRANSACTIONS_FILE ;;
     let revenusTotaux :=
       fold_left (fun s t => (s + or_zero (Transaction.montant t))%float)
                 transactions zero in
     res_json (Stats (List.length maisons) (List.length users)
                     (List.length paiements) revenusTotaux)).

Definition GET_api_health (o : oracle) : M response := res_json (Health (now o)).

(** ** The application *)

Inductive route : Type :=
| GET_maisons
| GET_maisons_id (id : string)
| POST_maisons
| POST_utilisateurs
| POST_paiements
| GET_paiements_id (id : string)
| GET_admin_maisons
| POST_admin_validerMaison
| POST_admin_refuserMaison
| POST_admin_supprimerMaison
| GET_admin_paiements
| POST_admin_validerPaiement
| POST_admin_refuserPaiement
| GET_admin_utilisateurs
| POST_admin_supprimerUtilisateur
| GET_admin_stats
| GET_health.

Definition handler (cfg : config) (o : oracle) (r : route) (req : request) : M response :=
  match r with
  | GET_maisons => GET_api_maisons
  | GET_maisons_id id => GET_api_maisons_id id
  | POST_maisons => upload_array req ;;; POST_api_maisons o req
  | POST_utilisateurs => POST_api_utilisateurs o req
  | POST_paiements => POST_api_paiements cfg o req
  | GET_paiements_id id => GET_api_paiements_id id
  | GET_admin_maisons => GET_api_admin_maisons cfg req
  | POST_admin_validerMaison => POST_api_admin_validerMaison cfg o req
  | POST_admin_refuserMaison => POST_api_admin_refuserMaison cfg o req
  | POST_admin_supprimerMaison => POST_api_admin_supprimerMaison cfg o req
  | GET_admin_paiements => GET_api_admin_paiements cfg req
  | POST_admin_validerPaiement => POST_api_admin_validerPaiement cfg o req
  | POST_admin_refuserPaiement => POST_api_admin_refuserPaiement cfg o req
  | GET_admin_utilisateurs => GET_api_admin_utilisateurs cfg req
  | POST_admin_supprimerUtilisateur => POST_api_admin_supprimerUtilisateur cfg o req
  | GET_admin_stats => GET_api_admin_stats cfg req
  | GET_health => GET_api_health o
  end.

(** A handler run by Express: what it throws and does not catch reaches
    the global error handler, which answers 500. *)
Definition serve (h : M response) (w : world) : response * world :=
  match h w with
  | (inl r, w') => (r, w')
  | (inr (TypeError what), w') =>
      ({| status := 500; sent := ServerError "Erreur serveur" what |}, w')
  end.

Definition app (cfg : config) (o : oracle) (r : route) (req : request) (w : world)
    : response * world :=
  serve (handler cfg o r req) w.

(** The worlds the application can be in: the initial one, and the one
    left by any request served in a reachable world. *)
Inductive reachable (cfg : config) : world -> Prop :=
| reachable_initial : reachable cfg initial
| reachable_app : forall w o r req,
    reachable cfg w -> reachable cfg (snd (app cfg o r req w)).

(** ** A deployment and a few requests, for the concrete cases *)

Module Scenario.
Definition cfg : config :=
  {| ADMIN_PASSWORD := "Ben&4002";
     PAYMENT_PHONE := "+243831401205";
     BASE_DIR := "/srv/maison" |}.

(** The outside values of the [n]-th request. *)
Definition at_ (n : string) : oracle :=
  {| uuid := "uuid-" ++ n;
     now := "2024-05-0" ++ n ++ "T10:00:00.000Z";
     log_now := "2024-05-0" ++ n ++ "T10:00:00.001Z" |}.

Definition visitor (b : list (string * value)) : request :=
  {| authorization := None; body := b; files := None |}.

Definition admin (b : list (string * value)) : request :=
  {| authorization := Some "Ben&4002"; body := b; files := None |}.

Definition photo : Upload.t :=
  {| Upload.path := "/srv/maison/uploads/1714989600000-f0.jpg";
     Upload.filename := "1714989600000-f0.jpg" |}.

(** A multipart submission of a listing, with one photo. *)
Definition annonce (prix : string) : request :=
  {| authorization := None;
     body := [("titre", VStr "Villa Gombe"); ("prix", VStr prix);
              ("ville", VStr "Kinshasa"); ("commune", VStr "Gombe");
              ("quartier", VStr "Fleuve")];
     files := Some [photo] |}.

(** One listing submitted (it gets the id uuid-1). *)
Definition listed : world := snd (app cfg (at_ "1") POST_maisons (annonce "250") initial).

(** One payment of 100 recorded (it gets the id uuid-1). *)
Definition paid : world :=
  snd (app cfg (at_ "1") POST_paiements
         (visitor [("utilisateurId", VStr "user-7"); ("maisonId", VStr "house-3");
                   ("montant", VNum 100)])
         initial).

Definition refuse_it : request :=
  admin [("id", VStr "uuid-1"); ("raison", VStr "photos floues")].

Definition validate_it : request := admin [("id", VStr "uuid-1")].

(** That listing refused, then validated. *)
Definition refused : world :=
  snd (app cfg (at_ "2") POST_admin_refuserMaison refuse_it listed).

Definition revalidated : world :=
  snd (app cfg (at_ "3") POST_admin_validerMaison validate_it refused).

(** The listing as the file holds it once refused. *)
Definition refused_listing : Maison.t :=
  {| Maison.id := "uuid-1";
     Maison.titre := "Villa Gombe";
     Maison.description := VStr "";
     Maison.prix := Num 250;
     Maison.ville := VStr "Kinshasa";
     Maison.commune := VStr "Gombe";
     Maison.quartier := VStr "Fleuve";
     Maison.garantie := VStr "";
     Maison.localisation := VStr "";
     Maison.images := ["/uploads/1714989600000-f0.jpg"];
     Maison.auteur := VNull;
     Maison.statut := refuse;
     Maison.datePublication := "2024-05-01T10:00:00.000Z";
     Maison.refuseReason := VStr "photos floues" |}.

Definition approve : request := admin [("paiementId", VStr "uuid-1")].

(** A multipart submission in which the field titre is sent twice - the
    form parser gives the array of the two values - with the price "abc" and
    one photo. *)
Definition repeated_title : request :=
  {| authorization := None;
     body := [("titre", VArr [VStr "Villa"; VStr "Gombe"]); ("prix", VStr "abc");
              ("ville", VStr "Kinshasa"); ("commune", VStr "Gombe");
              ("quartier", VStr "Fleuve")];
     files := Some [photo] |}.

(** Three payments recorded with the amounts [a], [b] and [c] (ids uuid-1,
    uuid-2, uuid-3), then approved in that order. *)
Definition pay (montant : float) : request :=
  visitor [("utilisateurId", VStr "user-7"); ("maisonId", VStr "house-3");
           ("montant", VNum montant)].

Definition approve_nth (n : string) : request :=
  admin [("paiementId", VStr ("uuid-" ++ n))].

Definition three_approved (a b c : float) : world :=
  snd (app cfg (at_ "6") POST_admin_validerPaiement (approve_nth "3")
    (snd (app cfg (at_ "5") POST_admin_validerPaiement (approve_nth "2")
      (snd (app cfg (at_ "4") POST_admin_validerPaiement (approve_nth "1")
        (snd (app cfg (at_ "3") POST_paiements (pay c)
          (snd (app cfg (at_ "2") POST_paiements (pay b)
            (snd (app cfg (at_ "1") POST_paiements (pay a) initial))))))))))).

(** One user signed up (with the id uuid-1). *)
Definition enrolled : world :=
  snd (app cfg (at_ "1") POST_utilisateurs
         (visitor [("nom", VStr " Ben "); ("telephone", VStr "+243831401205")])
         initial).

(** That payment approved once. *)
Definition approved : world :=
  snd (app cfg (at_ "2") POST_admin_validerPaiement approve paid).
End Scenario.

(** ** Predicates the statements use *)

(** What has been read from a file is left alone by one more round trip. *)
Definition settled {A : Type} (f : json_file A) : Prop :=
  forall x, json f (json f x) = json f x.

Definition key_of (req : request) : string :=
  trim (match authorization req with Some h => h | None => "" end).

(** The request carries the admin password. *)
Definition authorized (cfg : config) (req : request) : Prop :=
  key_of req <> "" /\ key_of req = ADMIN_PASSWORD cfg.

(** What POST /api/paiements stores and answers once the three required
    properties are there. *)
Definition new_paiement (cfg : config) (o : oracle) (req : request) : Paiement.t :=
  {| Paiement.id := uuid o;
     Paiement.utilisateur := prop (body req) "utilisateurId";
     Paiement.maison := prop (body req) "maisonId";
     Paiement.montant := Num (Number (prop (body req) "montant"));
     Paiement.reference := or_else (prop (body req) "reference") VNull;
     Paiement.methode := or_else (prop (body req) "methode") (VStr "mobile_money");
     Paiement.statut := en_attente;
     Paiement.date := now o;
     Paiement.receptionPhone := PAYMENT_PHONE cfg;
     Paiement.refuseReason := VUndef |}.

(** The world the handler of POST /api/maisons starts in: multer has
    written the files of the request to disk. *)
Definition uploaded (req : request) (w : world) : world := snd (upload_array req w).

(** The record POST /api/maisons builds from a submission whose title
    trims to [titre]. *)
Definition new_maison (o : oracle) (req : request) (titre : string) : Maison.t :=
  {| Maison.id := uuid o;
     Maison.titre := titre;
     Maison.description := or_else (prop (body req) "description") (VStr "");
     Maison.prix := Num (Number (prop (body req) "prix"));
     Maison.ville := prop (body req) "ville";
     Maison.commune := prop (body req) "commune";
     Maison.quartier := prop (body req) "quartier";
     Maison.garantie := or_else (prop (body req) "garantie") (VStr "");
     Maison.localisation := or_else (prop (body req) "localisation") (VStr "");
     Maison.images :=
       map (fun f => "/uploads/" ++ Upload.filename f)
           (firstn MAX_IMAGES (files_or_empty req));
     Maison.auteur := or_else (prop (body req) "auteur") VNull;
     Maison.statut := en_attente;
     Maison.datePublication := now o;
     Maison.refuseReason := VUndef |}.

(** A field that is left out, empty, or filled with text. *)
Definition textual (v : value) : Prop := truthy v = false \/ exists s, v = VStr s.

(** How one request can change the listings collection. *)
Inductive maisons_change (l : list Maison.t) : list Maison.t -> Prop :=
| change_none : maisons_change l l
| change_created (o : oracle) (req : request) (titre : string) :
    maisons_change l (l ++ [Maison.json (new_maison o req titre)])%list
| change_validated (id : value) :
    maisons_change l
      (assign (fun x => same_id (Maison.id x) id) (Maison.set_statut valide) l)
| change_refused (id raison : value) :
    maisons_change l
      (assign (fun x => same_id (Maison.id x) id)
              (fun x => Maison.set_refuseReason (JSON_value (or_else raison (VStr "")))
                          (Maison.set_statut refuse x)) l)
| change_deleted (id : value) :
    maisons_change l (filter (fun x => negb (same_id (Maison.id x) id)) l).

(** The reason of a refusal is on the record when the listing is refused,
    and not on it while the listing waits. *)
Definition reason_fits (m : Maison.t) : Prop :=
  (Maison.statut m = en_attente -> Maison.refuseReason m = VUndef)
  /\ (Maison.statut m = refuse -> Maison.refuseReason m <> VUndef).

(** The same world with other files on disk. *)
Definition with_disk (d : list string) (w : world) : world :=
  Build_world (maisons_json w) (utilisateurs_json w) (paiements_json w)
              (transactions_json w) (admin_actions_log w) d.

(** A step that goes through and touches the disk only. *)
Definition disk_only (c : M unit) : Prop :=
  forall w, exists d, c w = (inl tt, with_disk d w).

(** [s] is what is left of [l], in the order of [l], when the elements that
    do not satisfy [P] are taken out. *)
Inductive selection {A : Type} (P : A -> Prop) : list A -> list A -> Prop :=
| selection_nil : selection P [] []
| selection_keep (x : A) (l s : list A) :
    P x -> selection P l s -> selection P (x :: l) (x :: s)
| selection_skip (x : A) (l s : list A) :
    ~ P x -> selection P l s -> selection P (x :: l) s.

(** The amount a Transaction stands for: its [montant], and 0 when its
    [montant] is [null]. *)
Definition amount (t : Transaction.t) : float :=
  match Transaction.montant t with
  | Num x => x
  | Null => zero
  end.

(** The amounts of a ledger added one after another onto [acc], in the
    order of the ledger, each addition rounded to a double. *)
Fixpoint running_total (acc : float) (l : list Transaction.t) : float :=
  match l with
  | [] => acc
  | t :: r => running_total (acc + amount t)%float r
  end.

(** The double nearest to an integer. *)
Definition of_integer (z : Z) : float :=
  SF2Prim (binary_normalize prec emax z 0 false).

(** ** The routes by what they may do *)

(** The routes behind [adminAuth]. *)
Definition admin_route (r : route) : bool :=
  match r with
  | GET_admin_maisons | POST_admin_validerMaison | POST_admin_refuserMaison
  | POST_admin_supprimerMaison | GET_admin_paiements | POST_admin_validerPaiement
  | POST_admin_refuserPaiement | GET_admin_utilisateurs
  | POST_admin_supprimerUtilisateur | GET_admin_stats => true
  | _ => false
  end.

(** The routes that call [logAdmin]. *)
Definition logged_route (r : route) : bool :=
  match r with
  | POST_admin_validerMaison | POST_admin_refuserMaison | POST_admin_supprimerMaison
  | POST_admin_validerPaiement | POST_admin_refuserPaiement
  | POST_admin_supprimerUtilisateur => true
  | _ => false
  end.

(** The routes that call [writeJson] on each file. *)
Definition writes_maisons (r : route) : bool :=
  match r with
  | POST_maisons | POST_admin_validerMaison | POST_admin_refuserMaison
  | POST_admin_supprimerMaison => true
  | _ => false
  end.

Definition writes_users (r : route) : bool :=
  match r with
  | POST_utilisateurs | POST_admin_supprimerUtilisateur => true
  | _ => false
  end.

Definition writes_paiements (r : route) : bool :=
  match r with
  | POST_paiements | POST_admin_validerPaiement | POST_admin_refuserPaiement => true
  | _ => false
  end.

Definition writes_transactions (r : route) : bool :=
  match r with
  | POST_admin_validerPaiement => true
  | _ => false
  end.

(** The routes that add or remove files under the upload directory. *)
Definition touches_disk (r : route) : bool :=
  match r with
  | POST_maisons | POST_admin_supprimerMaison => true
  | _ => false
  end.

(** What a refusal makes of a record, as it is read back. *)
Definition maison_refused (raison : value) (m : Maison.t) : Maison.t :=
  Maison.set_refuseReason (JSON_value (or_else raison (VStr "")))
                          (Maison.set_statut refuse m).

Definition paiement_refused (raison : value) (p : Paiement.t) : Paiement.t :=
  Paiement.set_refuseReason (JSON_value (or_else raison (VStr "")))
                            (Paiement.set_statut refuse p).

(** A text field that passes its check: a string of at least [n] code
    units once trimmed. *)
Definition long_enough (v : value) (n : nat) : Prop :=
  exists s, v = VStr s /\ (n <= String.length (trim s))%nat.

(** Every Transaction of the ledger points at a stored payment (the one
    its [paiementId] finds) that is no longer pending and has its amount. *)
Definition ledger_backed (paiements : list Paiement.t) (transactions : list Transaction.t)
    : Prop :=
  forall t, In t transactions ->
    exists p,
      find (fun x => Paiement.id x =? Transaction.paiementId t) paiements = Some p
      /\ Paiement.statut p <> en_attente
      /\ Paiement.montant p = Transaction.montant t.

(** A price as a file can hold it. *)
Definition stored_price (n : numeric) : Prop :=
  n = Null \/ exists x, n = Num x /\ is_finite x = true.

(** How one request can change the payments collection and the ledger of
    transactions. *)
Inductive ledger_change (cfg : config) (o : oracle) (req : request)
    (P : list Paiement.t) (T : list Transaction.t)
    : list Paiement.t -> list Transaction.t -> Prop :=
| ledger_same : ledger_change cfg o req P T P T
| ledger_recorded :
    ledger_change cfg o req P T (P ++ [Paiement.json (new_paiement cfg o req)])%list T
| ledger_approved (p : Paiement.t) :
    find (fun x => same_id (Paiement.id x) (prop (body req) "paiementId")) P = Some p ->
    ledger_change cfg o req P T
      (assign (fun x => same_id (Paiement.id x) (prop (body req) "paiementId"))
              (Paiement.set_statut valide) P)
      (T ++ [ {| Transaction.id := uuid o;
                 Transaction.paiementId := Paiement.id p;
                 Transaction.montant := Paiement.montant p;
                 Transaction.date := now o |} ])%list
| ledger_refused (p : Paiement.t) :
    find (fun x => same_id (Paiement.id x) (prop (body req) "paiementId")) P = Some p ->
    ledger_change cfg o req P T
      (assign (fun x => same_id (Paiement.id x) (prop (body req) "paiementId"))
              (paiement_refused (prop (body req) "raison")) P)
      T.

(** * Properties *)

(** ** The JavaScript primitives on a few inputs *)

Example trim_both_ends : trim "  Villa Gombe " = "Villa Gombe".
Proof. reflexivity. Qed.

Example StringToNumber_numeric :
  map StringToNumber ["250"; " 12.50 "; "-5"; "1e3"; ""; "0x1F"; ".5"; "5."; "+25e-2"]
  = [250; 12.5; -5; 1000; 0; 31; 0.5; 5; 0.25]%float.
Proof. vm_compute. reflexivity. Qed.

Example StringToNumber_not_numeric :
  map (fun s => isNaN (StringToNumber s)) ["abc"; "12abc"; "1 2"; "."; "1e"; "-0x10"; "e5"]
  = [true; true; true; true; true; true; true].
Proof. vm_compute. reflexivity. Qed.

Example StringToNumber_overflow :
  StringToNumber "1e999" = infinity /\ JSON_number (StringToNumber "1e999") = Null.
Proof. vm_compute. split; reflexivity. Qed.

Example truthy_values :
  map truthy [VUndef; VNull; VBool false; VNum 0; VNum (-0); VNum nan; VStr "";
              VStr "0"; VNum (-5); VBool true]
  = [false; false; false; false; false; false; false; true; true; true].
Proof. vm_compute. reflexivity. Qed.

(** ** Arrays: [find] and assignment through the reference it returns *)

Section Arrays.
Context {A : Type} (p : A -> bool) (f : A -> A).

Lemma assign_unchanged (l : list A) (x : A) :
  find p l = Some x -> f x = x -> assign p f l = l.
Proof.
  induction l as [|y r IH]; simpl; [discriminate|].
  destruct (p y); intros Hx Hf.
  - injection Hx as ->. now rewrite Hf.
  - now rewrite IH.
Qed.

Lemma find_assign (l : list A) (x : A) :
  find p l = Some x -> p (f x) = true -> find p (assign p f l) = Some (f x).
Proof.
  induction l as [|y r IH]; simpl; [discriminate|].
  destruct (p y) eqn:Hy; intros Hx Hf.
  - injection Hx as ->. simpl. now rewrite Hf.
  - simpl. rewrite Hy. now apply IH.
Qed.

Lemma in_assign (l : list A) (y : A) :
  In y (assign p f l) -> In y l \/ exists x, In x l /\ y = f x.
Proof.
  induction l as [|z r IH]; simpl; [tauto|].
  destruct (p z); simpl.
  - intros [<-|H]; [right; exists z|]; tauto.
  - intros [<-|H]; [tauto|].
    destruct (IH H) as [H'|(x & H' & ->)]; [tauto|].
    right; exists x; tauto.
Qed.

Lemma map_assign (g : A -> A) (f' : A -> A) (l : list A) :
  (forall x, In x l -> g x = x) ->
  (forall x, g x = x -> g (f x) = f' x) ->
  map g (assign p f l) = assign p f' l.
Proof.
  intros Hl Hf. induction l as [|y r IH]; simpl; [reflexivity|].
  assert (Hr : map g r = r).
  { clear IH. induction r as [|z r IH]; simpl; [reflexivity|].
    rewrite (Hl z) by (simpl; tauto). f_equal. apply IH.
    intros x [<-|Hx]; apply Hl; simpl; tauto. }
  destruct (p y); simpl.
  - rewrite Hf by (apply Hl; simpl; tauto). now rewrite Hr.
  - rewrite (Hl y) by (simpl; tauto). f_equal. apply IH.
    intros x Hx. apply Hl. simpl; tauto.
Qed.
End Arrays.

Lemma map_fixed {A : Type} (g : A -> A) (l : list A) :
  (forall x, In x l -> g x = x) -> map g l = l.
Proof.
  induction l as [|y r IH]; simpl; intros H; [reflexivity|].
  rewrite (H y) by tauto. f_equal. apply IH. intros x Hx. apply H; tauto.
Qed.

(** ** The JSON round trip changes nothing the second time *)

Lemma JSON_number_twice (x : float) : JSON_numeric (JSON_number x) = JSON_number x.
Proof.
  unfold JSON_number. destruct (is_finite x) eqn:Hf; [|reflexivity].
  destruct (is_zero x) eqn:Hz; simpl; unfold JSON_number.
  - reflexivity.
  - now rewrite Hf, Hz.
Qed.

Lemma JSON_numeric_twice (n : numeric) : JSON_numeric (JSON_numeric n) = JSON_numeric n.
Proof. destruct n; simpl; [apply JSON_number_twice | reflexivity]. Qed.

(** Induction on a value and, for an array, on each of its elements. *)
Lemma value_elements_ind (P : value -> Prop) :
  P VUndef -> P VNull -> (forall b, P (VBool b)) -> (forall x, P (VNum x)) ->
  (forall s, P (VStr s)) ->
  (forall l, Forall P l -> P (VArr l)) ->
  forall v, P v.
Proof.
  intros Hu Hn Hb Hx Hs Ha. fix IH 1.
  intros [| |b|x|s|l]; [exact Hu|exact Hn|apply Hb|apply Hx|apply Hs|].
  apply Ha. induction l as [|e r IHr]; constructor; [apply IH|exact IHr].
Qed.

Lemma JSON_value_twice (v : value) : JSON_value (JSON_value v) = JSON_value v.
Proof.
  induction v as [| |b|x|s|l IH] using value_elements_ind; try reflexivity.
  - simpl. pose proof (JSON_number_twice x) as H.
    destruct (JSON_number x) as [y|]; [|reflexivity].
    simpl in *. now rewrite H.
  - simpl. f_equal. rewrite map_map. apply map_ext_in. intros e He.
    rewrite Forall_forall in IH. specialize (IH e He).
    destruct (JSON_value e) eqn:E; try reflexivity; now rewrite IH.
Qed.

Lemma Maison_json_twice (m : Maison.t) : Maison.json (Maison.json m) = Maison.json m.
Proof.
  unfold Maison.json; simpl. now rewrite !JSON_value_twice, JSON_numeric_twice.
Qed.

Lemma Paiement_json_twice (p : Paiement.t) : Paiement.json (Paiement.json p) = Paiement.json p.
Proof.
  unfold Paiement.json; simpl. now rewrite !JSON_value_twice, JSON_numeric_twice.
Qed.

Lemma Transaction_json_twice (x : Transaction.t) :
  Transaction.json (Transaction.json x) = Transaction.json x.
Proof. unfold Transaction.json; simpl. now rewrite JSON_numeric_twice. Qed.

Lemma settled_maisons : settled MAISONS_FILE.
Proof. exact Maison_json_twice. Qed.
Lemma settled_users : settled USERS_FILE.
Proof. intros x; reflexivity. Qed.
Lemma settled_paiements : settled PAIEMENTS_FILE.
Proof. exact Paiement_json_twice. Qed.
Lemma settled_transactions : settled TRANSACTIONS_FILE.
Proof. exact Transaction_json_twice. Qed.

Lemma collection_fixed {A : Type} (f : json_file A) (w : world) (x : A) :
  settled f -> In x (collection f w) -> json f x = x.
Proof.
  intros Hs. unfold collection. destruct (content f w) as [data|]; [|intros []].
  intros Hx. apply in_map_iff in Hx as (y & <- & _). apply Hs.
Qed.

Lemma collection_twice {A : Type} (f : json_file A) (w : world) :
  settled f -> map (json f) (collection f w) = collection f w.
Proof. intros Hs. apply map_fixed. intros x. now apply collection_fixed. Qed.

(** ** The admin key *)

Lemma adminAuth_next (cfg : config) (req : request) (next : M response) :
  authorized cfg req -> adminAuth cfg req next = next.
Proof.
  intros [Hne Heq]. unfold adminAuth. fold (key_of req).
  destruct (String.eqb_spec (key_of req) "") as [E|_]; [contradiction|].
  destruct (String.eqb_spec (key_of req) (ADMIN_PASSWORD cfg)) as [_|N]; [reflexivity|].
  contradiction.
Qed.

(** ** Approving a payment *)

(** What POST /api/admin/validerPaiement does with a payment it finds,
    whatever the status of that payment. *)
Lemma validerPaiement_found (cfg : config) (o : oracle) (req : request) (w : world)
    (p : Paiement.t) :
  let paiementId := prop (body req) "paiementId" in
  authorized cfg req ->
  truthy paiementId = true ->
  find (fun x => same_id (Paiement.id x) paiementId) (collection PAIEMENTS_FILE w) = Some p ->
  app cfg o POST_admin_validerPaiement req w =
    ({| status := 200;
        sent := WithPaiement ("Paiement valid" ++ e_acute) (Paiement.set_statut valide p) |},
     {| maisons_json := maisons_json w;
        utilisateurs_json := utilisateurs_json w;
        paiements_json :=
          Some (assign (fun x => same_id (Paiement.id x) paiementId)
                       (Paiement.set_statut valide) (collection PAIEMENTS_FILE w));
        transactions_json :=
          Some (collection TRANSACTIONS_FILE w ++
                [ {| Transaction.id := uuid o;
                     Transaction.paiementId := Paiement.id p;
                     Transaction.montant := Paiement.montant p;
                     Transaction.date := now o |} ])%list;
        admin_actions_log :=
          (admin_actions_log w ++
           [ {| log_date := log_now o;
                log_action := "VALIDER_PAIEMENT";
                log_details := [("paiementId", paiementId);
                                ("montant", value_of (Paiement.montant p))] |} ])%list;
        disk := disk w |}).
Proof.
  intros paiementId Hauth Hid Hfind.
  unfold app, handler, POST_api_admin_validerPaiement.
  rewrite (adminAuth_next cfg req _ Hauth).
  fold paiementId. rewrite Hid.
  unfold serve, bind, readJson. cbn [negb].
  rewrite Hfind.
  reflexivity.
Qed.

Lemma Paiement_json_set_statut (s : Statut.t) (p : Paiement.t) :
  Paiement.json p = p -> Paiement.json (Paiement.set_statut s p) = Paiement.set_statut s p.
Proof.
  intros H. destruct p. unfold Paiement.json, Paiement.set_statut in *. simpl in *.
  injection H as -> -> -> -> -> ->. now rewrite ?JSON_value_twice.
Qed.

(** The two collections after the approval of a payment that was found. *)
Lemma validerPaiement_collections (cfg : config) (o : oracle) (req : request)
    (w : world) (p : Paiement.t) :
  let paiementId := prop (body req) "paiementId" in
  let w' := snd (app cfg o POST_admin_validerPaiement req w) in
  authorized cfg req ->
  truthy paiementId = true ->
  find (fun x => same_id (Paiement.id x) paiementId) (collection PAIEMENTS_FILE w) = Some p ->
  collection PAIEMENTS_FILE w' =
    assign (fun x => same_id (Paiement.id x) paiementId) (Paiement.set_statut valide)
           (collection PAIEMENTS_FILE w)
  /\ collection TRANSACTIONS_FILE w' =
       (collection TRANSACTIONS_FILE w ++
        [ {| Transaction.id := uuid o;
             Transaction.paiementId := Paiement.id p;
             Transaction.montant := Paiement.montant p;
             Transaction.date := now o |} ])%list.
Proof.
  intros paiementId w' Hauth Hid Hfind. subst w'.
  rewrite (validerPaiement_found cfg o req w p Hauth Hid Hfind). fold paiementId.
  assert (Hp : Paiement.json p = p).
  { apply (collection_fixed PAIEMENTS_FILE w p); [exact settled_paiements|].
    now apply find_some in Hfind. }
  split.
  - unfold collection at 1. cbn [snd content PAIEMENTS_FILE paiements_json json].
    apply map_assign.
    + intros x Hx. now apply (collection_fixed PAIEMENTS_FILE w x settled_paiements).
    + intros x Hx. now apply Paiement_json_set_statut.
  - unfold collection at 1. cbn [snd content TRANSACTIONS_FILE transactions_json json].
    change Transaction.json with (json TRANSACTIONS_FILE).
    rewrite map_app. rewrite (collection_twice TRANSACTIONS_FILE w settled_transactions).
    f_equal. simpl. unfold Transaction.json. simpl.
    f_equal. f_equal. rewrite <- Hp. destruct p; simpl. apply JSON_numeric_twice.
Qed.

(** C5. Approving a pending payment appends exactly one Transaction to the
    transactions collection: its amount is the payment's amount, its
    [paiementId] the payment's id and its date the time of the call; the
    payment is stored with status [valide], nothing else of it changed, and
    the answer is a success. *)
Theorem approve_pending_payment (cfg : config) (o : oracle) (req : request)
    (w : world) (p : Paiement.t) :
  let paiementId := prop (body req) "paiementId" in
  let w' := snd (app cfg o POST_admin_validerPaiement req w) in
  authorized cfg req ->
  truthy paiementId = true ->
  find (fun x => same_id (Paiement.id x) paiementId) (collection PAIEMENTS_FILE w) = Some p ->
  Paiement.statut p = en_attente ->
  status (fst (app cfg o POST_admin_validerPaiement req w)) = 200
  /\ collection TRANSACTIONS_FILE w' =
       (collection TRANSACTIONS_FILE w ++
        [ {| Transaction.id := uuid o;
             Transaction.paiementId := Paiement.id p;
             Transaction.montant := Paiement.montant p;
             Transaction.date := now o |} ])%list
  /\ find (fun x => same_id (Paiement.id x) paiementId) (collection PAIEMENTS_FILE w')
     = Some (Paiement.set_statut valide p)
  /\ Paiement.statut (Paiement.set_statut valide p) = valide.
Proof.
  intros paiementId w' Hauth Hid Hfind _.
  destruct (validerPaiement_collections cfg o req w p Hauth Hid Hfind) as [Hp Ht].
  fold paiementId in Hp. fold w' in Hp, Ht.
  split; [|split; [exact Ht|split; [|reflexivity]]].
  - now rewrite (validerPaiement_found cfg o req w p Hauth Hid Hfind).
  - rewrite Hp. apply find_assign; [exact Hfind|].
    apply find_some in Hfind as [_ H]. destruct p; exact H.
Qed.

(** C1, as the code has it. Approving again a payment whose status is
    already [valide] leaves the payments collection as it was and appends
    one more Transaction for that payment to the transactions collection. *)
Theorem reapprove_appends_again (cfg : config) (o : oracle) (req : request)
    (w : world) (p : Paiement.t) :
  let paiementId := prop (body req) "paiementId" in
  let w' := snd (app cfg o POST_admin_validerPaiement req w) in
  authorized cfg req ->
  truthy paiementId = true ->
  find (fun x => same_id (Paiement.id x) paiementId) (collection PAIEMENTS_FILE w) = Some p ->
  Paiement.statut p = valide ->
  collection PAIEMENTS_FILE w' = collection PAIEMENTS_FILE w
  /\ collection TRANSACTIONS_FILE w' =
       (collection TRANSACTIONS_FILE w ++
        [ {| Transaction.id := uuid o;
             Transaction.paiementId := Paiement.id p;
             Transaction.montant := Paiement.montant p;
             Transaction.date := now o |} ])%list.
Proof.
  intros paiementId w' Hauth Hid Hfind Hst.
  destruct (validerPaiement_collections cfg o req w p Hauth Hid Hfind) as [Hp Ht].
  fold paiementId in Hp. fold w' in Hp, Ht.
  split; [|exact Ht].
  rewrite Hp. apply assign_unchanged with (x := p); [exact Hfind|].
  destruct p; simpl in Hst; subst; reflexivity.
Qed.

Lemma approve_pending_payment_witness :
  let paiementId := prop (body Scenario.approve) "paiementId" in
  let p := {| Paiement.id := "uuid-1";
              Paiement.utilisateur := VStr "user-7";
              Paiement.maison := VStr "house-3";
              Paiement.montant := Num 100;
              Paiement.reference := VNull;
              Paiement.methode := VStr "mobile_money";
              Paiement.statut := en_attente;
              Paiement.date := "2024-05-01T10:00:00.000Z";
              Paiement.receptionPhone := "+243831401205";
              Paiement.refuseReason := VUndef |} in
  let w' := snd (app Scenario.cfg (Scenario.at_ "2") POST_admin_validerPaiement
                     Scenario.approve Scenario.paid) in
  status (fst (app Scenario.cfg (Scenario.at_ "2") POST_admin_validerPaiement
                   Scenario.approve Scenario.paid)) = 200
  /\ collection TRANSACTIONS_FILE w' =
       (collection TRANSACTIONS_FILE Scenario.paid ++
        [ {| Transaction.id := "uuid-2";
             Transaction.paiementId := "uuid-1";
             Transaction.montant := Num 100;
             Transaction.date := "2024-05-02T10:00:00.000Z" |} ])%list
  /\ find (fun x => same_id (Paiement.id x) paiementId) (collection PAIEMENTS_FILE w')
     = Some (Paiement.set_statut valide p)
  /\ Paiement.statut (Paiement.set_statut valide p) = valide.
Proof.
  intros paiementId p w'.
  apply (approve_pending_payment Scenario.cfg (Scenario.at_ "2") Scenario.approve
           Scenario.paid p).
  - split; [discriminate | reflexivity].
  - reflexivity.
  - reflexivity.
  - reflexivity.
Defined.

(** C1, counterexample. A payment is recorded and approved; approving it a
    second time, when its status is already [valide], leaves two
    Transactions for it where there was one. *)
Lemma reapprove_duplicates_transaction :
  let w2 := snd (app Scenario.cfg (Scenario.at_ "3") POST_admin_validerPaiement
                     Scenario.approve Scenario.approved) in
  map Paiement.statut (collection PAIEMENTS_FILE Scenario.approved) = [valide]
  /\ map Transaction.paiementId (collection TRANSACTIONS_FILE Scenario.approved)
     = ["uuid-1"]
  /\ map Transaction.paiementId (collection TRANSACTIONS_FILE w2)
     = ["uuid-1"; "uuid-1"]
  /\ collection TRANSACTIONS_FILE w2 <> collection TRANSACTIONS_FILE Scenario.approved.
Proof.
  vm_compute. repeat split; discriminate.
Qed.

Lemma reapprove_appends_again_witness :
  let p := {| Paiement.id := "uuid-1";
              Paiement.utilisateur := VStr "user-7";
              Paiement.maison := VStr "house-3";
              Paiement.montant := Num 100;
              Paiement.reference := VNull;
              Paiement.methode := VStr "mobile_money";
              Paiement.statut := valide;
              Paiement.date := "2024-05-01T10:00:00.000Z";
              Paiement.receptionPhone := "+243831401205";
              Paiement.refuseReason := VUndef |} in
  let w' := snd (app Scenario.cfg (Scenario.at_ "3") POST_admin_validerPaiement
                     Scenario.approve Scenario.approved) in
  collection PAIEMENTS_FILE w' = collection PAIEMENTS_FILE Scenario.approved
  /\ collection TRANSACTIONS_FILE w' =
       (collection TRANSACTIONS_FILE Scenario.approved ++
        [ {| Transaction.id := "uuid-3";
             Transaction.paiementId := "uuid-1";
             Transaction.montant := Num 100;
             Transaction.date := "2024-05-03T10:00:00.000Z" |} ])%list.
Proof.
  intros p w'.
  apply (reapprove_appends_again Scenario.cfg (Scenario.at_ "3") Scenario.approve
           Scenario.approved p).
  - split; [discriminate | reflexivity].
  - reflexivity.
  - reflexivity.
  - reflexivity.
Defined.

(** ** Recording a payment *)

(** A number below zero is neither zero nor NaN: it is truthy. *)
Lemma negative_truthy (x : float) : (x <? 0)%float = true -> truthy (VNum x) = true.
Proof.
  intros H. unfold truthy, is_zero, is_nan.
  rewrite ltb_spec in H. rewrite !eqb_spec.
  change (Prim2SF zero) with (S754_zero false).
  change (Prim2SF 0) with (S754_zero false) in H.
  destruct (Prim2SF x) as [s|s| |s m e]; try discriminate H;
    destruct s; try discriminate H.
  - reflexivity.
  - unfold SFeqb, SFcompare.
    now rewrite Z.compare_refl, Pos.compare_cont_refl.
Qed.

Lemma paiement_recorded (cfg : config) (o : oracle) (req : request) (w : world) :
  truthy (prop (body req) "utilisateurId") = true ->
  truthy (prop (body req) "maisonId") = true ->
  truthy (prop (body req) "montant") = true ->
  status (fst (app cfg o POST_paiements req w)) = 200
  /\ (exists message,
        sent (fst (app cfg o POST_paiements req w))
        = WithPaiement message (new_paiement cfg o req))
  /\ collection PAIEMENTS_FILE (snd (app cfg o POST_paiements req w))
     = (collection PAIEMENTS_FILE w ++ [Paiement.json (new_paiement cfg o req)])%list.
Proof.
  intros Hu Hm Ha.
  unfold app, handler, POST_api_paiements. rewrite Hu, Hm, Ha.
  unfold serve, bind, readJson, writeJson, res_json, ret. cbn [negb orb fst snd status sent].
  split; [reflexivity|split; [eexists; reflexivity|]].
  unfold collection at 1. cbn [content replace PAIEMENTS_FILE paiements_json].
  rewrite map_app. change Paiement.json with (json PAIEMENTS_FILE).
  now rewrite (collection_twice PAIEMENTS_FILE w settled_paiements).
Qed.

(** C2, as the code has it. A payment-creation call in which
    [utilisateurId], [maisonId] or [montant] is missing or falsy (absent,
    [null], [false], [""], [0], [NaN]) is answered 400 and leaves the world as
    it was. When the three are there the payment is recorded, pending, with
    [Number(montant)] as its amount; a number below zero is such an amount,
    so a negative amount is recorded and not rejected. *)
Theorem paiement_needs_presence_only (cfg : config) (o : oracle) (req : request)
    (w : world) :
  let utilisateurId := prop (body req) "utilisateurId" in
  let maisonId := prop (body req) "maisonId" in
  let montant := prop (body req) "montant" in
  (truthy utilisateurId = false \/ truthy maisonId = false \/ truthy montant = false ->
   app cfg o POST_paiements req w
   = ({| status := 400;
         sent := Message false "utilisateurId, maisonId, montant requis" |}, w))
  /\ (truthy utilisateurId = true -> truthy maisonId = true -> truthy montant = true ->
      status (fst (app cfg o POST_paiements req w)) = 200
      /\ (exists message,
            sent (fst (app cfg o POST_paiements req w))
            = WithPaiement message (new_paiement cfg o req))
      /\ Paiement.montant (new_paiement cfg o req) = Num (Number montant)
      /\ Paiement.statut (new_paiement cfg o req) = en_attente
      /\ collection PAIEMENTS_FILE (snd (app cfg o POST_paiements req w))
         = (collection PAIEMENTS_FILE w ++ [Paiement.json (new_paiement cfg o req)])%list)
  /\ (forall x : float,
        (x <? 0)%float = true -> montant = VNum x ->
        truthy utilisateurId = true -> truthy maisonId = true ->
        status (fst (app cfg o POST_paiements req w)) = 200
        /\ exists p, In p (collection PAIEMENTS_FILE (snd (app cfg o POST_paiements req w)))
                     /\ Paiement.id p = uuid o
                     /\ Paiement.montant p = JSON_number x).
Proof.
  intros utilisateurId maisonId montant. split; [|split].
  - intros H. unfold app, handler, POST_api_paiements.
    fold utilisateurId maisonId montant.
    assert (E : negb (truthy utilisateurId) || negb (truthy maisonId)
                || negb (truthy montant) = true).
    { destruct H as [ E | [ E | E ] ]; rewrite E; simpl; rewrite ?orb_true_r; reflexivity. }
    rewrite E. reflexivity.
  - intros Hu Hm Ha.
    destruct (paiement_recorded cfg o req w Hu Hm Ha) as (H1 & H2 & H3).
    repeat split; assumption.
  - intros x Hx Ex Hu Hm.
    assert (Ha : truthy montant = true) by (rewrite Ex; now apply negative_truthy).
    destruct (paiement_recorded cfg o req w Hu Hm Ha) as (H1 & _ & H3).
    split; [exact H1|].
    exists (Paiement.json (new_paiement cfg o req)). rewrite H3. split.
    + apply in_or_app. right. simpl. tauto.
    + split; [reflexivity|]. simpl. fold montant. now rewrite Ex.
Qed.

Lemma paiement_needs_presence_only_witness :
  let missing := Scenario.visitor [("utilisateurId", VStr "user-7");
                                   ("maisonId", VStr "house-3"); ("montant", VNum 0)] in
  let negative := Scenario.visitor [("utilisateurId", VStr "user-7");
                                    ("maisonId", VStr "house-3");
                                    ("montant", VNum (-5))] in
  app Scenario.cfg (Scenario.at_ "1") POST_paiements missing initial
  = ({| status := 400;
        sent := Message false "utilisateurId, maisonId, montant requis" |}, initial)
  /\ status (fst (app Scenario.cfg (Scenario.at_ "1") POST_paiements negative initial)) = 200
  /\ exists p, In p (collection PAIEMENTS_FILE
                       (snd (app Scenario.cfg (Scenario.at_ "1") POST_paiements
                                 negative initial)))
               /\ Paiement.id p = "uuid-1"
               /\ Paiement.montant p = JSON_number (-5).
Proof.
  intros missing negative. split.
  - apply (paiement_needs_presence_only Scenario.cfg (Scenario.at_ "1") missing initial).
    right; right; reflexivity.
  - apply (paiement_needs_presence_only Scenario.cfg (Scenario.at_ "1") negative initial)
      with (x := (-5)%float); reflexivity.
Defined.

(** C2, counterexample. A payment-creation call with the amount -5 is
    answered 200 and the payment is stored with that amount. *)
Lemma negative_montant_recorded :
  let req := Scenario.visitor [("utilisateurId", VStr "user-7");
                               ("maisonId", VStr "house-3"); ("montant", VNum (-5))] in
  let answer := app Scenario.cfg (Scenario.at_ "1") POST_paiements req initial in
  (-5 <? 0)%float = true
  /\ status (fst answer) = 200
  /\ map Paiement.montant (collection PAIEMENTS_FILE (snd answer)) = [Num (-5)]
  /\ collection PAIEMENTS_FILE (snd answer) <> collection PAIEMENTS_FILE initial.
Proof.
  vm_compute. repeat split; discriminate.
Qed.

(** ** Submitting a listing *)

Lemma absent_or_shorter_false (r : string) (v : value) (n : nat) :
  absent_or_shorter r v n = inl false ->
  exists s, v = VStr s /\ truthy v = true /\ (n <= String.length (trim s))%nat.
Proof.
  unfold absent_or_shorter. destruct (truthy v) eqn:Hv; simpl; [|discriminate].
  destruct v; simpl; try discriminate.
  intros H. injection H as H. apply Nat.ltb_ge in H. eauto.
Qed.

Lemma absent_or_shorter_textual (r : string) (v : value) (n : nat) :
  textual v -> exists bad, absent_or_shorter r v n = inl bad.
Proof.
  unfold absent_or_shorter. intros [H|[s ->]].
  - rewrite H. simpl. eauto.
  - destruct (truthy (VStr s)); simpl; eauto.
Qed.

(** An empty list of errors: every check went through and found nothing. *)
Lemma validateMaisonFields_nil (body : list (string * value)) :
  validateMaisonFields body = inl [] ->
  absent_or_shorter "body.titre" (prop body "titre") 3 = inl false
  /\ truthy (prop body "prix") = true
  /\ isNaN (Number (prop body "prix")) = false
  /\ absent_or_shorter "body.ville" (prop body "ville") 2 = inl false
  /\ absent_or_shorter "body.commune" (prop body "commune") 1 = inl false
  /\ absent_or_shorter "body.quartier" (prop body "quartier") 1 = inl false.
Proof.
  unfold validateMaisonFields.
  destruct (absent_or_shorter "body.titre" (prop body "titre") 3) as [[|]|e1];
    destruct (absent_or_shorter "body.ville" (prop body "ville") 2) as [[|]|e2];
    destruct (absent_or_shorter "body.commune" (prop body "commune") 1) as [[|]|e3];
    destruct (absent_or_shorter "body.quartier" (prop body "quartier") 1) as [[|]|e4];
    destruct (truthy (prop body "prix"));
    destruct (isNaN (Number (prop body "prix")));
    simpl; intros H; try discriminate H; repeat split; reflexivity.
Qed.

(** Removing the files of a request touches the disk only, and leaves
    none of them there. *)
Lemma remove_uploads (l : list Upload.t) (w : world) :
  let w' := snd (forEach l (fun f => removeSync (Upload.path f)) w) in
  fst (forEach l (fun f => removeSync (Upload.path f)) w) = inl tt
  /\ maisons_json w' = maisons_json w
  /\ utilisateurs_json w' = utilisateurs_json w
  /\ paiements_json w' = paiements_json w
  /\ transactions_json w' = transactions_json w
  /\ admin_actions_log w' = admin_actions_log w
  /\ (forall q, In q (disk w') ->
                In q (disk w) /\ forall f, In f l -> q <> Upload.path f).
Proof.
  revert w. induction l as [|f r IH]; intros w; simpl.
  - repeat split; try reflexivity; try assumption. intros f [].
  - unfold bind at 1 2. unfold removeSync at 1 3.
    set (w1 := Build_world _ _ _ _ _ _).
    destruct (IH w1) as (H0 & H1 & H2 & H3 & H4 & H5 & H6).
    repeat split; try assumption.
    + destruct (H6 q H) as [Hq _]. subst w1. simpl in Hq.
      apply filter_In in Hq. tauto.
    + intros g [<-|Hg].
      * destruct (H6 q H) as [Hq _]. subst w1. simpl in Hq.
        apply filter_In in Hq as [_ Hq].
        destruct (String.eqb_spec q (Upload.path f)); [discriminate|assumption].
      * destruct (H6 q H) as [_ Hq]. now apply Hq.
Qed.

Lemma create_thrown (cfg : config) (o : oracle) (req : request) (w : world) (e : exn) :
  validateMaisonFields (body req) = inr e ->
  app cfg o POST_maisons req w
  = ({| status := 500; sent := Message false "Erreur serveur lors de l'ajout" |},
     uploaded req w).
Proof.
  intros H. unfold app, handler, POST_api_maisons, serve, bind, try_catch, lift.
  unfold uploaded. destruct (upload_array req w) as [[[]|x] w0] eqn:E;
    [|discriminate E].
  rewrite H. reflexivity.
Qed.

Lemma create_invalid (cfg : config) (o : oracle) (req : request) (w : world)
    (errors : list string) :
  validateMaisonFields (body req) = inl errors ->
  errors <> [] ->
  app cfg o POST_maisons req w
  = ({| status := 400; sent := Invalid "Champs invalides" errors |},
     snd (forEach (files_or_empty req) (fun f => removeSync (Upload.path f))
                  (uploaded req w))).
Proof.
  intros H Hne. unfold app, handler, POST_api_maisons, serve, bind, try_catch, lift.
  unfold uploaded. destruct (upload_array req w) as [[[]|x] w0] eqn:E;
    [|discriminate E].
  rewrite H. destruct errors as [|e r]; [contradiction|].
  cbn [List.length Nat.eqb negb snd].
  pose proof (remove_uploads (files_or_empty req) w0) as [H0 _].
  destruct (forEach (files_or_empty req) _ w0) as [[[]|x] w1]; [|discriminate H0].
  reflexivity.
Qed.

Lemma create_accepted (cfg : config) (o : oracle) (req : request) (w : world) :
  validateMaisonFields (body req) = inl [] ->
  exists s,
    prop (body req) "titre" = VStr s
    /\ app cfg o POST_maisons req w
       = ({| status := 200;
             sent := WithMaison ("Annonce ajout" ++ e_acute ++ "e (en attente de validation)")
                                (new_maison o req (trim s)) |},
          replace MAISONS_FILE
            (Some (collection MAISONS_FILE w ++ [new_maison o req (trim s)])%list)
            (uploaded req w)).
Proof.
  intros H.
  destruct (validateMaisonFields_nil _ H) as (Ht & _).
  destruct (absent_or_shorter_false _ _ _ Ht) as (s & Es & _).
  exists s. split; [exact Es|].
  unfold app, handler, POST_api_maisons, serve, bind, try_catch, lift.
  unfold uploaded. destruct (upload_array req w) as [[[]|x] w0] eqn:E;
    [|discriminate E].
  rewrite H. cbn [List.length Nat.eqb negb snd].
  unfold readJson. rewrite Es. cbn [trim_method].
  unfold writeJson, res_json, ret.
  replace (collection MAISONS_FILE w0) with (collection MAISONS_FILE w)
    by (unfold upload_array in E; injection E as <-; reflexivity).
  reflexivity.
Qed.

Lemma collection_replace_maisons (data : list Maison.t) (w : world) :
  collection MAISONS_FILE (replace MAISONS_FILE (Some data) w) = map Maison.json data.
Proof. reflexivity. Qed.

(** The listings collection after a submission that was accepted. *)
Lemma create_accepted_collection (cfg : config) (o : oracle) (req : request)
    (w : world) :
  status (fst (app cfg o POST_maisons req w)) = 200 ->
  exists s,
    prop (body req) "titre" = VStr s
    /\ validateMaisonFields (body req) = inl []
    /\ (exists message,
          sent (fst (app cfg o POST_maisons req w))
          = WithMaison message (new_maison o req (trim s)))
    /\ collection MAISONS_FILE (snd (app cfg o POST_maisons req w))
       = (collection MAISONS_FILE w ++ [Maison.json (new_maison o req (trim s))])%list.
Proof.
  destruct (validateMaisonFields (body req)) as [[|e r]|e] eqn:V.
  - destruct (create_accepted cfg o req w V) as (s & Es & ->). intros _.
    exists s. split; [exact Es|]. split; [reflexivity|].
    split; [eexists; reflexivity|].
    cbn [snd]. rewrite collection_replace_maisons, map_app.
    change Maison.json with (json MAISONS_FILE) at 1.
    now rewrite (collection_twice MAISONS_FILE w settled_maisons).
  - rewrite (create_invalid cfg o req w (e :: r) V) by discriminate. discriminate.
  - rewrite (create_thrown cfg o req w e V). discriminate.
Qed.

(** ** Moderating a listing *)

Lemma validerMaison_found (cfg : config) (o : oracle) (req : request) (w : world)
    (m : Maison.t) :
  let id := prop (body req) "id" in
  authorized cfg req ->
  truthy id = true ->
  find (fun x => same_id (Maison.id x) id) (collection MAISONS_FILE w) = Some m ->
  app cfg o POST_admin_validerMaison req w =
    ({| status := 200;
        sent := WithMaison ("Maison valid" ++ e_acute ++ "e") (Maison.set_statut valide m) |},
     {| maisons_json :=
          Some (assign (fun x => same_id (Maison.id x) id) (Maison.set_statut valide)
                       (collection MAISONS_FILE w));
        utilisateurs_json := utilisateurs_json w;
        paiements_json := paiements_json w;
        transactions_json := transactions_json w;
        admin_actions_log :=
          (admin_actions_log w ++
           [ {| log_date := log_now o;
                log_action := "VALIDER_MAISON";
                log_details := [("id", id); ("titre", VStr (Maison.titre m))] |} ])%list;
        disk := disk w |}).
Proof.
  intros id Hauth Hid Hfind.
  unfold app, handler, POST_api_admin_validerMaison.
  rewrite (adminAuth_next cfg req _ Hauth).
  fold id. rewrite Hid.
  unfold serve, bind, readJson. cbn [negb].
  rewrite Hfind.
  reflexivity.
Qed.

Lemma refuserMaison_found (cfg : config) (o : oracle) (req : request) (w : world)
    (m : Maison.t) :
  let id := prop (body req) "id" in
  let raison := prop (body req) "raison" in
  let refuser x :=
    Maison.set_refuseReason (or_else raison (VStr "")) (Maison.set_statut refuse x) in
  authorized cfg req ->
  truthy id = true ->
  find (fun x => same_id (Maison.id x) id) (collection MAISONS_FILE w) = Some m ->
  app cfg o POST_admin_refuserMaison req w =
    ({| status := 200;
        sent := WithMaison ("Maison refus" ++ e_acute ++ "e") (refuser m) |},
     {| maisons_json :=
          Some (assign (fun x => same_id (Maison.id x) id) refuser
                       (collection MAISONS_FILE w));
        utilisateurs_json := utilisateurs_json w;
        paiements_json := paiements_json w;
        transactions_json := transactions_json w;
        admin_actions_log :=
          (admin_actions_log w ++
           [ {| log_date := log_now o;
                log_action := "REFUSER_MAISON";
                log_details :=
                  [("id", id);
                   ("raison",
                    or_else raison
                      (VStr ("non pr" ++ e_acute ++ "cis" ++ e_acute ++ "e")))] |} ])%list;
        disk := disk w |}).
Proof.
  intros id raison refuser Hauth Hid Hfind.
  unfold app, handler, POST_api_admin_refuserMaison.
  rewrite (adminAuth_next cfg req _ Hauth).
  fold id raison. rewrite Hid.
  unfold serve, bind, readJson. cbn [negb].
  rewrite Hfind.
  reflexivity.
Qed.

Lemma Maison_json_set_statut (s : Statut.t) (m : Maison.t) :
  Maison.json m = m -> Maison.json (Maison.set_statut s m) = Maison.set_statut s m.
Proof.
  intros H. destruct m. unfold Maison.json, Maison.set_statut in *. simpl in *.
  injection H as -> -> -> -> -> -> -> -> ->. now rewrite ?JSON_value_twice.
Qed.

(** The listings collection after the validation of a listing that was
    found. *)
Lemma validerMaison_collection (cfg : config) (o : oracle) (req : request)
    (w : world) (m : Maison.t) :
  let id := prop (body req) "id" in
  authorized cfg req ->
  truthy id = true ->
  find (fun x => same_id (Maison.id x) id) (collection MAISONS_FILE w) = Some m ->
  collection MAISONS_FILE (snd (app cfg o POST_admin_validerMaison req w))
  = assign (fun x => same_id (Maison.id x) id) (Maison.set_statut valide)
           (collection MAISONS_FILE w).
Proof.
  intros id Hauth Hid Hfind.
  rewrite (validerMaison_found cfg o req w m Hauth Hid Hfind). fold id.
  unfold collection at 1. cbn [snd content MAISONS_FILE maisons_json json].
  apply map_assign.
  - intros x Hx. now apply (collection_fixed MAISONS_FILE w x settled_maisons).
  - intros x Hx. now apply Maison_json_set_statut.
Qed.

(** C3, as the code has it. A submission that is accepted adds a listing in
    status [en_attente]. Validation puts the listing it finds in status
    [valide] whatever its status was, [en_attente] or [refuse], and changes
    nothing else; on a listing that is already [valide] it leaves the
    listings collection as it was. *)
Theorem listing_status_transitions (cfg : config) (o : oracle) (req : request)
    (w : world) :
  (status (fst (app cfg o POST_maisons req w)) = 200 ->
   exists m,
     collection MAISONS_FILE (snd (app cfg o POST_maisons req w))
     = (collection MAISONS_FILE w ++ [m])%list
     /\ Maison.statut m = en_attente)
  /\ (forall m : Maison.t,
        let id := prop (body req) "id" in
        let w' := snd (app cfg o POST_admin_validerMaison req w) in
        authorized cfg req ->
        truthy id = true ->
        find (fun x => same_id (Maison.id x) id) (collection MAISONS_FILE w) = Some m ->
        collection MAISONS_FILE w'
        = assign (fun x => same_id (Maison.id x) id) (Maison.set_statut valide)
                 (collection MAISONS_FILE w)
        /\ find (fun x => same_id (Maison.id x) id) (collection MAISONS_FILE w')
           = Some (Maison.set_statut valide m)
        /\ Maison.statut (Maison.set_statut valide m) = valide
        /\ (Maison.statut m = valide ->
            collection MAISONS_FILE w' = collection MAISONS_FILE w)).
Proof.
  split.
  - intros H. destruct (create_accepted_collection cfg o req w H) as (s & _ & _ & _ & E).
    eexists. split; [exact E|reflexivity].
  - intros m id w' Hauth Hid Hfind. subst w'.
    pose proof (validerMaison_collection cfg o req w m Hauth Hid Hfind) as E.
    fold id in E. rewrite E. repeat split.
    + apply find_assign; [exact Hfind|].
      apply find_some in Hfind as [_ H]. destruct m; exact H.
    + intros Hst. apply assign_unchanged with (x := m); [exact Hfind|].
      destruct m; simpl in Hst; subst; reflexivity.
Qed.

Lemma listing_status_transitions_witness :
  (exists m,
     collection MAISONS_FILE
       (snd (app Scenario.cfg (Scenario.at_ "1") POST_maisons (Scenario.annonce "250") initial))
     = (collection MAISONS_FILE initial ++ [m])%list
     /\ Maison.statut m = en_attente)
  /\ find (fun x => same_id (Maison.id x) (VStr "uuid-1"))
          (collection MAISONS_FILE
             (snd (app Scenario.cfg (Scenario.at_ "3") POST_admin_validerMaison
                       Scenario.validate_it Scenario.refused)))
     = Some (Maison.set_statut valide Scenario.refused_listing).
Proof.
  split.
  - apply (listing_status_transitions Scenario.cfg (Scenario.at_ "1")
             (Scenario.annonce "250") initial).
    reflexivity.
  - apply (listing_status_transitions Scenario.cfg (Scenario.at_ "3")
             Scenario.validate_it Scenario.refused).
    + split; [discriminate | reflexivity].
    + reflexivity.
    + reflexivity.
Defined.

(** C3, counterexample. A listing is submitted, refused, then validated:
    the same listing is seen in status [refuse] and later in status
    [valide]. *)
Lemma refused_listing_validated :
  map (fun m => (Maison.id m, Maison.statut m)) (collection MAISONS_FILE Scenario.listed)
  = [("uuid-1", en_attente)]
  /\ map (fun m => (Maison.id m, Maison.statut m)) (collection MAISONS_FILE Scenario.refused)
     = [("uuid-1", refuse)]
  /\ map (fun m => (Maison.id m, Maison.statut m))
         (collection MAISONS_FILE Scenario.revalidated)
     = [("uuid-1", valide)].
Proof.
  vm_compute. repeat split.
Qed.

(** ** Every route, seen from the listings collection *)

Lemma authorized_dec (cfg : config) (req : request) :
  {authorized cfg req} + {~ authorized cfg req}.
Proof.
  unfold authorized.
  destruct (string_dec (key_of req) "") as [E|N]; [right; tauto|].
  destruct (string_dec (key_of req) (ADMIN_PASSWORD cfg)) as [E|N']; [left|right]; tauto.
Qed.

Lemma adminAuth_refused (cfg : config) (req : request) (next : M response) :
  ~ authorized cfg req ->
  adminAuth cfg req next
  = res_status_json 403 (Message false ("Acc" ++ e_grave ++ "s admin refus" ++ e_acute)).
Proof.
  intros H. unfold adminAuth. fold (key_of req).
  destruct (String.eqb_spec (key_of req) "") as [E|N]; [reflexivity|].
  destruct (String.eqb_spec (key_of req) (ADMIN_PASSWORD cfg)) as [E|N']; [|reflexivity].
  exfalso. apply H. split; assumption.
Qed.

(** Runs a handler on a symbolic world, splitting on every test met. *)
Ltac run_handler :=
  repeat (cbv beta iota zeta delta
            [app serve handler bind ret throw lift try_catch readJson writeJson
             logAdmin res_json res_status_json adminAuth fst snd
             GET_api_maisons GET_api_maisons_id POST_api_utilisateurs POST_api_paiements
             GET_api_paiements_id GET_api_admin_maisons GET_api_admin_paiements
             POST_api_admin_validerMaison POST_api_admin_refuserMaison
             POST_api_admin_validerPaiement POST_api_admin_refuserPaiement
             GET_api_admin_utilisateurs POST_api_admin_supprimerUtilisateur
             GET_api_admin_stats GET_api_health
             replace content USERS_FILE PAIEMENTS_FILE TRANSACTIONS_FILE];
          try match goal with
          | |- context [if ?b then _ else _] => destruct b
          | |- context [match find ?p ?l with _ => _ end] => destruct (find p l)
          | |- context [match trim_method ?r ?v with _ => _ end] => destruct (trim_method r v)
          | |- context [match ?e with TypeError _ => _ end] => destruct e
          end).

Lemma maisons_untouched (cfg : config) (o : oracle) (r : route) (req : request)
    (w : world) :
  match r with
  | POST_maisons | POST_admin_validerMaison | POST_admin_refuserMaison
  | POST_admin_supprimerMaison => True
  | _ => maisons_json (snd (app cfg o r req w)) = maisons_json w
  end.
Proof.
  destruct r; try exact I; run_handler; reflexivity.
Qed.

Lemma collection_same {A : Type} (f : json_file A) (w w' : world) :
  content f w' = content f w -> collection f w' = collection f w.
Proof. unfold collection. now intros ->. Qed.

Lemma Maison_json_refuser (v : value) (m : Maison.t) :
  Maison.json m = m ->
  Maison.json (Maison.set_refuseReason v (Maison.set_statut refuse m))
  = Maison.set_refuseReason (JSON_value v) (Maison.set_statut refuse m).
Proof.
  intros H. destruct m. unfold Maison.json, Maison.set_statut, Maison.set_refuseReason in *.
  simpl in *. injection H; intros. congruence.
Qed.

Lemma forEach_disk_only {A : Type} (c : A -> M unit) (l : list A) :
  (forall x, disk_only (c x)) -> disk_only (forEach l c).
Proof.
  intros H. induction l as [|x r IH]; intros w; simpl.
  - exists (disk w). now destruct w.
  - unfold bind. destruct (H x w) as [d ->]. destruct (IH (with_disk d w)) as [d' ->].
    exists d'. reflexivity.
Qed.

(** Deleting the images of a listing touches the disk only. *)
Lemma remove_images (cfg : config) (l : list string) :
  disk_only
    (forEach l
       (fun imgPath =>
          let filePath := path_join (BASE_DIR cfg) imgPath in
          there <- existsSync filePath ;;
          if there then removeSync filePath else ret tt)).
Proof.
  apply forEach_disk_only. intros x w. unfold bind, existsSync.
  destruct (existsb _ (disk w)).
  - eexists. reflexivity.
  - exists (disk w). now destruct w.
Qed.

(** Whatever the route and the request, the listings collection changes in
    one of five ways. *)
Lemma maisons_step (cfg : config) (o : oracle) (r : route) (req : request) (w : world) :
  maisons_change (collection MAISONS_FILE w)
                 (collection MAISONS_FILE (snd (app cfg o r req w))).
Proof.
  pose proof (maisons_untouched cfg o r req w) as U.
  assert (Hfix : forall x, In x (collection MAISONS_FILE w) -> Maison.json x = x).
  { intros x. apply (collection_fixed MAISONS_FILE w x settled_maisons). }
  destruct r;
    try (rewrite (collection_same MAISONS_FILE w _ U); apply change_none); clear U.
  - (* POST /api/maisons *)
    destruct (validateMaisonFields (body req)) as [[|e r]|e] eqn:V.
    + destruct (create_accepted cfg o req w V) as (s & _ & ->).
      cbn [snd]. rewrite collection_replace_maisons, map_app.
      change Maison.json with (json MAISONS_FILE) at 1.
      rewrite (collection_twice MAISONS_FILE w settled_maisons).
      apply change_created.
    + rewrite (create_invalid cfg o req w (e :: r) V) by discriminate. cbn [snd].
      destruct (remove_uploads (files_or_empty req) (uploaded req w)) as (_ & H & _).
      rewrite (collection_same MAISONS_FILE (uploaded req w) _ H).
      rewrite (collection_same MAISONS_FILE w (uploaded req w) eq_refl).
      apply change_none.
    + rewrite (create_thrown cfg o req w e V). cbn [snd].
      rewrite (collection_same MAISONS_FILE w (uploaded req w) eq_refl).
      apply change_none.
  - (* POST /api/admin/validerMaison *)
    destruct (authorized_dec cfg req) as [Hauth|Hno].
    + destruct (truthy (prop (body req) "id")) eqn:Hid.
      * destruct (find (fun x => same_id (Maison.id x) (prop (body req) "id"))
                       (collection MAISONS_FILE w)) as [m|] eqn:Hfind.
        -- rewrite (validerMaison_collection cfg o req w m Hauth Hid Hfind).
           apply change_validated.
        -- unfold app, handler, POST_api_admin_validerMaison.
           rewrite (adminAuth_next cfg req _ Hauth), Hid.
           unfold serve, bind, readJson. cbn [negb]. rewrite Hfind.
           apply change_none.
      * unfold app, handler, POST_api_admin_validerMaison.
        rewrite (adminAuth_next cfg req _ Hauth), Hid. apply change_none.
    + unfold app, handler, POST_api_admin_validerMaison.
      rewrite (adminAuth_refused cfg req _ Hno). apply change_none.
  - (* POST /api/admin/refuserMaison *)
    destruct (authorized_dec cfg req) as [Hauth|Hno].
    + destruct (truthy (prop (body req) "id")) eqn:Hid.
      * destruct (find (fun x => same_id (Maison.id x) (prop (body req) "id"))
                       (collection MAISONS_FILE w)) as [m|] eqn:Hfind.
        -- rewrite (refuserMaison_found cfg o req w m Hauth Hid Hfind).
           unfold collection at 2. cbn [snd content MAISONS_FILE maisons_json json].
           rewrite (map_assign _ _ Maison.json
                      (fun x => Maison.set_refuseReason
                                  (JSON_value (or_else (prop (body req) "raison") (VStr "")))
                                  (Maison.set_statut refuse x))).
           ++ apply change_refused.
           ++ exact Hfix.
           ++ intros x Hx. now apply Maison_json_refuser.
        -- unfold app, handler, POST_api_admin_refuserMaison.
           rewrite (adminAuth_next cfg req _ Hauth), Hid.
           unfold serve, bind, readJson. cbn [negb]. rewrite Hfind.
           apply change_none.
      * unfold app, handler, POST_api_admin_refuserMaison.
        rewrite (adminAuth_next cfg req _ Hauth), Hid. apply change_none.
    + unfold app, handler, POST_api_admin_refuserMaison.
      rewrite (adminAuth_refused cfg req _ Hno). apply change_none.
  - (* POST /api/admin/supprimerMaison *)
    unfold app, handler, POST_api_admin_supprimerMaison.
    destruct (authorized_dec cfg req) as [Hauth|Hno];
      [|rewrite (adminAuth_refused cfg req _ Hno); apply change_none].
    rewrite (adminAuth_next cfg req _ Hauth).
    destruct (truthy (prop (body req) "id")); [|apply change_none].
    unfold serve. unfold bind at 1. unfold readJson at 1. cbn [negb].
    destruct (find _ (collection MAISONS_FILE w)) as [m|]; [|apply change_none].
    unfold bind at 1.
    destruct (remove_images cfg (Maison.images m) w) as (d & E). cbv zeta in E.
    rewrite E.
    unfold bind, writeJson, logAdmin, res_json, ret.
    unfold collection at 2. cbn [snd content replace MAISONS_FILE maisons_json json].
    rewrite map_fixed.
    + apply change_deleted.
    + intros x Hx. apply filter_In in Hx as [Hx _]. now apply Hfix.
Qed.

(** ** The reason of a refusal *)

Lemma or_else_defined (v d : value) : d <> VUndef -> or_else v d <> VUndef.
Proof.
  intros Hd. unfold or_else. destruct (truthy v) eqn:Hv; [|exact Hd].
  destruct v; discriminate.
Qed.

Lemma JSON_value_defined (v : value) : v <> VUndef -> JSON_value v <> VUndef.
Proof.
  destruct v; simpl; try tauto; try discriminate.
  intros _. destruct (JSON_number x); discriminate.
Qed.

Lemma reason_fits_change (l l' : list Maison.t) :
  maisons_change l l' ->
  (forall m, In m l -> reason_fits m) -> forall m, In m l' -> reason_fits m.
Proof.
  intros C H m Hm. destruct C as [|o req titre|id|id raison|id].
  - now apply H.
  - apply in_app_or in Hm as [Hm|[<-|[]]]; [now apply H|].
    split; simpl; [reflexivity|discriminate].
  - apply in_assign in Hm as [Hm|(x & Hx & ->)]; [now apply H|].
    split; destruct x; simpl; discriminate.
  - apply in_assign in Hm as [Hm|(x & Hx & ->)]; [now apply H|].
    split; destruct x; simpl; [discriminate|].
    intros _. apply JSON_value_defined, or_else_defined. discriminate.
  - apply filter_In in Hm as [Hm _]. now apply H.
Qed.

Lemma reachable_reason_fits (cfg : config) (w : world) :
  reachable cfg w -> forall m, In m (collection MAISONS_FILE w) -> reason_fits m.
Proof.
  induction 1 as [|w o r req Hw IH].
  - intros m [].
  - apply (reason_fits_change _ _ (maisons_step cfg o r req w) IH).
Qed.

(** C4, as the code has it. On every listing record reached by any
    sequence of requests, [refuseReason] is absent while the status is
    [en_attente] and present when the status is [refuse]. Validation leaves
    [refuseReason] as it finds it: a listing validated after a refusal keeps
    the reason of that refusal. *)
Theorem refuseReason_set_by_refusal_only (cfg : config) (w : world) :
  reachable cfg w ->
  (forall m, In m (collection MAISONS_FILE w) ->
     (Maison.statut m = en_attente -> Maison.refuseReason m = VUndef)
     /\ (Maison.statut m = refuse -> Maison.refuseReason m <> VUndef))
  /\ (forall (o : oracle) (req : request) (m : Maison.t),
        let id := prop (body req) "id" in
        authorized cfg req ->
        truthy id = true ->
        find (fun x => same_id (Maison.id x) id) (collection MAISONS_FILE w) = Some m ->
        exists m',
          find (fun x => same_id (Maison.id x) id)
               (collection MAISONS_FILE (snd (app cfg o POST_admin_validerMaison req w)))
          = Some m'
          /\ Maison.statut m' = valide
          /\ Maison.refuseReason m' = Maison.refuseReason m).
Proof.
  intros Hw. split.
  - intros m Hm. exact (reachable_reason_fits cfg w Hw m Hm).
  - intros o req m id Hauth Hid Hfind.
    exists (Maison.set_statut valide m).
    rewrite (validerMaison_collection cfg o req w m Hauth Hid Hfind). fold id.
    repeat split.
    apply find_assign; [exact Hfind|].
    apply find_some in Hfind as [_ H]. destruct m; exact H.
Qed.

Lemma refuseReason_set_by_refusal_only_witness :
  (Maison.statut Scenario.refused_listing = refuse ->
   Maison.refuseReason Scenario.refused_listing <> VUndef)
  /\ exists m',
       find (fun x => same_id (Maison.id x) (VStr "uuid-1"))
            (collection MAISONS_FILE
               (snd (app Scenario.cfg (Scenario.at_ "3") POST_admin_validerMaison
                         Scenario.validate_it Scenario.refused)))
       = Some m'
       /\ Maison.statut m' = valide
       /\ Maison.refuseReason m' = Maison.refuseReason Scenario.refused_listing.
Proof.
  assert (R : reachable Scenario.cfg Scenario.refused).
  { unfold Scenario.refused, Scenario.listed.
    apply reachable_app, reachable_app, reachable_initial. }
  destruct (refuseReason_set_by_refusal_only Scenario.cfg Scenario.refused R) as [H1 H2].
  split.
  - destruct (H1 Scenario.refused_listing) as [_ H]; [|exact H].
    vm_compute. left. reflexivity.
  - apply (H2 (Scenario.at_ "3") Scenario.validate_it Scenario.refused_listing).
    + split; [discriminate | reflexivity].
    + reflexivity.
    + reflexivity.
Defined.

(** C4, counterexample. A listing is submitted, refused with a reason, then
    validated: the stored record has status [valide] and still carries the
    reason of the refusal. *)
Lemma validated_listing_keeps_reason :
  map (fun m => (Maison.statut m, Maison.refuseReason m))
      (collection MAISONS_FILE Scenario.revalidated)
  = [(valide, VStr "photos floues")]
  /\ reachable Scenario.cfg Scenario.revalidated.
Proof.
  split.
  - vm_compute. reflexivity.
  - unfold Scenario.revalidated, Scenario.refused, Scenario.listed.
    apply reachable_app, reachable_app, reachable_app, reachable_initial.
Qed.

(** ** The public list *)

Lemma Statut_eqb_eq (a b : Statut.t) : Statut.eqb a b = true <-> a = b.
Proof. destruct a, b; simpl; split; intros H; try reflexivity; discriminate H. Qed.

Lemma filter_selection {A : Type} (p : A -> bool) (l : list A) :
  selection (fun x => p x = true) l (filter p l).
Proof.
  induction l as [|x r IH]; simpl.
  - constructor.
  - destruct (p x) eqn:Hx.
    + now apply selection_keep.
    + apply selection_skip; [|exact IH]. rewrite Hx. discriminate.
Qed.

Lemma selection_ext {A : Type} (P Q : A -> Prop) (l s : list A) :
  (forall x, P x <-> Q x) -> selection P l s -> selection Q l s.
Proof.
  intros H. induction 1 as [|x l s Hx _ IH|x l s Hx _ IH].
  - constructor.
  - apply selection_keep; [now apply H|exact IH].
  - apply selection_skip; [|exact IH]. intros Hq. apply Hx. now apply H.
Qed.

Lemma selection_In {A : Type} (P : A -> Prop) (l s : list A) :
  selection P l s -> forall x, In x s <-> In x l /\ P x.
Proof.
  induction 1 as [|y l s Hy _ IH|y l s Hy _ IH]; intros x; simpl.
  - tauto.
  - rewrite IH. split; [intros [<-|]; tauto|]. tauto.
  - rewrite IH. split; [tauto|]. intros [[<-|]]; tauto.
Qed.

(** C6. In every world - so in every world reached by submissions,
    validations, refusals and deletions - GET /api/maisons answers with the
    listings of the collection whose status is [valide], all of them and no
    other, in the order of the collection, and changes nothing. *)
Theorem public_list_is_the_validated_listings (cfg : config) (o : oracle)
    (req : request) (w : world) :
  exists l,
    app cfg o GET_maisons req w = ({| status := 200; sent := Maisons l |}, w)
    /\ selection (fun m => Maison.statut m = valide) (collection MAISONS_FILE w) l
    /\ (forall m, In m l <-> In m (collection MAISONS_FILE w) /\ Maison.statut m = valide)
    /\ (forall m, In m l -> Maison.statut m <> en_attente /\ Maison.statut m <> refuse).
Proof.
  exists (filter (fun m => Statut.eqb (Maison.statut m) valide) (collection MAISONS_FILE w)).
  assert (S : selection (fun m => Maison.statut m = valide) (collection MAISONS_FILE w)
                (filter (fun m => Statut.eqb (Maison.statut m) valide)
                        (collection MAISONS_FILE w))).
  { eapply selection_ext; [|apply filter_selection].
    intros m. apply Statut_eqb_eq. }
  split; [reflexivity|]. split; [exact S|]. split.
  - apply (selection_In _ _ _ S).
  - intros m Hm. apply (selection_In _ _ _ S) in Hm as [_ ->]. split; discriminate.
Qed.

(** ** The price of a listing *)

(** C7, as the code has it. The listing created by an accepted submission
    has [Number(prix)] of the submitted [prix] as its price, a number that is
    not NaN and has no lower bound; the file keeps it as that number when it
    is finite (as [null] when it is an infinity). *)
Theorem created_price_is_a_number (cfg : config) (o : oracle) (req : request)
    (w : world) :
  let x := Number (prop (body req) "prix") in
  status (fst (app cfg o POST_maisons req w)) = 200 ->
  is_nan x = false
  /\ exists m,
       (exists message, sent (fst (app cfg o POST_maisons req w)) = WithMaison message m)
       /\ Maison.prix m = Num x
       /\ collection MAISONS_FILE (snd (app cfg o POST_maisons req w))
          = (collection MAISONS_FILE w ++ [Maison.json m])%list
       /\ Maison.prix (Maison.json m) = JSON_number x.
Proof.
  intros x H.
  destruct (create_accepted_collection cfg o req w H) as (s & _ & V & Hm & E).
  destruct (validateMaisonFields_nil _ V) as (_ & _ & Hn & _).
  split; [exact Hn|].
  exists (new_maison o req (trim s)). repeat split; assumption || reflexivity.
Qed.

Lemma created_price_is_a_number_witness :
  let answer := app Scenario.cfg (Scenario.at_ "1") POST_maisons (Scenario.annonce "250")
                    initial in
  is_nan (Number (VStr "250")) = false
  /\ exists m,
       (exists message, sent (fst answer) = WithMaison message m)
       /\ Maison.prix m = Num (Number (VStr "250"))
       /\ collection MAISONS_FILE (snd answer)
          = (collection MAISONS_FILE initial ++ [Maison.json m])%list
       /\ Maison.prix (Maison.json m) = JSON_number (Number (VStr "250")).
Proof.
  apply (created_price_is_a_number Scenario.cfg (Scenario.at_ "1")
           (Scenario.annonce "250") initial).
  reflexivity.
Defined.

(** C7, counterexample. A submission with the price -5 is accepted and the
    listing is stored with the price -5, which is below 0. *)
Lemma negative_price_stored :
  let answer := app Scenario.cfg (Scenario.at_ "1") POST_maisons (Scenario.annonce "-5")
                    initial in
  status (fst answer) = 200
  /\ map Maison.prix (collection MAISONS_FILE (snd answer)) = [Num (-5)]
  /\ (0 <=? -5)%float = false.
Proof.
  vm_compute. repeat split.
Qed.

(** ** A submission that fails validation *)

(** X23. A submission whose [prix] is the string "abc" and whose [titre],
    [ville], [commune] and [quartier] are each left out, empty or a string is
    answered 400 with a list of errors that names the price; none of the
    files of the request is on disk afterwards, and the four collections and
    the admin log are as they were. *)
Theorem abc_price_fails_validation (cfg : config) (o : oracle) (req : request)
    (w : world) :
  let w' := snd (app cfg o POST_maisons req w) in
  prop (body req) "prix" = VStr "abc" ->
  textual (prop (body req) "titre") ->
  textual (prop (body req) "ville") ->
  textual (prop (body req) "commune") ->
  textual (prop (body req) "quartier") ->
  (exists errors,
     fst (app cfg o POST_maisons req w)
     = {| status := 400; sent := Invalid "Champs invalides" errors |}
     /\ In "prix (nombre)" errors)
  /\ (forall f, In f (files_or_empty req) -> ~ In (Upload.path f) (disk w'))
  /\ maisons_json w' = maisons_json w
  /\ utilisateurs_json w' = utilisateurs_json w
  /\ paiements_json w' = paiements_json w
  /\ transactions_json w' = transactions_json w
  /\ admin_actions_log w' = admin_actions_log w.
Proof.
  intros w' Hprix Ht Hv Hc Hq. subst w'.
  destruct (absent_or_shorter_textual "body.titre" _ 3 Ht) as [b1 E1].
  destruct (absent_or_shorter_textual "body.ville" _ 2 Hv) as [b2 E2].
  destruct (absent_or_shorter_textual "body.commune" _ 1 Hc) as [b3 E3].
  destruct (absent_or_shorter_textual "body.quartier" _ 1 Hq) as [b4 E4].
  assert (V : exists errors, validateMaisonFields (body req) = inl errors
                             /\ In "prix (nombre)" errors).
  { unfold validateMaisonFields. rewrite E1, E2, E3, E4, Hprix.
    replace (isNaN (Number (VStr "abc"))) with true by (vm_compute; reflexivity).
    eexists. split; [reflexivity|].
    destruct b1, b2, b3, b4; simpl; tauto. }
  destruct V as (errors & V & Hin).
  rewrite (create_invalid cfg o req w errors V) by (intros ->; destruct Hin).
  destruct (remove_uploads (files_or_empty req) (uploaded req w))
    as (_ & H1 & H2 & H3 & H4 & H5 & H6).
  cbn [fst snd]. split; [eauto|]. split; [|repeat split; assumption].
  intros f Hf Hd. destruct (H6 _ Hd) as [_ Hne]. now apply (Hne f).
Qed.

Lemma abc_price_fails_validation_witness :
  let w' := snd (app Scenario.cfg (Scenario.at_ "1") POST_maisons (Scenario.annonce "abc")
                     initial) in
  (exists errors,
     fst (app Scenario.cfg (Scenario.at_ "1") POST_maisons (Scenario.annonce "abc") initial)
     = {| status := 400; sent := Invalid "Champs invalides" errors |}
     /\ In "prix (nombre)" errors)
  /\ (forall f, In f [Scenario.photo] -> ~ In (Upload.path f) (disk w'))
  /\ maisons_json w' = Some []
  /\ utilisateurs_json w' = Some []
  /\ paiements_json w' = Some []
  /\ transactions_json w' = Some []
  /\ admin_actions_log w' = [].
Proof.
  apply (abc_price_fails_validation Scenario.cfg (Scenario.at_ "1")
           (Scenario.annonce "abc") initial).
  - reflexivity.
  - right. eexists. reflexivity.
  - right. eexists. reflexivity.
  - right. eexists. reflexivity.
  - right. eexists. reflexivity.
Defined.

(** C8, on the input where the code departs from it. A form in which the
    field [titre] is sent twice, with the price "abc" and one photo:
    [body.titre] is an array, [body.titre.trim] is not a function, the
    validation throws before it looks at the price, and the [catch] of the
    handler answers 500 - not a validation error with a list of fields - and
    removes nothing: the photo of the request stays on disk. The listings
    collection is as it was. *)
Theorem abc_price_with_repeated_title :
  let req := Scenario.repeated_title in
  let answer := app Scenario.cfg (Scenario.at_ "1") POST_maisons req initial in
  prop (body req) "prix" = VStr "abc"
  /\ files req = Some [Scenario.photo]
  /\ validateMaisonFields (body req)
     = inr (TypeError "body.titre.trim is not a function")
  /\ fst answer
     = {| status := 500; sent := Message false "Erreur serveur lors de l'ajout" |}
  /\ (forall errors,
        fst answer <> {| status := 400; sent := Invalid "Champs invalides" errors |})
  /\ In (Upload.path Scenario.photo) (disk (snd answer))
  /\ collection MAISONS_FILE (snd answer) = collection MAISONS_FILE initial.
Proof.
  split; [reflexivity|]. split; [reflexivity|].
  split; [vm_compute; reflexivity|]. split; [vm_compute; reflexivity|].
  split; [intros errors; vm_compute; discriminate|].
  split; [vm_compute; left; reflexivity|vm_compute; reflexivity].
Qed.

(** ** Statistics *)

(** On a [montant] as a file holds it, [montant || 0] is the amount. *)
Lemma or_zero_settled (n : numeric) :
  JSON_numeric n = n -> or_zero n = match n with Num x => x | Null => zero end.
Proof.
  destruct n as [x|]; [|reflexivity]. simpl. unfold JSON_number.
  destruct (is_finite x) eqn:Hf; [|discriminate].
  destruct (is_zero x) eqn:Hz; simpl.
  - now intros [= <-].
  - intros _. unfold is_finite in Hf. destruct (is_nan x); [discriminate Hf|reflexivity].
Qed.

Lemma fold_running_total (l : list Transaction.t) (acc : float) :
  (forall t, In t l -> Transaction.json t = t) ->
  fold_left (fun s t => (s + or_zero (Transaction.montant t))%float) l acc
  = running_total acc l.
Proof.
  revert acc. induction l as [|t r IH]; intros acc H; simpl; [reflexivity|].
  rewrite IH by (intros x Hx; apply H; simpl; tauto).
  f_equal. f_equal. unfold amount. apply or_zero_settled.
  specialize (H t (or_introl eq_refl)). destruct t; unfold Transaction.json in H.
  simpl in *. now injection H.
Qed.

(** C9, as the code has it. GET /api/admin/stats leaves the world exactly as
    it was, whoever asks; to an administrator it answers with the sizes of
    the three collections and, as [revenusTotaux], the amounts of the
    Transactions of the transactions collection added one after another from
    0, in the order of the collection, each addition rounded to a double, a
    [montant] that is [null] counting for 0 - in every world, so in every
    reachable one. *)
Theorem stats_reads_the_running_total (cfg : config) (o : oracle) (req : request)
    (w : world) :
  snd (app cfg o GET_admin_stats req w) = w
  /\ (authorized cfg req ->
      fst (app cfg o GET_admin_stats req w)
      = {| status := 200;
           sent := Stats (List.length (collection MAISONS_FILE w))
                         (List.length (collection USERS_FILE w))
                         (List.length (collection PAIEMENTS_FILE w))
                         (running_total zero (collection TRANSACTIONS_FILE w)) |}).
Proof.
  split.
  - unfold app, handler, GET_api_admin_stats.
    destruct (authorized_dec cfg req) as [Hauth|Hno].
    + now rewrite (adminAuth_next cfg req _ Hauth).
    + now rewrite (adminAuth_refused cfg req _ Hno).
  - intros Hauth. unfold app, handler, GET_api_admin_stats.
    rewrite (adminAuth_next cfg req _ Hauth).
    unfold serve, bind, readJson, res_json, ret. cbn [fst].
    rewrite fold_running_total; [reflexivity|].
    intros t. apply (collection_fixed TRANSACTIONS_FILE w t settled_transactions).
Qed.

Lemma stats_reads_the_running_total_witness :
  fst (app Scenario.cfg (Scenario.at_ "4") GET_admin_stats (Scenario.admin [])
           Scenario.approved)
  = {| status := 200; sent := Stats 0 0 1 100 |}.
Proof.
  apply (stats_reads_the_running_total Scenario.cfg (Scenario.at_ "4") (Scenario.admin [])
           Scenario.approved).
  split; [discriminate | reflexivity].
Defined.

(** C9, counterexample. Three payments of 10^16, 1 and 1 are recorded and
    approved, in that order and in the order 1, 1, 10^16. Both ledgers hold
    the same three amounts, whose sum 10^16 + 2 is a double; the statistics
    show 10^16 for the first ledger and 10^16 + 2 for the second: for the
    first, [revenusTotaux] is not the sum of the amounts. *)
Lemma revenue_is_not_the_sum :
  let big_first := Scenario.three_approved 1e16 1 1 in
  let big_last := Scenario.three_approved 1 1 1e16 in
  let stats w := fst (app Scenario.cfg (Scenario.at_ "7") GET_admin_stats
                          (Scenario.admin []) w) in
  reachable Scenario.cfg big_first
  /\ reachable Scenario.cfg big_last
  /\ map Transaction.montant (collection TRANSACTIONS_FILE big_first)
     = map (fun z => Num (of_integer z)) [10 ^ 16; 1; 1]%Z
  /\ map Transaction.montant (collection TRANSACTIONS_FILE big_last)
     = map (fun z => Num (of_integer z)) [1; 1; 10 ^ 16]%Z
  /\ Prim2SF (of_integer (10 ^ 16 + 1 + 1)) = S754_finite false 5000000000000001 1
  /\ stats big_first
     = {| status := 200; sent := Stats 0 0 3 (of_integer (10 ^ 16)) |}
  /\ stats big_last
     = {| status := 200; sent := Stats 0 0 3 (of_integer (10 ^ 16 + 1 + 1)) |}
  /\ of_integer (10 ^ 16) <> of_integer (10 ^ 16 + 1 + 1).
Proof.
  intros big_first big_last stats.
  split; [unfold big_first, Scenario.three_approved;
          repeat apply reachable_app; apply reachable_initial|].
  split; [unfold big_last, Scenario.three_approved;
          repeat apply reachable_app; apply reachable_initial|].
  split; [vm_compute; reflexivity|]. split; [vm_compute; reflexivity|].
  split; [vm_compute; reflexivity|]. split; [vm_compute; reflexivity|].
  split; [vm_compute; reflexivity|].
  intros H. apply (f_equal Prim2SF) in H. vm_compute in H. discriminate H.
Qed.

(** ** Deleting a user *)

Lemma filter_all {A : Type} (p : A -> bool) (l : list A) :
  (forall x, In x l -> p x = true) -> filter p l = l.
Proof.
  induction l as [|x r IH]; simpl; intros H; [reflexivity|].
  rewrite (H x) by tauto. f_equal. apply IH. intros y Hy. apply H. tauto.
Qed.

(** C10. Deleting, with an id that no user of the collection has, is
    answered with a success and leaves the users collection as it was. *)
Theorem delete_absent_user_succeeds (cfg : config) (o : oracle) (req : request)
    (w : world) :
  let id := prop (body req) "id" in
  let w' := snd (app cfg o POST_admin_supprimerUtilisateur req w) in
  authorized cfg req ->
  truthy id = true ->
  (forall u, In u (collection USERS_FILE w) -> same_id (Utilisateur.id u) id = false) ->
  fst (app cfg o POST_admin_supprimerUtilisateur req w)
  = {| status := 200; sent := Message true ("Utilisateur supprim" ++ e_acute) |}
  /\ collection USERS_FILE w' = collection USERS_FILE w.
Proof.
  intros id w' Hauth Hid Habsent. subst w'.
  unfold app, handler, POST_api_admin_supprimerUtilisateur.
  rewrite (adminAuth_next cfg req _ Hauth). fold id. rewrite Hid.
  unfold serve, bind, readJson, writeJson, logAdmin, res_json, ret.
  cbn [negb fst snd]. split; [reflexivity|].
  unfold collection at 1. cbn [content replace USERS_FILE utilisateurs_json json].
  unfold Utilisateur.json. rewrite map_id.
  apply filter_all. intros u Hu. now rewrite (Habsent u Hu).
Qed.

Lemma delete_absent_user_succeeds_witness :
  let req := Scenario.admin [("id", VStr "uuid-404")] in
  fst (app Scenario.cfg (Scenario.at_ "2") POST_admin_supprimerUtilisateur req
           Scenario.enrolled)
  = {| status := 200; sent := Message true ("Utilisateur supprim" ++ e_acute) |}
  /\ collection USERS_FILE
       (snd (app Scenario.cfg (Scenario.at_ "2") POST_admin_supprimerUtilisateur req
                 Scenario.enrolled))
     = collection USERS_FILE Scenario.enrolled.
Proof.
  intros req.
  apply (delete_absent_user_succeeds Scenario.cfg (Scenario.at_ "2") req Scenario.enrolled).
  - split; [discriminate | reflexivity].
  - reflexivity.
  - intros u [<-|[]]. reflexivity.
Defined.

(** * Further properties of the routes *)

(** ** Refusals that change nothing *)

Lemma no_header_unauthorized (cfg : config) (req : request) :
  authorization req = None -> ~ authorized cfg req.
Proof.
  intros H [Hne _]. apply Hne. unfold key_of. now rewrite H.
Qed.

(** X1. Every route behind [adminAuth] answers 403 and leaves the world as it
    was when the request has no authorization header, or one that is not the
    admin password once trimmed. *)
Theorem admin_routes_need_the_password (cfg : config) (o : oracle) (r : route)
    (req : request) (w : world) :
  admin_route r = true ->
  authorization req = None \/ key_of req <> ADMIN_PASSWORD cfg ->
  app cfg o r req w
  = ({| status := 403;
        sent := Message false ("Acc" ++ e_grave ++ "s admin refus" ++ e_acute) |}, w).
Proof.
  intros Hr H.
  assert (Hno : ~ authorized cfg req).
  { destruct H as [H|H]; [now apply no_header_unauthorized|]. intros [_ E]. now apply H. }
  destruct r; try discriminate Hr;
    unfold app, handler, GET_api_admin_maisons, POST_api_admin_validerMaison,
      POST_api_admin_refuserMaison, POST_api_admin_supprimerMaison,
      GET_api_admin_paiements, POST_api_admin_validerPaiement,
      POST_api_admin_refuserPaiement, GET_api_admin_utilisateurs,
      POST_api_admin_supprimerUtilisateur, GET_api_admin_stats;
    rewrite (adminAuth_refused cfg req _ Hno); reflexivity.
Qed.

Lemma admin_routes_need_the_password_witness :
  app Scenario.cfg (Scenario.at_ "2") POST_admin_supprimerUtilisateur
      (Scenario.visitor [("id", VStr "uuid-1")]) Scenario.enrolled
  = ({| status := 403;
        sent := Message false ("Acc" ++ e_grave ++ "s admin refus" ++ e_acute) |},
     Scenario.enrolled).
Proof.
  apply (admin_routes_need_the_password Scenario.cfg (Scenario.at_ "2")
           POST_admin_supprimerUtilisateur (Scenario.visitor [("id", VStr "uuid-1")])
           Scenario.enrolled).
  - reflexivity.
  - left. reflexivity.
Defined.

(** X2. An admin request that names a listing or a payment no record has is
    answered 404 and writes nothing: no file, no line of log. *)
Theorem unknown_id_changes_nothing (cfg : config) (o : oracle) (req : request)
    (w : world) :
  authorized cfg req ->
  (truthy (prop (body req) "id") = true ->
   find (fun x => same_id (Maison.id x) (prop (body req) "id")) (collection MAISONS_FILE w)
   = None ->
   let answer := ({| status := 404;
                     sent := Message false ("Maison non trouv" ++ e_acute ++ "e") |}, w) in
   app cfg o POST_admin_validerMaison req w = answer
   /\ app cfg o POST_admin_refuserMaison req w = answer
   /\ app cfg o POST_admin_supprimerMaison req w = answer)
  /\ (truthy (prop (body req) "paiementId") = true ->
      find (fun x => same_id (Paiement.id x) (prop (body req) "paiementId"))
           (collection PAIEMENTS_FILE w) = None ->
      let answer := ({| status := 404;
                        sent := Message false ("Paiement non trouv" ++ e_acute) |}, w) in
      app cfg o POST_admin_validerPaiement req w = answer
      /\ app cfg o POST_admin_refuserPaiement req w = answer).
Proof.
  intros Hauth. split; intros Hid Hfind answer; subst answer;
    unfold app, handler, POST_api_admin_validerMaison, POST_api_admin_refuserMaison,
      POST_api_admin_supprimerMaison, POST_api_admin_validerPaiement,
      POST_api_admin_refuserPaiement;
    rewrite !(adminAuth_next cfg req _ Hauth), Hid;
    unfold serve, bind, readJson; cbn [negb]; rewrite Hfind; repeat split.
Qed.

Lemma unknown_id_changes_nothing_witness :
  let req := Scenario.admin [("id", VStr "uuid-404"); ("paiementId", VStr "uuid-404")] in
  app Scenario.cfg (Scenario.at_ "2") POST_admin_supprimerMaison req Scenario.listed
  = ({| status := 404;
        sent := Message false ("Maison non trouv" ++ e_acute ++ "e") |}, Scenario.listed)
  /\ app Scenario.cfg (Scenario.at_ "2") POST_admin_validerPaiement req Scenario.paid
     = ({| status := 404;
           sent := Message false ("Paiement non trouv" ++ e_acute) |}, Scenario.paid).
Proof.
  intros req. split.
  - apply (unknown_id_changes_nothing Scenario.cfg (Scenario.at_ "2") req Scenario.listed);
      [split; [discriminate | reflexivity] | reflexivity | reflexivity].
  - apply (unknown_id_changes_nothing Scenario.cfg (Scenario.at_ "2") req Scenario.paid);
      [split; [discriminate | reflexivity] | reflexivity | reflexivity].
Defined.

(** X3. An admin request without the id it needs (absent, empty, or otherwise
    falsy) is answered 400 and writes nothing. *)
Theorem missing_id_changes_nothing (cfg : config) (o : oracle) (req : request)
    (w : world) :
  authorized cfg req ->
  (truthy (prop (body req) "id") = false ->
   let answer := ({| status := 400; sent := Message false "id requis" |}, w) in
   app cfg o POST_admin_validerMaison req w = answer
   /\ app cfg o POST_admin_refuserMaison req w = answer
   /\ app cfg o POST_admin_supprimerMaison req w = answer
   /\ app cfg o POST_admin_supprimerUtilisateur req w = answer)
  /\ (truthy (prop (body req) "paiementId") = false ->
      let answer := ({| status := 400; sent := Message false "paiementId requis" |}, w) in
      app cfg o POST_admin_validerPaiement req w = answer
      /\ app cfg o POST_admin_refuserPaiement req w = answer).
Proof.
  intros Hauth. split; intros Hid answer; subst answer;
    unfold app, handler, POST_api_admin_validerMaison, POST_api_admin_refuserMaison,
      POST_api_admin_supprimerMaison, POST_api_admin_supprimerUtilisateur,
      POST_api_admin_validerPaiement, POST_api_admin_refuserPaiement;
    rewrite !(adminAuth_next cfg req _ Hauth), Hid; repeat split.
Qed.

Lemma missing_id_changes_nothing_witness :
  let req := Scenario.admin [("id", VStr "")] in
  app Scenario.cfg (Scenario.at_ "2") POST_admin_supprimerUtilisateur req Scenario.enrolled
  = ({| status := 400; sent := Message false "id requis" |}, Scenario.enrolled)
  /\ app Scenario.cfg (Scenario.at_ "2") POST_admin_refuserPaiement req Scenario.paid
     = ({| status := 400; sent := Message false "paiementId requis" |}, Scenario.paid).
Proof.
  intros req. split.
  - apply (missing_id_changes_nothing Scenario.cfg (Scenario.at_ "2") req Scenario.enrolled);
      [split; [discriminate | reflexivity] | reflexivity].
  - apply (missing_id_changes_nothing Scenario.cfg (Scenario.at_ "2") req Scenario.paid);
      [split; [discriminate | reflexivity] | reflexivity].
Defined.

(** ** Refusing a listing *)

Lemma or_else_absent (v d : value) : truthy v = false -> or_else v d = d.
Proof. unfold or_else. now intros ->. Qed.

(** X4. Refusing the listing found puts it in status [refuse], whatever its
    status was, with the reason given - the empty string when none is given
    or when it is falsy - in place of any earlier reason; every other field
    and every other listing is as before. *)
Theorem refusal_sets_status_and_reason (cfg : config) (o : oracle) (req : request)
    (w : world) (m : Maison.t) :
  let id := prop (body req) "id" in
  let raison := prop (body req) "raison" in
  let w' := snd (app cfg o POST_admin_refuserMaison req w) in
  authorized cfg req ->
  truthy id = true ->
  find (fun x => same_id (Maison.id x) id) (collection MAISONS_FILE w) = Some m ->
  collection MAISONS_FILE w'
  = assign (fun x => same_id (Maison.id x) id) (maison_refused raison)
           (collection MAISONS_FILE w)
  /\ find (fun x => same_id (Maison.id x) id) (collection MAISONS_FILE w')
     = Some (maison_refused raison m)
  /\ Maison.statut (maison_refused raison m) = refuse
  /\ (truthy raison = false -> Maison.refuseReason (maison_refused raison m) = VStr "")
  /\ (forall s, raison = VStr s -> s <> "" ->
                Maison.refuseReason (maison_refused raison m) = VStr s).
Proof.
  intros id raison w' Hauth Hid Hfind. subst w'.
  assert (E : collection MAISONS_FILE (snd (app cfg o POST_admin_refuserMaison req w))
              = assign (fun x => same_id (Maison.id x) id) (maison_refused raison)
                       (collection MAISONS_FILE w)).
  { rewrite (refuserMaison_found cfg o req w m Hauth Hid Hfind).
    unfold collection at 1. cbn [snd content MAISONS_FILE maisons_json json].
    apply map_assign.
    - intros x. apply (collection_fixed MAISONS_FILE w x settled_maisons).
    - intros x Hx. now apply Maison_json_refuser. }
  rewrite E. split; [reflexivity|]. split.
  - apply find_assign; [exact Hfind|].
    apply find_some in Hfind as [_ H]. destruct m; exact H.
  - split; [reflexivity|]. split.
    + intros H. unfold maison_refused. rewrite (or_else_absent _ _ H). reflexivity.
    + intros s -> Hs. unfold maison_refused, or_else. simpl.
      destruct (String.eqb_spec s ""); [contradiction|reflexivity].
Qed.

Lemma refusal_sets_status_and_reason_witness :
  let again := Scenario.admin [("id", VStr "uuid-1")] in
  find (fun x => same_id (Maison.id x) (VStr "uuid-1"))
       (collection MAISONS_FILE
          (snd (app Scenario.cfg (Scenario.at_ "3") POST_admin_refuserMaison again
                    Scenario.refused)))
  = Some (maison_refused VUndef Scenario.refused_listing)
  /\ Maison.refuseReason (maison_refused VUndef Scenario.refused_listing) = VStr "".
Proof.
  intros again.
  destruct (refusal_sets_status_and_reason Scenario.cfg (Scenario.at_ "3") again
              Scenario.refused Scenario.refused_listing)
    as (_ & H1 & _ & H2 & _).
  - split; [discriminate | reflexivity].
  - reflexivity.
  - reflexivity.
  - split; [exact H1|]. apply H2. reflexivity.
Defined.

(** ** Deleting a listing *)

(** One image removed when it is there: what is left on disk was there
    before and is not that image. *)
Lemma remove_if_there (p : string) (w : world) :
  exists d,
    (there <- existsSync p ;; if there then removeSync p else ret tt) w
    = (inl tt, with_disk d w)
    /\ forall q, In q d -> In q (disk w) /\ q <> p.
Proof.
  unfold bind, existsSync. destruct (existsb (String.eqb p) (disk w)) eqn:E.
  - eexists. split; [reflexivity|]. intros q Hq. apply filter_In in Hq as [Hq Hn].
    split; [exact Hq|]. destruct (String.eqb_spec q p); [discriminate|assumption].
  - exists (disk w). split; [now destruct w|]. intros q Hq. split; [exact Hq|].
    intros ->. assert (X : existsb (String.eqb p) (disk w) = true).
    { apply existsb_exists. exists p. split; [exact Hq|apply String.eqb_refl]. }
    rewrite E in X. discriminate X.
Qed.

Lemma remove_all_there (cfg : config) (l : list string) (w : world) :
  exists d,
    forEach l
      (fun imgPath =>
         let filePath := path_join (BASE_DIR cfg) imgPath in
         there <- existsSync filePath ;;
         if there then removeSync filePath else ret tt) w
    = (inl tt, with_disk d w)
    /\ forall q, In q d ->
         In q (disk w) /\ forall img, In img l -> q <> path_join (BASE_DIR cfg) img.
Proof.
  revert w. induction l as [|x r IH]; intros w.
  - exists (disk w). split; [now destruct w|]. intros q Hq. split; [exact Hq|intros _ []].
  - cbn [forEach]. unfold bind at 1.
    destruct (remove_if_there (path_join (BASE_DIR cfg) x) w) as (d & E & Hd).
    cbv zeta. rewrite E.
    destruct (IH (with_disk d w)) as (d' & E' & Hd'). cbv zeta in E'. rewrite E'.
    exists d'. split; [reflexivity|]. intros q Hq.
    destruct (Hd' q Hq) as [Hq1 Hq2]. destruct (Hd q Hq1) as [Hq3 Hq4].
    split; [exact Hq3|]. intros img [<-|Hi]; [exact Hq4|now apply Hq2].
Qed.

Lemma supprimerMaison_found (cfg : config) (o : oracle) (req : request) (w : world)
    (m : Maison.t) :
  let id := prop (body req) "id" in
  authorized cfg req ->
  truthy id = true ->
  find (fun x => same_id (Maison.id x) id) (collection MAISONS_FILE w) = Some m ->
  exists d,
    app cfg o POST_admin_supprimerMaison req w =
      ({| status := 200; sent := Message true ("Maison supprim" ++ e_acute ++ "e") |},
       {| maisons_json :=
            Some (filter (fun x => negb (same_id (Maison.id x) id))
                         (collection MAISONS_FILE w));
          utilisateurs_json := utilisateurs_json w;
          paiements_json := paiements_json w;
          transactions_json := transactions_json w;
          admin_actions_log :=
            (admin_actions_log w ++
             [ {| log_date := log_now o;
                  log_action := "SUPPRIMER_MAISON";
                  log_details := [("id", id); ("titre", VStr (Maison.titre m))] |} ])%list;
          disk := d |})
    /\ forall q, In q d ->
         In q (disk w)
         /\ forall img, In img (Maison.images m) -> q <> path_join (BASE_DIR cfg) img.
Proof.
  intros id Hauth Hid Hfind.
  destruct (remove_all_there cfg (Maison.images m) w) as (d & E & Hd). cbv zeta in E.
  exists d. split; [|exact Hd].
  unfold app, handler, POST_api_admin_supprimerMaison.
  rewrite (adminAuth_next cfg req _ Hauth). fold id. rewrite Hid.
  unfold serve. unfold bind at 1. unfold readJson at 1. cbn [negb].
  rewrite Hfind. unfold bind at 1. rewrite E. reflexivity.
Qed.

(** X5. Deleting the listing found removes every record that has its id and
    keeps the others in their order; none of its images is on disk any more;
    a request for it by id is then answered 404; users, payments and
    transactions are as before. *)
Theorem deletion_removes_listing_and_images (cfg : config) (o : oracle)
    (req : request) (w : world) (m : Maison.t) :
  let id := prop (body req) "id" in
  let w' := snd (app cfg o POST_admin_supprimerMaison req w) in
  authorized cfg req ->
  truthy id = true ->
  find (fun x => same_id (Maison.id x) id) (collection MAISONS_FILE w) = Some m ->
  fst (app cfg o POST_admin_supprimerMaison req w)
  = {| status := 200; sent := Message true ("Maison supprim" ++ e_acute ++ "e") |}
  /\ collection MAISONS_FILE w'
     = filter (fun x => negb (same_id (Maison.id x) id)) (collection MAISONS_FILE w)
  /\ (forall img, In img (Maison.images m) ->
                  ~ In (path_join (BASE_DIR cfg) img) (disk w'))
  /\ (forall o' req',
        fst (app cfg o' (GET_maisons_id (Maison.id m)) req' w')
        = {| status := 404; sent := Message false "Maison introuvable" |})
  /\ utilisateurs_json w' = utilisateurs_json w
  /\ paiements_json w' = paiements_json w
  /\ transactions_json w' = transactions_json w.
Proof.
  intros id w' Hauth Hid Hfind. subst w'.
  destruct (supprimerMaison_found cfg o req w m Hauth Hid Hfind) as (d & E & Hd).
  fold id in E. rewrite E. cbn [fst snd].
  set (w' := Build_world _ _ _ _ _ _).
  assert (Ec : collection MAISONS_FILE w'
               = filter (fun x => negb (same_id (Maison.id x) id))
                        (collection MAISONS_FILE w)).
  { unfold collection at 1. subst w'. cbn [content MAISONS_FILE maisons_json json].
    apply map_fixed. intros x Hx. apply filter_In in Hx as [Hx _].
    now apply (collection_fixed MAISONS_FILE w x settled_maisons). }
  split; [reflexivity|]. split; [exact Ec|]. split; [|split; [|repeat split]].
  - intros img Hi Hq. destruct (Hd _ Hq) as [_ H]. now apply (H img).
  - intros o' req'. unfold app, handler, GET_api_maisons_id, serve, bind, readJson.
    rewrite Ec.
    destruct (find (fun m0 => Maison.id m0 =? Maison.id m)
                   (filter (fun x => negb (same_id (Maison.id x) id))
                           (collection MAISONS_FILE w))) as [x|] eqn:F; [|reflexivity].
    exfalso. apply find_some in F as [Hx Hxm]. apply filter_In in Hx as [_ Hx].
    apply find_some in Hfind as [_ Hm].
    apply String.eqb_eq in Hxm. rewrite Hxm, Hm in Hx. discriminate Hx.
Qed.

Lemma deletion_removes_listing_and_images_witness :
  let w' := snd (app Scenario.cfg (Scenario.at_ "4") POST_admin_supprimerMaison
                     Scenario.validate_it Scenario.refused) in
  collection MAISONS_FILE w' = []
  /\ ~ In "/srv/maison/uploads/1714989600000-f0.jpg" (disk w').
Proof.
  intros w'.
  destruct (deletion_removes_listing_and_images Scenario.cfg (Scenario.at_ "4")
              Scenario.validate_it Scenario.refused Scenario.refused_listing)
    as (_ & H1 & H2 & _).
  - split; [discriminate | reflexivity].
  - reflexivity.
  - reflexivity.
  - split; [exact H1|]. apply (H2 "/uploads/1714989600000-f0.jpg"). left. reflexivity.
Defined.

(** ** Refusing a payment *)

Lemma refuserPaiement_found (cfg : config) (o : oracle) (req : request) (w : world)
    (p : Paiement.t) :
  let paiementId := prop (body req) "paiementId" in
  let raison := prop (body req) "raison" in
  let refuser x :=
    Paiement.set_refuseReason (or_else raison (VStr "")) (Paiement.set_statut refuse x) in
  authorized cfg req ->
  truthy paiementId = true ->
  find (fun x => same_id (Paiement.id x) paiementId) (collection PAIEMENTS_FILE w) = Some p ->
  app cfg o POST_admin_refuserPaiement req w =
    ({| status := 200;
        sent := WithPaiement ("Paiement refus" ++ e_acute) (refuser p) |},
     {| maisons_json := maisons_json w;
        utilisateurs_json := utilisateurs_json w;
        paiements_json :=
          Some (assign (fun x => same_id (Paiement.id x) paiementId) refuser
                       (collection PAIEMENTS_FILE w));
        transactions_json := transactions_json w;
        admin_actions_log :=
          (admin_actions_log w ++
           [ {| log_date := log_now o;
                log_action := "REFUSER_PAIEMENT";
                log_details :=
                  [("paiementId", paiementId);
                   ("raison",
                    or_else raison
                      (VStr ("non pr" ++ e_acute ++ "cis" ++ e_acute ++ "e")))] |} ])%list;
        disk := disk w |}).
Proof.
  intros paiementId raison refuser Hauth Hid Hfind.
  unfold app, handler, POST_api_admin_refuserPaiement.
  rewrite (adminAuth_next cfg req _ Hauth).
  fold paiementId raison. rewrite Hid.
  unfold serve, bind, readJson. cbn [negb].
  rewrite Hfind.
  reflexivity.
Qed.

Lemma Paiement_json_refuser (v : value) (p : Paiement.t) :
  Paiement.json p = p ->
  Paiement.json (Paiement.set_refuseReason (or_else v (VStr "")) (Paiement.set_statut refuse p))
  = paiement_refused v p.
Proof.
  intros H. destruct p.
  unfold Paiement.json, paiement_refused, Paiement.set_statut, Paiement.set_refuseReason in *.
  simpl in *. injection H; intros. congruence.
Qed.

Lemma refuserPaiement_collection (cfg : config) (o : oracle) (req : request)
    (w : world) (p : Paiement.t) :
  let paiementId := prop (body req) "paiementId" in
  authorized cfg req ->
  truthy paiementId = true ->
  find (fun x => same_id (Paiement.id x) paiementId) (collection PAIEMENTS_FILE w) = Some p ->
  collection PAIEMENTS_FILE (snd (app cfg o POST_admin_refuserPaiement req w))
  = assign (fun x => same_id (Paiement.id x) paiementId)
           (paiement_refused (prop (body req) "raison")) (collection PAIEMENTS_FILE w)
  /\ transactions_json (snd (app cfg o POST_admin_refuserPaiement req w))
     = transactions_json w.
Proof.
  intros paiementId Hauth Hid Hfind.
  rewrite (refuserPaiement_found cfg o req w p Hauth Hid Hfind). fold paiementId.
  split; [|reflexivity].
  unfold collection at 1. cbn [snd content PAIEMENTS_FILE paiements_json json].
  apply map_assign.
  - intros x. apply (collection_fixed PAIEMENTS_FILE w x settled_paiements).
  - intros x Hx. now apply Paiement_json_refuser.
Qed.

(** X6. Refusing the payment found puts it in status [refuse] with the reason
    given (the empty string for none), whatever its status was, and keeps its
    id, amount, date and receiving phone; the transactions file is not
    written: no Transaction is added and none is taken back, also when the
    payment had been approved. *)
Theorem payment_refusal_leaves_the_ledger (cfg : config) (o : oracle)
    (req : request) (w : world) (p : Paiement.t) :
  let paiementId := prop (body req) "paiementId" in
  let raison := prop (body req) "raison" in
  let w' := snd (app cfg o POST_admin_refuserPaiement req w) in
  authorized cfg req ->
  truthy paiementId = true ->
  find (fun x => same_id (Paiement.id x) paiementId) (collection PAIEMENTS_FILE w) = Some p ->
  transactions_json w' = transactions_json w
  /\ find (fun x => same_id (Paiement.id x) paiementId) (collection PAIEMENTS_FILE w')
     = Some (paiement_refused raison p)
  /\ Paiement.statut (paiement_refused raison p) = refuse
  /\ Paiement.refuseReason (paiement_refused raison p)
     = JSON_value (or_else raison (VStr ""))
  /\ Paiement.id (paiement_refused raison p) = Paiement.id p
  /\ Paiement.montant (paiement_refused raison p) = Paiement.montant p
  /\ Paiement.date (paiement_refused raison p) = Paiement.date p
  /\ Paiement.receptionPhone (paiement_refused raison p) = Paiement.receptionPhone p.
Proof.
  intros paiementId raison w' Hauth Hid Hfind. subst w'.
  destruct (refuserPaiement_collection cfg o req w p Hauth Hid Hfind) as [Ec Et].
  fold paiementId raison in Ec. rewrite Ec.
  split; [exact Et|]. split; [|destruct p; repeat split].
  apply find_assign; [exact Hfind|].
  apply find_some in Hfind as [_ H]. destruct p; exact H.
Qed.

Lemma payment_refusal_leaves_the_ledger_witness :
  let req := Scenario.admin [("paiementId", VStr "uuid-1"); ("raison", VStr "doublon")] in
  let w' := snd (app Scenario.cfg (Scenario.at_ "3") POST_admin_refuserPaiement req
                     Scenario.approved) in
  transactions_json w' = transactions_json Scenario.approved
  /\ map Paiement.statut (collection PAIEMENTS_FILE w') = [refuse].
Proof.
  intros req w'.
  destruct (payment_refusal_leaves_the_ledger Scenario.cfg (Scenario.at_ "3") req
              Scenario.approved
              (Paiement.set_statut valide (new_paiement Scenario.cfg (Scenario.at_ "1")
                 (Scenario.visitor [("utilisateurId", VStr "user-7");
                                    ("maisonId", VStr "house-3"); ("montant", VNum 100)]))))
    as (H1 & _).
  - split; [discriminate | reflexivity].
  - reflexivity.
  - reflexivity.
  - split; [exact H1|]. reflexivity.
Defined.

(** ** Approval and the statistics *)

(** X7. Approving the payment found adds its amount (0 for an amount that is
    [null]) to [revenusTotaux]: the statistics asked after the approval show
    the total shown before plus that amount, and the same three counts. *)
Theorem approval_adds_to_revenue (cfg : config) (o o1 o2 : oracle)
    (req admin : request) (w : world) (p : Paiement.t)
    (nm nu np : nat) (total : float) :
  let paiementId := prop (body req) "paiementId" in
  let w' := snd (app cfg o POST_admin_validerPaiement req w) in
  authorized cfg req ->
  authorized cfg admin ->
  truthy paiementId = true ->
  find (fun x => same_id (Paiement.id x) paiementId) (collection PAIEMENTS_FILE w) = Some p ->
  fst (app cfg o1 GET_admin_stats admin w) = {| status := 200; sent := Stats nm nu np total |} ->
  fst (app cfg o2 GET_admin_stats admin w')
  = {| status := 200;
       sent := Stats nm nu np (total + or_zero (Paiement.montant p))%float |}.
Proof.
  intros paiementId w' Hauth Hadmin Hid Hfind.
  destruct (validerPaiement_collections cfg o req w p Hauth Hid Hfind) as [Hp Ht].
  fold paiementId in Hp. fold w' in Hp, Ht.
  assert (Hm : collection MAISONS_FILE w' = collection MAISONS_FILE w).
  { subst w'. now rewrite (validerPaiement_found cfg o req w p Hauth Hid Hfind). }
  assert (Hu : collection USERS_FILE w' = collection USERS_FILE w).
  { subst w'. now rewrite (validerPaiement_found cfg o req w p Hauth Hid Hfind). }
  unfold app, handler, GET_api_admin_stats.
  rewrite !(adminAuth_next cfg admin _ Hadmin).
  unfold serve, bind, readJson, res_json, ret. cbn [fst].
  rewrite Hm, Hu, Hp, Ht, fold_left_app. cbn [fold_left Transaction.montant].
  intros E. injection E as <- <- <- <-.
  f_equal. f_equal.
  clear. induction (collection PAIEMENTS_FILE w) as [|x r IH]; simpl; [reflexivity|].
  destruct (same_id (Paiement.id x) paiementId); simpl; [reflexivity|now rewrite IH].
Qed.

Lemma approval_adds_to_revenue_witness :
  fst (app Scenario.cfg (Scenario.at_ "5") GET_admin_stats (Scenario.admin [])
           (snd (app Scenario.cfg (Scenario.at_ "3") POST_admin_validerPaiement
                     Scenario.approve Scenario.approved)))
  = {| status := 200; sent := Stats 0 0 1 (100 + or_zero (Num 100))%float |}.
Proof.
  apply (approval_adds_to_revenue Scenario.cfg (Scenario.at_ "3") (Scenario.at_ "4")
           (Scenario.at_ "5") Scenario.approve (Scenario.admin []) Scenario.approved
           (Paiement.set_statut valide (new_paiement Scenario.cfg (Scenario.at_ "1")
              (Scenario.visitor [("utilisateurId", VStr "user-7");
                                 ("maisonId", VStr "house-3"); ("montant", VNum 100)])))
           0 0 1 100%float).
  - split; [discriminate | reflexivity].
  - split; [discriminate | reflexivity].
  - reflexivity.
  - reflexivity.
  - reflexivity.
Defined.

(** ** What the validation of a listing accepts and reports *)

Lemma trim_empty_of_short (s : string) : (1 <= String.length (trim s))%nat -> s <> "".
Proof. intros H ->. simpl in H. lia. Qed.

Lemma absent_or_shorter_spec (r : string) (v : value) (n : nat) :
  (1 <= n)%nat ->
  absent_or_shorter r v n = inl false <-> long_enough v n.
Proof.
  intros Hn. split.
  - intros H. destruct (absent_or_shorter_false r v n H) as (s & -> & _ & Hs).
    exists s. split; [reflexivity|exact Hs].
  - intros (s & -> & Hs). unfold absent_or_shorter. simpl.
    destruct (String.eqb_spec s "") as [E|_].
    + exfalso. apply (trim_empty_of_short s); [lia|exact E].
    + simpl. f_equal. apply Nat.ltb_ge. exact Hs.
Qed.

(** X8. [validateMaisonFields] returns no error exactly for a body whose
    [titre], [ville], [commune] and [quartier] are strings of at least 3, 2, 1
    and 1 code units once trimmed, and whose [prix] is truthy and not NaN as
    a number. *)
Theorem validation_passes_exactly_when (body : list (string * value)) :
  validateMaisonFields body = inl []
  <-> long_enough (prop body "titre") 3
      /\ truthy (prop body "prix") = true
      /\ isNaN (Number (prop body "prix")) = false
      /\ long_enough (prop body "ville") 2
      /\ long_enough (prop body "commune") 1
      /\ long_enough (prop body "quartier") 1.
Proof.
  split.
  - intros H. destruct (validateMaisonFields_nil body H) as (H1 & H2 & H3 & H4 & H5 & H6).
    split; [apply (absent_or_shorter_spec "body.titre"); [lia|exact H1]|].
    split; [exact H2|]. split; [exact H3|].
    split; [apply (absent_or_shorter_spec "body.ville"); [lia|exact H4]|].
    split; [apply (absent_or_shorter_spec "body.commune"); [lia|exact H5]|].
    apply (absent_or_shorter_spec "body.quartier"); [lia|exact H6].
  - intros (H1 & H2 & H3 & H4 & H5 & H6).
    apply (absent_or_shorter_spec "body.titre") in H1; [|lia].
    apply (absent_or_shorter_spec "body.ville") in H4; [|lia].
    apply (absent_or_shorter_spec "body.commune") in H5; [|lia].
    apply (absent_or_shorter_spec "body.quartier") in H6; [|lia].
    unfold validateMaisonFields. rewrite H1, H2, H3, H4, H5, H6. reflexivity.
Qed.

Lemma absent_or_shorter_textual_spec (r : string) (v : value) (n : nat) :
  (1 <= n)%nat -> textual v ->
  exists bad, absent_or_shorter r v n = inl bad /\ (bad = true <-> ~ long_enough v n).
Proof.
  intros Hn Ht. destruct (absent_or_shorter_textual r v n Ht) as [bad E].
  exists bad. split; [exact E|].
  destruct bad.
  - split; [|reflexivity]. intros _ H. apply (absent_or_shorter_spec r) in H; [|exact Hn].
    rewrite E in H. discriminate H.
  - split; [discriminate|]. intros H. exfalso. apply H.
    now apply (absent_or_shorter_spec r).
Qed.

(** X9. When the four text fields are strings or left out, the validation does
    not throw: it returns the names of the fields that fail their check, each
    one exactly when its field fails, in the order titre, prix, ville,
    commune, quartier. *)
Theorem validation_reports_each_bad_field (body : list (string * value)) :
  textual (prop body "titre") ->
  textual (prop body "ville") ->
  textual (prop body "commune") ->
  textual (prop body "quartier") ->
  exists b_titre b_prix b_ville b_commune b_quartier : bool,
    validateMaisonFields body
    = inl (map snd (filter fst [(b_titre, "titre (min 3)"); (b_prix, "prix (nombre)");
                                (b_ville, "ville"); (b_commune, "commune");
                                (b_quartier, "quartier")]))
    /\ (b_titre = true <-> ~ long_enough (prop body "titre") 3)
    /\ (b_prix = true <->
        truthy (prop body "prix") = false \/ isNaN (Number (prop body "prix")) = true)
    /\ (b_ville = true <-> ~ long_enough (prop body "ville") 2)
    /\ (b_commune = true <-> ~ long_enough (prop body "commune") 1)
    /\ (b_quartier = true <-> ~ long_enough (prop body "quartier") 1).
Proof.
  intros Ht Hv Hc Hq.
  destruct (absent_or_shorter_textual_spec "body.titre" _ 3 ltac:(lia) Ht) as (b1 & E1 & S1).
  destruct (absent_or_shorter_textual_spec "body.ville" _ 2 ltac:(lia) Hv) as (b3 & E3 & S3).
  destruct (absent_or_shorter_textual_spec "body.commune" _ 1 ltac:(lia) Hc) as (b4 & E4 & S4).
  destruct (absent_or_shorter_textual_spec "body.quartier" _ 1 ltac:(lia) Hq) as (b5 & E5 & S5).
  exists b1, (negb (truthy (prop body "prix")) || isNaN (Number (prop body "prix"))),
         b3, b4, b5.
  split; [|repeat split; try apply S1; try apply S3; try apply S4; try apply S5].
  - unfold validateMaisonFields. rewrite E1, E3, E4, E5. simpl.
    destruct b1, b3, b4, b5,
      (negb (truthy (prop body "prix")) || isNaN (Number (prop body "prix")));
      reflexivity.
  - destruct (truthy (prop body "prix")); simpl; [tauto|]. intros _. now left.
  - intros [->| ->]; [reflexivity|apply orb_true_r].
Qed.

Lemma validation_reports_each_bad_field_witness :
  exists b_titre b_prix b_ville b_commune b_quartier : bool,
    validateMaisonFields [("titre", VStr " ab "); ("prix", VStr "abc"); ("ville", VStr "Kinshasa")]
    = inl (map snd (filter fst [(b_titre, "titre (min 3)"); (b_prix, "prix (nombre)");
                                (b_ville, "ville"); (b_commune, "commune");
                                (b_quartier, "quartier")]))
    /\ (b_ville = true <-> ~ long_enough (VStr "Kinshasa") 2).
Proof.
  destruct (validation_reports_each_bad_field
              [("titre", VStr " ab "); ("prix", VStr "abc"); ("ville", VStr "Kinshasa")])
    as (b1 & b2 & b3 & b4 & b5 & E & _ & _ & H & _).
  - right. eexists. reflexivity.
  - right. eexists. reflexivity.
  - left. reflexivity.
  - left. reflexivity.
  - exists b1, b2, b3, b4, b5. split; [exact E|exact H].
Defined.

(** ** What an accepted submission stores *)

Lemma find_app {A : Type} (p : A -> bool) (l l' : list A) :
  find p (l ++ l')
  = match find p l with Some x => Some x | None => find p l' end.
Proof.
  induction l as [|x r IH]; simpl; [reflexivity|]. destruct (p x); [reflexivity|exact IH].
Qed.

Lemma find_none_of_absent {A : Type} (p : A -> bool) (l : list A) :
  (forall x, In x l -> p x = false) -> find p l = None.
Proof.
  induction l as [|x r IH]; simpl; intros H; [reflexivity|].
  rewrite (H x) by tauto. apply IH. intros y Hy. apply H. tauto.
Qed.

(** X10. The listing an accepted submission stores has the trimmed title, at
    most [MAX_IMAGES] images - the URLs of the first five files of the
    request, in their order - no reason of refusal, the status [en_attente]
    and the id and date drawn for the request. *)
Theorem accepted_listing_record (cfg : config) (o : oracle) (req : request)
    (w : world) :
  status (fst (app cfg o POST_maisons req w)) = 200 ->
  exists s m,
    prop (body req) "titre" = VStr s
    /\ (exists message, sent (fst (app cfg o POST_maisons req w)) = WithMaison message m)
    /\ collection MAISONS_FILE (snd (app cfg o POST_maisons req w))
       = (collection MAISONS_FILE w ++ [Maison.json m])%list
    /\ Maison.titre m = trim s
    /\ (3 <= String.length (Maison.titre m))%nat
    /\ Maison.images m
       = map (fun f => "/uploads/" ++ Upload.filename f) (firstn 5 (files_or_empty req))
    /\ List.length (Maison.images m) = Nat.min 5 (List.length (files_or_empty req))
    /\ Maison.statut m = en_attente
    /\ Maison.refuseReason m = VUndef
    /\ Maison.id m = uuid o
    /\ Maison.datePublication m = now o.
Proof.
  intros H.
  destruct (create_accepted_collection cfg o req w H) as (s & Es & V & Hm & E).
  exists s, (new_maison o req (trim s)).
  destruct (validateMaisonFields_nil _ V) as (Ht & _).
  destruct (absent_or_shorter_false _ _ _ Ht) as (s' & Es' & _ & Hlen).
  rewrite Es in Es'. injection Es' as <-.
  repeat split; try assumption.
  unfold new_maison, Maison.images. rewrite length_map. apply length_firstn.
Qed.

Lemma accepted_listing_record_witness :
  let answer := app Scenario.cfg (Scenario.at_ "1") POST_maisons (Scenario.annonce "250")
                    initial in
  exists s m,
    VStr "Villa Gombe" = VStr s
    /\ (exists message, sent (fst answer) = WithMaison message m)
    /\ collection MAISONS_FILE (snd answer) = ([] ++ [Maison.json m])%list
    /\ Maison.titre m = trim s
    /\ (3 <= String.length (Maison.titre m))%nat
    /\ Maison.images m
       = map (fun f => "/uploads/" ++ Upload.filename f) (firstn 5 [Scenario.photo])
    /\ List.length (Maison.images m) = Nat.min 5 1
    /\ Maison.statut m = en_attente
    /\ Maison.refuseReason m = VUndef
    /\ Maison.id m = "uuid-1"
    /\ Maison.datePublication m = "2024-05-01T10:00:00.000Z".
Proof.
  apply (accepted_listing_record Scenario.cfg (Scenario.at_ "1") (Scenario.annonce "250")
           initial).
  reflexivity.
Defined.

(** X11. A listing just accepted is not on the public list, which is what it
    was before the submission, and is served by id - in status [en_attente] -
    when no stored listing has the id drawn for it. *)
Theorem accepted_listing_waits_for_validation (cfg : config) (o o1 o2 : oracle)
    (req req1 req2 : request) (w : world) :
  let w' := snd (app cfg o POST_maisons req w) in
  status (fst (app cfg o POST_maisons req w)) = 200 ->
  fst (app cfg o1 GET_maisons req1 w') = fst (app cfg o1 GET_maisons req1 w)
  /\ ((forall x, In x (collection MAISONS_FILE w) -> Maison.id x <> uuid o) ->
      exists m,
        fst (app cfg o2 (GET_maisons_id (uuid o)) req2 w')
        = {| status := 200; sent := OneMaison m |}
        /\ Maison.statut m = en_attente
        /\ Maison.id m = uuid o).
Proof.
  intros w' H.
  destruct (create_accepted_collection cfg o req w H) as (s & Es & V & Hm & E).
  fold w' in E. clear H Hm. clearbody w'.
  unfold app, handler, GET_api_maisons, GET_api_maisons_id, serve, bind, readJson.
  cbn [fst]. rewrite E. split.
  - rewrite filter_app. simpl. now rewrite app_nil_r.
  - intros Hfresh. rewrite find_app.
    rewrite find_none_of_absent.
    + simpl. rewrite String.eqb_refl. eexists. split; [reflexivity|]. split; reflexivity.
    + intros x Hx. apply String.eqb_neq. now apply Hfresh.
Qed.

Lemma accepted_listing_waits_for_validation_witness :
  fst (app Scenario.cfg (Scenario.at_ "2") GET_maisons (Scenario.visitor []) Scenario.listed)
  = fst (app Scenario.cfg (Scenario.at_ "2") GET_maisons (Scenario.visitor []) initial)
  /\ exists m,
       fst (app Scenario.cfg (Scenario.at_ "3") (GET_maisons_id "uuid-1")
                (Scenario.visitor []) Scenario.listed)
       = {| status := 200; sent := OneMaison m |}
       /\ Maison.statut m = en_attente
       /\ Maison.id m = "uuid-1".
Proof.
  destruct (accepted_listing_waits_for_validation Scenario.cfg (Scenario.at_ "1")
              (Scenario.at_ "2") (Scenario.at_ "3") (Scenario.annonce "250")
              (Scenario.visitor []) (Scenario.visitor []) initial) as [H1 H2].
  - reflexivity.
  - split; [exact H1|]. apply H2. intros x [].
Defined.

(** ** What a recorded payment holds *)

(** X12. A payment that is recorded keeps the receiving phone of the
    configuration, takes the method "mobile_money" and the reference [null]
    when none is given, adds nothing to the transactions, and is served by
    id, pending, when no stored payment has the id drawn for it. *)
Theorem recorded_payment_is_served_pending (cfg : config) (o o' : oracle)
    (req req' : request) (w : world) :
  let p := new_paiement cfg o req in
  let w' := snd (app cfg o POST_paiements req w) in
  truthy (prop (body req) "utilisateurId") = true ->
  truthy (prop (body req) "maisonId") = true ->
  truthy (prop (body req) "montant") = true ->
  Paiement.receptionPhone p = PAYMENT_PHONE cfg
  /\ (truthy (prop (body req) "methode") = false -> Paiement.methode p = VStr "mobile_money")
  /\ (truthy (prop (body req) "reference") = false -> Paiement.reference p = VNull)
  /\ transactions_json w' = transactions_json w
  /\ ((forall x, In x (collection PAIEMENTS_FILE w) -> Paiement.id x <> uuid o) ->
      fst (app cfg o' (GET_paiements_id (uuid o)) req' w')
      = {| status := 200; sent := OnePaiement (Paiement.json p) |}
      /\ Paiement.statut (Paiement.json p) = en_attente).
Proof.
  intros p w' Hu Hm Ha.
  destruct (paiement_recorded cfg o req w Hu Hm Ha) as (_ & _ & E). fold w' p in E.
  split; [reflexivity|]. split; [|split; [|split]].
  - intros H. unfold p, new_paiement. simpl. now apply or_else_absent.
  - intros H. unfold p, new_paiement. simpl. now apply or_else_absent.
  - subst w'. unfold app, handler, POST_api_paiements. rewrite Hu, Hm, Ha. reflexivity.
  - intros Hfresh. clearbody w'. split; [|reflexivity].
    unfold app, handler, GET_api_paiements_id, serve, bind, readJson. cbn [fst].
    rewrite E, find_app, find_none_of_absent.
    + simpl. now rewrite String.eqb_refl.
    + intros x Hx. apply String.eqb_neq. now apply Hfresh.
Qed.

Lemma recorded_payment_is_served_pending_witness :
  let req := Scenario.visitor [("utilisateurId", VStr "user-7");
                               ("maisonId", VStr "house-3"); ("montant", VNum 100)] in
  let p := new_paiement Scenario.cfg (Scenario.at_ "1") req in
  Paiement.methode p = VStr "mobile_money"
  /\ fst (app Scenario.cfg (Scenario.at_ "2") (GET_paiements_id "uuid-1")
              (Scenario.visitor []) Scenario.paid)
     = {| status := 200; sent := OnePaiement (Paiement.json p) |}.
Proof.
  intros req p.
  destruct (recorded_payment_is_served_pending Scenario.cfg (Scenario.at_ "1")
              (Scenario.at_ "2") req (Scenario.visitor []) initial)
    as (_ & H1 & _ & _ & H2).
  - reflexivity.
  - reflexivity.
  - reflexivity.
  - split; [apply H1; reflexivity|]. apply H2. intros x [].
Defined.

(** ** Users *)

(** X13. Signing up: without a name or a phone the answer is 400 and nothing
    is written; with two non-empty strings the user is added at the end of
    the collection with both trimmed (the test is made before trimming, so a
    name of blanks is stored empty) and no listing; with a truthy value that
    is not a string, [trim] throws on the first such field - the name before
    the phone - the global handler answers 500 with the message of that
    error, and nothing is written. *)
Theorem signup_outcomes (cfg : config) (o : oracle) (req : request) (w : world) :
  let nom := prop (body req) "nom" in
  let telephone := prop (body req) "telephone" in
  (truthy nom = false \/ truthy telephone = false ->
   app cfg o POST_utilisateurs req w
   = ({| status := 400; sent := Message false "nom et telephone requis" |}, w))
  /\ (forall n t, nom = VStr n -> telephone = VStr t -> n <> "" -> t <> "" ->
        let user := {| Utilisateur.id := uuid o; Utilisateur.nom := trim n;
                       Utilisateur.telephone := trim t; Utilisateur.maisons := [] |} in
        fst (app cfg o POST_utilisateurs req w)
        = {| status := 200;
             sent := WithUtilisateur ("Utilisateur cr" ++ e_acute ++ e_acute) user |}
        /\ collection USERS_FILE (snd (app cfg o POST_utilisateurs req w))
           = (collection USERS_FILE w ++ [user])%list)
  /\ (truthy nom = true -> truthy telephone = true -> (forall n, nom <> VStr n) ->
      app cfg o POST_utilisateurs req w
      = ({| status := 500;
            sent := ServerError "Erreur serveur" "nom.trim is not a function" |}, w))
  /\ (forall n, nom = VStr n -> n <> "" -> truthy telephone = true ->
      (forall t, telephone <> VStr t) ->
      app cfg o POST_utilisateurs req w
      = ({| status := 500;
            sent := ServerError "Erreur serveur" "telephone.trim is not a function" |}, w)).
Proof.
  intros nom telephone. split; [|split; [|split]].
  - intros H. unfold app, handler, POST_api_utilisateurs. fold nom telephone.
    assert (E : negb (truthy nom) || negb (truthy telephone) = true).
    { destruct H as [E|E]; rewrite E; simpl; rewrite ?orb_true_r; reflexivity. }
    rewrite E. reflexivity.
  - intros n t En Et Hn Ht user.
    unfold app, handler, POST_api_utilisateurs. fold nom telephone. rewrite En, Et.
    simpl truthy. destruct (String.eqb_spec n ""); [contradiction|].
    destruct (String.eqb_spec t ""); [contradiction|].
    unfold serve, bind, readJson, lift, writeJson, res_json, ret.
    cbn [negb orb trim_method fst snd]. split; [reflexivity|].
    unfold collection at 1. cbn [content replace USERS_FILE utilisateurs_json json].
    unfold Utilisateur.json. now rewrite map_id.
  - intros Hn Ht H. unfold app, handler, POST_api_utilisateurs. fold nom telephone.
    rewrite Hn, Ht. unfold serve, bind, readJson, lift. cbn [negb orb].
    destruct nom as [| |b|x|s|l]; try reflexivity. exfalso. now apply (H s).
  - intros n En Hn Ht H. unfold app, handler, POST_api_utilisateurs.
    fold nom telephone. rewrite Ht, En. simpl truthy.
    destruct (String.eqb_spec n ""); [contradiction|].
    unfold serve, bind, readJson, lift. cbn [negb orb trim_method].
    destruct telephone as [| |b|x|s|l]; try reflexivity. exfalso. now apply (H s).
Qed.

Lemma signup_outcomes_witness :
  let blank := Scenario.visitor [("nom", VStr "  "); ("telephone", VStr " 0831 ")] in
  let numeric := Scenario.visitor [("nom", VStr "Ben"); ("telephone", VNum 831401205)] in
  let listed := Scenario.visitor [("nom", VArr [VStr "Ben"; VStr "Ben"]);
                                  ("telephone", VNum 831401205)] in
  collection USERS_FILE (snd (app Scenario.cfg (Scenario.at_ "1") POST_utilisateurs blank initial))
  = [ {| Utilisateur.id := "uuid-1"; Utilisateur.nom := "";
         Utilisateur.telephone := "0831"; Utilisateur.maisons := [] |} ]
  /\ app Scenario.cfg (Scenario.at_ "1") POST_utilisateurs numeric initial
     = ({| status := 500;
           sent := ServerError "Erreur serveur" "telephone.trim is not a function" |},
        initial)
  /\ app Scenario.cfg (Scenario.at_ "1") POST_utilisateurs listed initial
     = ({| status := 500;
           sent := ServerError "Erreur serveur" "nom.trim is not a function" |}, initial)
  /\ app Scenario.cfg (Scenario.at_ "1") POST_utilisateurs (Scenario.visitor []) initial
     = ({| status := 400; sent := Message false "nom et telephone requis" |}, initial).
Proof.
  intros blank numeric listed. split; [|split; [|split]].
  - destruct (signup_outcomes Scenario.cfg (Scenario.at_ "1") blank initial) as (_ & H & _).
    destruct (H "  " " 0831 " eq_refl eq_refl) as [_ E];
      [discriminate | discriminate | exact E].
  - destruct (signup_outcomes Scenario.cfg (Scenario.at_ "1") numeric initial)
      as (_ & _ & _ & H).
    apply (H "Ben"); [reflexivity | discriminate | reflexivity | discriminate].
  - destruct (signup_outcomes Scenario.cfg (Scenario.at_ "1") listed initial)
      as (_ & _ & H & _).
    apply H; [reflexivity | reflexivity | discriminate].
  - destruct (signup_outcomes Scenario.cfg (Scenario.at_ "1") (Scenario.visitor []) initial)
      as (H & _).
    apply H. left. reflexivity.
Defined.

(** X14. Deleting a user removes every user that has the id given and keeps the
    others in their order; listings, payments, transactions and uploaded
    files are not touched (nothing cascades). *)
Theorem user_deletion_does_not_cascade (cfg : config) (o : oracle) (req : request)
    (w : world) :
  let id := prop (body req) "id" in
  let w' := snd (app cfg o POST_admin_supprimerUtilisateur req w) in
  authorized cfg req ->
  truthy id = true ->
  collection USERS_FILE w'
  = filter (fun x => negb (same_id (Utilisateur.id x) id)) (collection USERS_FILE w)
  /\ (forall u, In u (collection USERS_FILE w') -> same_id (Utilisateur.id u) id = false)
  /\ maisons_json w' = maisons_json w
  /\ paiements_json w' = paiements_json w
  /\ transactions_json w' = transactions_json w
  /\ disk w' = disk w.
Proof.
  intros id w' Hauth Hid. subst w'.
  unfold app, handler, POST_api_admin_supprimerUtilisateur.
  rewrite (adminAuth_next cfg req _ Hauth). fold id. rewrite Hid.
  unfold serve, bind, readJson, writeJson, logAdmin, res_json, ret. cbn [negb fst snd].
  assert (E : collection USERS_FILE
                (Build_world (maisons_json w)
                   (Some (filter (fun x => negb (same_id (Utilisateur.id x) id))
                                 (collection USERS_FILE w)))
                   (paiements_json w) (transactions_json w)
                   (admin_actions_log w ++
                    [ {| log_date := log_now o; log_action := "SUPPRIMER_UTILISATEUR";
                         log_details := [("id", id)] |} ])%list
                   (disk w))
              = filter (fun x => negb (same_id (Utilisateur.id x) id))
                       (collection USERS_FILE w)).
  { unfold collection at 1. cbn [content USERS_FILE utilisateurs_json json].
    unfold Utilisateur.json. now rewrite map_id. }
  cbn [replace USERS_FILE utilisateurs_json maisons_json paiements_json transactions_json
       admin_actions_log disk].
  split; [exact E|]. split; [|repeat split].
  intros u Hu. rewrite E in Hu. apply filter_In in Hu as [_ Hu].
  now apply negb_true_iff in Hu.
Qed.

Lemma user_deletion_does_not_cascade_witness :
  let w' := snd (app Scenario.cfg (Scenario.at_ "2") POST_admin_supprimerUtilisateur
                     (Scenario.admin [("id", VStr "uuid-1")]) Scenario.enrolled) in
  collection USERS_FILE w' = []
  /\ maisons_json w' = maisons_json Scenario.enrolled.
Proof.
  intros w'.
  destruct (user_deletion_does_not_cascade Scenario.cfg (Scenario.at_ "2")
              (Scenario.admin [("id", VStr "uuid-1")]) Scenario.enrolled)
    as (H1 & _ & H2 & _).
  - split; [discriminate | reflexivity].
  - reflexivity.
  - split; [exact H1|exact H2].
Defined.

(** ** What each route writes *)

Lemma uploaded_files (req : request) (w : world) :
  maisons_json (uploaded req w) = maisons_json w
  /\ utilisateurs_json (uploaded req w) = utilisateurs_json w
  /\ paiements_json (uploaded req w) = paiements_json w
  /\ transactions_json (uploaded req w) = transactions_json w
  /\ admin_actions_log (uploaded req w) = admin_actions_log w.
Proof. repeat split. Qed.

(** POST /api/maisons writes the listings file and the disk, nothing else. *)
Lemma create_frame (cfg : config) (o : oracle) (req : request) (w : world) :
  let w' := snd (app cfg o POST_maisons req w) in
  utilisateurs_json w' = utilisateurs_json w
  /\ paiements_json w' = paiements_json w
  /\ transactions_json w' = transactions_json w
  /\ admin_actions_log w' = admin_actions_log w.
Proof.
  intros w'. subst w'.
  destruct (validateMaisonFields (body req)) as [[|e r]|e] eqn:V.
  - destruct (create_accepted cfg o req w V) as (s & _ & ->). repeat split.
  - rewrite (create_invalid cfg o req w (e :: r) V) by discriminate. cbn [snd].
    destruct (remove_uploads (files_or_empty req) (uploaded req w))
      as (_ & _ & H2 & H3 & H4 & H5 & _).
    rewrite H2, H3, H4, H5. repeat split.
  - rewrite (create_thrown cfg o req w e V). repeat split.
Qed.

(** POST /api/admin/supprimerMaison writes the listings file, the disk and
    at most one line of log. *)
Lemma supprimerMaison_frame (cfg : config) (o : oracle) (req : request) (w : world) :
  let res := fst (app cfg o POST_admin_supprimerMaison req w) in
  let w' := snd (app cfg o POST_admin_supprimerMaison req w) in
  utilisateurs_json w' = utilisateurs_json w
  /\ paiements_json w' = paiements_json w
  /\ transactions_json w' = transactions_json w
  /\ ((status res <> 200 /\ admin_actions_log w' = admin_actions_log w)
      \/ (status res = 200
          /\ exists line, admin_actions_log w' = (admin_actions_log w ++ [line])%list
                          /\ log_date line = log_now o)).
Proof.
  intros res w'. subst res w'.
  destruct (authorized_dec cfg req) as [Hauth|Hno].
  - destruct (truthy (prop (body req) "id")) eqn:Hid.
    + destruct (find (fun x => same_id (Maison.id x) (prop (body req) "id"))
                     (collection MAISONS_FILE w)) as [m|] eqn:Hfind.
      * destruct (supprimerMaison_found cfg o req w m Hauth Hid Hfind) as (d & -> & _).
        repeat split. right. split; [reflexivity|]. eexists. split; reflexivity.
      * unfold app, handler, POST_api_admin_supprimerMaison.
        rewrite (adminAuth_next cfg req _ Hauth), Hid.
        unfold serve, bind, readJson. cbn [negb]. rewrite Hfind.
        repeat split. left. split; [discriminate|reflexivity].
    + unfold app, handler, POST_api_admin_supprimerMaison.
      rewrite (adminAuth_next cfg req _ Hauth), Hid.
      repeat split. left. split; [discriminate|reflexivity].
  - unfold app, handler, POST_api_admin_supprimerMaison.
    rewrite (adminAuth_refused cfg req _ Hno).
    repeat split. left. split; [discriminate|reflexivity].
Qed.

Lemma route_frame (cfg : config) (o : oracle) (r : route) (req : request) (w : world) :
  let w' := snd (app cfg o r req w) in
  (writes_maisons r = false -> maisons_json w' = maisons_json w)
  /\ (writes_users r = false -> utilisateurs_json w' = utilisateurs_json w)
  /\ (writes_paiements r = false -> paiements_json w' = paiements_json w)
  /\ (writes_transactions r = false -> transactions_json w' = transactions_json w)
  /\ (touches_disk r = false -> disk w' = disk w).
Proof.
  intros w'. subst w'. destruct r;
    try (run_handler; repeat split; intros H; reflexivity || discriminate H).
  - destruct (create_frame cfg o req w) as (H1 & H2 & H3 & _).
    repeat split; intros H; try discriminate H; assumption.
  - destruct (supprimerMaison_frame cfg o req w) as (H1 & H2 & H3 & _).
    repeat split; intros H; try discriminate H; assumption.
Qed.

(** X15. A request is written to the files of its route only: the listings file
    by the four listing routes, the users file by signup and user deletion,
    the payments file by the three payment routes, the transactions file by
    the approval of a payment, the upload directory by submission and listing
    deletion; every other file is left exactly as it was. *)
Theorem routes_write_only_their_files (cfg : config) (o : oracle) (r : route)
    (req : request) (w : world) :
  let w' := snd (app cfg o r req w) in
  (writes_maisons r = false -> maisons_json w' = maisons_json w)
  /\ (writes_users r = false -> utilisateurs_json w' = utilisateurs_json w)
  /\ (writes_paiements r = false -> paiements_json w' = paiements_json w)
  /\ (writes_transactions r = false -> transactions_json w' = transactions_json w)
  /\ (touches_disk r = false -> disk w' = disk w).
Proof. exact (route_frame cfg o r req w). Qed.

Lemma routes_write_only_their_files_witness :
  let w' := snd (app Scenario.cfg (Scenario.at_ "2") POST_admin_refuserMaison
                     Scenario.refuse_it Scenario.listed) in
  utilisateurs_json w' = utilisateurs_json Scenario.listed
  /\ paiements_json w' = paiements_json Scenario.listed
  /\ transactions_json w' = transactions_json Scenario.listed
  /\ disk w' = disk Scenario.listed.
Proof.
  intros w'.
  destruct (routes_write_only_their_files Scenario.cfg (Scenario.at_ "2")
              POST_admin_refuserMaison Scenario.refuse_it Scenario.listed)
    as (_ & H1 & H2 & H3 & H4).
  split; [apply H1; reflexivity|]. split; [apply H2; reflexivity|].
  split; [apply H3; reflexivity|apply H4; reflexivity].
Defined.

(** ** The admin log *)

Lemma log_step (cfg : config) (o : oracle) (r : route) (req : request) (w : world) :
  let res := fst (app cfg o r req w) in
  let w' := snd (app cfg o r req w) in
  ((logged_route r = false \/ status res <> 200)
   /\ admin_actions_log w' = admin_actions_log w)
  \/ (logged_route r = true /\ status res = 200
      /\ exists line, admin_actions_log w' = (admin_actions_log w ++ [line])%list
                      /\ log_date line = log_now o).
Proof.
  intros res w'. subst res w'. destruct r;
    try (run_handler;
         first [ left; split; [first [left; reflexivity | right; discriminate]|reflexivity]
               | right; split; [reflexivity|split; [reflexivity|]];
                 eexists; split; reflexivity ]).
  - destruct (create_frame cfg o req w) as (_ & _ & _ & H).
    left. split; [left; reflexivity|exact H].
  - destruct (supprimerMaison_frame cfg o req w) as (_ & _ & _ & [[H1 H2]|[H1 H2]]).
    + left. split; [right; exact H1|exact H2].
    + right. split; [reflexivity|split; [exact H1|exact H2]].
Qed.

(** X16. The admin log only grows, by one line per admin change: a request
    answered 200 by one of the six routes that change something as admin adds
    exactly one line, dated at the time of the call, after the lines that were
    there; every other request - any other route, or a refusal (403, 400,
    404) - leaves the log as it was. *)
Theorem admin_log_one_line_per_change (cfg : config) (o : oracle) (r : route)
    (req : request) (w : world) :
  let res := fst (app cfg o r req w) in
  let w' := snd (app cfg o r req w) in
  (logged_route r = true -> status res = 200 ->
   exists line, admin_actions_log w' = (admin_actions_log w ++ [line])%list
                /\ log_date line = log_now o)
  /\ (logged_route r = false \/ status res <> 200 ->
      admin_actions_log w' = admin_actions_log w).
Proof.
  intros res w'. destruct (log_step cfg o r req w) as [[H1 H2]|(H1 & H2 & H3)];
    fold res w' in H1, H2 |- *.
  - split; [|intros _; exact H2]. intros Hr Hs. exfalso.
    destruct H1 as [H1|H1]; [rewrite Hr in H1; discriminate H1|now apply H1].
  - fold res w' in H3. split; [intros _ _; exact H3|].
    intros [H|H]; exfalso; [rewrite H1 in H; discriminate H|now apply H].
Qed.

Lemma admin_log_one_line_per_change_witness :
  (exists line,
     admin_actions_log Scenario.refused = (admin_actions_log Scenario.listed ++ [line])%list
     /\ log_date line = "2024-05-02T10:00:00.001Z")
  /\ admin_actions_log
       (snd (app Scenario.cfg (Scenario.at_ "2") POST_admin_refuserMaison
                 (Scenario.admin [("id", VStr "uuid-404")]) Scenario.listed))
     = admin_actions_log Scenario.listed.
Proof.
  split.
  - apply (admin_log_one_line_per_change Scenario.cfg (Scenario.at_ "2")
             POST_admin_refuserMaison Scenario.refuse_it Scenario.listed); reflexivity.
  - apply (admin_log_one_line_per_change Scenario.cfg (Scenario.at_ "2")
             POST_admin_refuserMaison (Scenario.admin [("id", VStr "uuid-404")])
             Scenario.listed).
    right. discriminate.
Defined.

(** ** Payments and the ledger over any request *)

Lemma ledger_step (cfg : config) (o : oracle) (r : route) (req : request) (w : world) :
  ledger_change cfg o req
    (collection PAIEMENTS_FILE w) (collection TRANSACTIONS_FILE w)
    (collection PAIEMENTS_FILE (snd (app cfg o r req w)))
    (collection TRANSACTIONS_FILE (snd (app cfg o r req w))).
Proof.
  destruct (route_frame cfg o r req w) as (_ & _ & FP & FT & _).
  destruct r;
    try (rewrite (collection_same PAIEMENTS_FILE w _ (FP eq_refl)),
           (collection_same TRANSACTIONS_FILE w _ (FT eq_refl));
         apply ledger_same).
  - (* POST /api/paiements *)
    rewrite (collection_same TRANSACTIONS_FILE w _ (FT eq_refl)). clear FP FT.
    destruct (truthy (prop (body req) "utilisateurId")) eqn:Hu;
      [destruct (truthy (prop (body req) "maisonId")) eqn:Hm;
       [destruct (truthy (prop (body req) "montant")) eqn:Ha|]|].
    + destruct (paiement_recorded cfg o req w Hu Hm Ha) as (_ & _ & ->).
      apply ledger_recorded.
    + unfold app, handler, POST_api_paiements. rewrite Hu, Hm, Ha. apply ledger_same.
    + unfold app, handler, POST_api_paiements. rewrite Hu, Hm. apply ledger_same.
    + unfold app, handler, POST_api_paiements. rewrite Hu. apply ledger_same.
  - (* POST /api/admin/validerPaiement *)
    clear FP FT. destruct (authorized_dec cfg req) as [Hauth|Hno].
    + destruct (truthy (prop (body req) "paiementId")) eqn:Hid.
      * destruct (find (fun x => same_id (Paiement.id x) (prop (body req) "paiementId"))
                       (collection PAIEMENTS_FILE w)) as [p|] eqn:Hfind.
        -- destruct (validerPaiement_collections cfg o req w p Hauth Hid Hfind) as [-> ->].
           now apply ledger_approved.
        -- unfold app, handler, POST_api_admin_validerPaiement.
           rewrite (adminAuth_next cfg req _ Hauth), Hid.
           unfold serve, bind, readJson. cbn [negb]. rewrite Hfind. apply ledger_same.
      * unfold app, handler, POST_api_admin_validerPaiement.
        rewrite (adminAuth_next cfg req _ Hauth), Hid. apply ledger_same.
    + unfold app, handler, POST_api_admin_validerPaiement.
      rewrite (adminAuth_refused cfg req _ Hno). apply ledger_same.
  - (* POST /api/admin/refuserPaiement *)
    rewrite (collection_same TRANSACTIONS_FILE w _ (FT eq_refl)). clear FP FT.
    destruct (authorized_dec cfg req) as [Hauth|Hno].
    + destruct (truthy (prop (body req) "paiementId")) eqn:Hid.
      * destruct (find (fun x => same_id (Paiement.id x) (prop (body req) "paiementId"))
                       (collection PAIEMENTS_FILE w)) as [p|] eqn:Hfind.
        -- destruct (refuserPaiement_collection cfg o req w p Hauth Hid Hfind) as [-> _].
           now apply ledger_refused with (p := p).
        -- unfold app, handler, POST_api_admin_refuserPaiement.
           rewrite (adminAuth_next cfg req _ Hauth), Hid.
           unfold serve, bind, readJson. cbn [negb]. rewrite Hfind. apply ledger_same.
      * unfold app, handler, POST_api_admin_refuserPaiement.
        rewrite (adminAuth_next cfg req _ Hauth), Hid. apply ledger_same.
    + unfold app, handler, POST_api_admin_refuserPaiement.
      rewrite (adminAuth_refused cfg req _ Hno). apply ledger_same.
Qed.

Lemma map_assign_kept {A B : Type} (p : A -> bool) (f : A -> A) (g : A -> B)
    (l : list A) :
  (forall x, g (f x) = g x) -> map g (assign p f l) = map g l.
Proof.
  intros H. induction l as [|x r IH]; simpl; [reflexivity|].
  destruct (p x); simpl; [now rewrite H|now rewrite IH].
Qed.

(** X17. No request takes anything out of the ledger or changes what is in it:
    after any request the transactions collection is what it was, or what
    it was followed by one new Transaction; the payments are the same, by id,
    amount, date and receiving phone, in the same order, or the same followed
    by one new payment. No payment and no Transaction is ever deleted. *)
Theorem ledger_only_grows (cfg : config) (o : oracle) (r : route) (req : request)
    (w : world) :
  let w' := snd (app cfg o r req w) in
  let kept p := (Paiement.id p, Paiement.montant p, Paiement.date p,
                 Paiement.receptionPhone p) in
  (collection TRANSACTIONS_FILE w' = collection TRANSACTIONS_FILE w
   \/ exists t, collection TRANSACTIONS_FILE w'
                = (collection TRANSACTIONS_FILE w ++ [t])%list)
  /\ (map kept (collection PAIEMENTS_FILE w') = map kept (collection PAIEMENTS_FILE w)
      \/ exists p, map kept (collection PAIEMENTS_FILE w')
                   = (map kept (collection PAIEMENTS_FILE w) ++ [kept p])%list).
Proof.
  intros w' kept. subst w'.
  destruct (ledger_step cfg o r req w) as [| |p Hp|p Hp].
  - split; left; reflexivity.
  - split; [left; reflexivity|]. right. eexists. rewrite map_app. reflexivity.
  - split; [right; eexists; reflexivity|]. left.
    apply map_assign_kept. intros x. now destruct x.
  - split; [left; reflexivity|]. left.
    apply map_assign_kept. intros x. now destruct x.
Qed.

(** ** The ledger is backed by moderated payments *)

Lemma find_same_id (s : string) (l : list Paiement.t) :
  find (fun x => same_id (Paiement.id x) (VStr s)) l
  = find (fun x => Paiement.id x =? s) l.
Proof. reflexivity. Qed.

Lemma same_id_inv (stored : string) (v : value) :
  same_id stored v = true -> v = VStr stored.
Proof.
  destruct v; simpl; try discriminate. intros H. apply String.eqb_eq in H. now subst.
Qed.

(** Looking a payment up by id after an assignment through [find]: the
    same record as before, changed if it is the one assigned to. *)
Lemma find_id_assign (v : value) (f : Paiement.t -> Paiement.t) (k : string)
    (l : list Paiement.t) :
  (forall x, Paiement.id (f x) = Paiement.id x) ->
  find (fun x => Paiement.id x =? k) (assign (fun x => same_id (Paiement.id x) v) f l)
  = option_map (fun x => if same_id (Paiement.id x) v then f x else x)
               (find (fun x => Paiement.id x =? k) l).
Proof.
  intros Hf. induction l as [|y r IH]; simpl; [reflexivity|].
  destruct (same_id (Paiement.id y) v) eqn:Hy; simpl.
  - rewrite Hf. destruct (String.eqb_spec (Paiement.id y) k) as [E|N]; simpl.
    + now rewrite Hy.
    + destruct (find (fun x => Paiement.id x =? k) r) as [x|] eqn:F; [|reflexivity].
      simpl. apply find_some in F as [_ Hx]. apply String.eqb_eq in Hx.
      apply same_id_inv in Hy. subst v. simpl. rewrite Hx.
      destruct (String.eqb_spec k (Paiement.id y)); [congruence|reflexivity].
  - destruct (String.eqb_spec (Paiement.id y) k) as [E|N]; simpl.
    + now rewrite Hy.
    + exact IH.
Qed.

Lemma ledger_backed_change (cfg : config) (o : oracle) (req : request)
    (P P' : list Paiement.t) (T T' : list Transaction.t) :
  ledger_change cfg o req P T P' T' -> ledger_backed P T -> ledger_backed P' T'.
Proof.
  intros C H. destruct C as [| |p0 Hp0|p0 Hp0]; intros t Ht.
  - now apply H.
  - destruct (H t Ht) as (p & Hp & Hs & Hm). exists p.
    rewrite find_app, Hp. tauto.
  - assert (Hk : forall k p, find (fun x => Paiement.id x =? k) P = Some p ->
                 Paiement.statut p <> en_attente \/
                 same_id (Paiement.id p) (prop (body req) "paiementId") = true ->
                 exists p', find (fun x => Paiement.id x =? k)
                                 (assign (fun x => same_id (Paiement.id x)
                                                     (prop (body req) "paiementId"))
                                         (Paiement.set_statut valide) P) = Some p'
                            /\ Paiement.statut p' <> en_attente
                            /\ Paiement.montant p' = Paiement.montant p).
    { intros k p Hp Hor. rewrite find_id_assign by (intros x; now destruct x).
      rewrite Hp. simpl.
      destruct (same_id (Paiement.id p) (prop (body req) "paiementId")) eqn:E.
      - eexists. split; [reflexivity|]. destruct p; simpl. split; [discriminate|reflexivity].
      - exists p. split; [reflexivity|]. split; [|reflexivity].
        destruct Hor as [Hor|Hor]; [exact Hor|discriminate Hor]. }
    apply in_app_or in Ht as [Ht|[<-|[]]].
    + destruct (H t Ht) as (p & Hp & Hs & Hm).
      destruct (Hk _ p Hp (or_introl Hs)) as (p' & Hp' & Hs' & Hm').
      exists p'. rewrite Hm'. tauto.
    + simpl. pose proof Hp0 as Hfind. apply find_some in Hp0 as [_ Hid].
      pose proof (same_id_inv _ _ Hid) as Ev. rewrite Ev in Hfind.
      rewrite find_same_id in Hfind.
      destruct (Hk _ p0 Hfind (or_intror Hid)) as (p' & Hp' & Hs' & Hm').
      exists p'. tauto.
  - destruct (H t Ht) as (p & Hp & Hs & Hm).
    rewrite find_id_assign by (intros x; now destruct x). rewrite Hp. simpl.
    destruct (same_id (Paiement.id p) (prop (body req) "paiementId")).
    + eexists. split; [reflexivity|]. destruct p; simpl in *. split; [discriminate|exact Hm].
    + exists p. tauto.
Qed.

Lemma reachable_ledger_backed (cfg : config) (w : world) :
  reachable cfg w ->
  ledger_backed (collection PAIEMENTS_FILE w) (collection TRANSACTIONS_FILE w).
Proof.
  induction 1 as [|w o r req Hw IH].
  - intros t [].
  - apply (ledger_backed_change cfg o req _ _ _ _ (ledger_step cfg o r req w) IH).
Qed.

(** X18. In every world the application can reach, each Transaction of the
    ledger is backed by a payment: looking its [paiementId] up in the payments
    collection finds a payment that is no longer pending (approved, or
    refused since) and whose amount is the amount of the Transaction. *)
Theorem transactions_are_backed_by_payments (cfg : config) (w : world) :
  reachable cfg w ->
  forall t, In t (collection TRANSACTIONS_FILE w) ->
    exists p,
      find (fun x => Paiement.id x =? Transaction.paiementId t)
           (collection PAIEMENTS_FILE w) = Some p
      /\ Paiement.statut p <> en_attente
      /\ Paiement.montant p = Transaction.montant t.
Proof. intros Hw. exact (reachable_ledger_backed cfg w Hw). Qed.

Lemma transactions_are_backed_by_payments_witness :
  exists p,
    find (fun x => Paiement.id x =? "uuid-1") (collection PAIEMENTS_FILE Scenario.approved)
    = Some p
    /\ Paiement.statut p <> en_attente
    /\ Paiement.montant p = Num 100.
Proof.
  assert (R : reachable Scenario.cfg Scenario.approved).
  { unfold Scenario.approved, Scenario.paid.
    apply reachable_app, reachable_app, reachable_initial. }
  apply (transactions_are_backed_by_payments Scenario.cfg Scenario.approved R
           {| Transaction.id := "uuid-2"; Transaction.paiementId := "uuid-1";
              Transaction.montant := Num 100;
              Transaction.date := "2024-05-02T10:00:00.000Z" |}).
  left. reflexivity.
Defined.

(** ** What every stored listing satisfies *)

Lemma JSON_number_stored (x : float) : stored_price (JSON_number x).
Proof.
  unfold JSON_number. destruct (is_finite x) eqn:Hf; [|now left].
  right. eexists. split; [reflexivity|].
  destruct (is_zero x); [reflexivity|exact Hf].
Qed.

Lemma listing_bounds_change (l l' : list Maison.t) :
  maisons_change l l' ->
  (forall m, In m l ->
     (List.length (Maison.images m) <= MAX_IMAGES)%nat /\ stored_price (Maison.prix m)) ->
  forall m, In m l' ->
    (List.length (Maison.images m) <= MAX_IMAGES)%nat /\ stored_price (Maison.prix m).
Proof.
  intros C H m Hm. destruct C as [|o req titre|id|id raison|id].
  - now apply H.
  - apply in_app_or in Hm as [Hm|[<-|[]]]; [now apply H|]. split.
    + unfold Maison.json, new_maison, Maison.images. rewrite length_map.
      apply firstn_le_length.
    + apply JSON_number_stored.
  - apply in_assign in Hm as [Hm|(x & Hx & ->)]; [now apply H|].
    destruct (H x Hx). now destruct x.
  - apply in_assign in Hm as [Hm|(x & Hx & ->)]; [now apply H|].
    destruct (H x Hx). now destruct x.
  - apply filter_In in Hm as [Hm _]. now apply H.
Qed.

Lemma reachable_listing_bounds (cfg : config) (w : world) :
  reachable cfg w ->
  forall m, In m (collection MAISONS_FILE w) ->
    (List.length (Maison.images m) <= MAX_IMAGES)%nat /\ stored_price (Maison.prix m).
Proof.
  induction 1 as [|w o r req Hw IH].
  - intros m [].
  - apply (listing_bounds_change _ _ (maisons_step cfg o r req w) IH).
Qed.

(** X19. In every world the application can reach, every stored listing has at
    most five images, and a price that is a finite number or [null] (never
    NaN, never an infinity). *)
Theorem stored_listings_are_bounded (cfg : config) (w : world) :
  reachable cfg w ->
  forall m, In m (collection MAISONS_FILE w) ->
    (List.length (Maison.images m) <= 5)%nat
    /\ (Maison.prix m = Null \/ exists x, Maison.prix m = Num x /\ is_finite x = true).
Proof. intros Hw. exact (reachable_listing_bounds cfg w Hw). Qed.

Lemma stored_listings_are_bounded_witness :
  (List.length (Maison.images Scenario.refused_listing) <= 5)%nat
  /\ (Maison.prix Scenario.refused_listing = Null
      \/ exists x, Maison.prix Scenario.refused_listing = Num x /\ is_finite x = true).
Proof.
  assert (R : reachable Scenario.cfg Scenario.refused).
  { unfold Scenario.refused, Scenario.listed.
    apply reachable_app, reachable_app, reachable_initial. }
  apply (stored_listings_are_bounded Scenario.cfg Scenario.refused R
           Scenario.refused_listing).
  vm_compute. left. reflexivity.
Defined.

(** ** From validation to the public list *)

Lemma in_assigned {A : Type} (p : A -> bool) (f : A -> A) (l : list A) (x : A) :
  find p l = Some x -> In (f x) (assign p f l).
Proof.
  induction l as [|y r IH]; simpl; [discriminate|].
  destruct (p y); intros H.
  - injection H as ->. now left.
  - right. now apply IH.
Qed.

(** X20. Once the listing found is validated, the public list shows it, with
    the status [valide] and nothing else of it changed - whatever its status
    was before, so also after a refusal. *)
Theorem validated_listing_is_public (cfg : config) (o o' : oracle)
    (req req' : request) (w : world) (m : Maison.t) :
  let id := prop (body req) "id" in
  let w' := snd (app cfg o POST_admin_validerMaison req w) in
  authorized cfg req ->
  truthy id = true ->
  find (fun x => same_id (Maison.id x) id) (collection MAISONS_FILE w) = Some m ->
  exists l,
    fst (app cfg o' GET_maisons req' w') = {| status := 200; sent := Maisons l |}
    /\ In (Maison.set_statut valide m) l.
Proof.
  intros id w' Hauth Hid Hfind.
  pose proof (validerMaison_collection cfg o req w m Hauth Hid Hfind) as E.
  fold id w' in E. clearbody w'.
  unfold app, handler, GET_api_maisons, serve, bind, readJson. cbn [fst].
  eexists. split; [reflexivity|]. rewrite E. apply filter_In. split.
  - now apply in_assigned.
  - now destruct m.
Qed.

Lemma validated_listing_is_public_witness :
  exists l,
    fst (app Scenario.cfg (Scenario.at_ "4") GET_maisons (Scenario.visitor [])
             Scenario.revalidated)
    = {| status := 200; sent := Maisons l |}
    /\ In (Maison.set_statut valide Scenario.refused_listing) l.
Proof.
  apply (validated_listing_is_public Scenario.cfg (Scenario.at_ "3") (Scenario.at_ "4")
           Scenario.validate_it (Scenario.visitor []) Scenario.refused
           Scenario.refused_listing).
  - split; [discriminate | reflexivity].
  - reflexivity.
  - reflexivity.
Defined.

(** ** A validation that throws *)

(** X21. When a text field of the submission is truthy and not a string, the
    validation throws; the [catch] of the handler answers 500, no collection
    and no line of log is written, and the disk is left as multer filled it:
    the files of the request are not removed. *)
Theorem thrown_validation_leaves_uploads (cfg : config) (o : oracle) (req : request)
    (w : world) (e : exn) :
  let w' := snd (app cfg o POST_maisons req w) in
  validateMaisonFields (body req) = inr e ->
  fst (app cfg o POST_maisons req w)
  = {| status := 500; sent := Message false "Erreur serveur lors de l'ajout" |}
  /\ maisons_json w' = maisons_json w
  /\ admin_actions_log w' = admin_actions_log w
  /\ disk w' = (disk w ++ map Upload.path (files_or_empty req))%list.
Proof.
  intros w' H. subst w'. rewrite (create_thrown cfg o req w e H). repeat split.
Qed.

Lemma thrown_validation_leaves_uploads_witness :
  let req := Scenario.visitor [("titre", VStr "Villa Gombe"); ("prix", VStr "250");
                               ("ville", VBool true)] in
  fst (app Scenario.cfg (Scenario.at_ "1") POST_maisons req initial)
  = {| status := 500; sent := Message false "Erreur serveur lors de l'ajout" |}
  /\ maisons_json (snd (app Scenario.cfg (Scenario.at_ "1") POST_maisons req initial))
     = Some [].
Proof.
  intros req.
  destruct (thrown_validation_leaves_uploads Scenario.cfg (Scenario.at_ "1") req initial
              (TypeError "body.ville.trim is not a function")) as (H1 & H2 & _).
  - reflexivity.
  - split; [exact H1|exact H2].
Defined.

Lemma validation_passes_exactly_when_witness :
  validateMaisonFields (body (Scenario.annonce "250")) = inl [].
Proof.
  apply (validation_passes_exactly_when (body (Scenario.annonce "250"))).
  repeat split; try (eexists; split; [reflexivity|vm_compute; lia]).
Defined.

(** ** A file that cannot be read *)

(** X22. [readJson] turns a payments file that cannot be read into the empty
    collection: the admin list is empty, an approval finds nothing (404) and
    writes nothing, and the next payment recorded starts the file over with
    that payment alone. *)
Theorem unreadable_payments_read_as_empty (cfg : config) (o : oracle) (req : request)
    (w : world) :
  paiements_json w = None ->
  (authorized cfg req ->
   app cfg o GET_admin_paiements req w = ({| status := 200; sent := Paiements [] |}, w))
  /\ (authorized cfg req -> truthy (prop (body req) "paiementId") = true ->
      app cfg o POST_admin_validerPaiement req w
      = ({| status := 404; sent := Message false ("Paiement non trouv" ++ e_acute) |}, w))
  /\ (truthy (prop (body req) "utilisateurId") = true ->
      truthy (prop (body req) "maisonId") = true ->
      truthy (prop (body req) "montant") = true ->
      paiements_json (snd (app cfg o POST_paiements req w))
      = Some [new_paiement cfg o req]).
Proof.
  intros Hnone.
  assert (E : collection PAIEMENTS_FILE w = []).
  { unfold collection. cbn [content PAIEMENTS_FILE]. now rewrite Hnone. }
  split; [|split].
  - intros Hauth. unfold app, handler, GET_api_admin_paiements.
    rewrite (adminAuth_next cfg req _ Hauth).
    unfold serve, bind, readJson. now rewrite E.
  - intros Hauth Hid. unfold app, handler, POST_api_admin_validerPaiement.
    rewrite (adminAuth_next cfg req _ Hauth), Hid.
    unfold serve, bind, readJson. cbn [negb]. now rewrite E.
  - intros Hu Hm Ha. unfold app, handler, POST_api_paiements. rewrite Hu, Hm, Ha.
    unfold serve, bind, readJson, writeJson, res_json, ret. cbn [negb orb snd].
    rewrite E. reflexivity.
Qed.

Lemma unreadable_payments_read_as_empty_witness :
  let broken := Build_world (Some []) (Some []) None (Some []) [] [] in
  app Scenario.cfg (Scenario.at_ "1") POST_admin_validerPaiement Scenario.approve broken
  = ({| status := 404; sent := Message false ("Paiement non trouv" ++ e_acute) |}, broken).
Proof.
  intros broken.
  apply (unreadable_payments_read_as_empty Scenario.cfg (Scenario.at_ "1")
           Scenario.approve broken).
  - reflexivity.
  - split; [discriminate | reflexivity].
  - reflexivity.
Defined.
